(** * DexParser: a shallow embedding of [dex_parser.py]

    The parser reads one immutable byte buffer and builds records whose
    fields are integers decoded from slices of that buffer.  Python
    integers are unbounded, so they are embedded as [Z]; [bytes] values
    are lists of [byte]; a constructor or method that can raise returns a
    [result].  Every class of the source is a module holding its record
    (the [__slots__]), its constructor [init] ([__init__]) and its
    methods under their own names.

    One step depends on the interpreter: what [AccessFlag(v)] does with
    a bit that names no flag.  The functions that reach it take the
    boundary of [enum.Flag] as their first argument, and the properties
    are stated for either boundary. *)

From Stdlib Require Import ZArith Lia List Bool.
From Stdlib Require Import Strings.String Strings.Byte.
From stdpp Require Import base tactics option list numbers.

Import ListNotations.
Local Open Scope Z_scope.

(** ** Exceptions and the error monad *)

(** The exceptions a decode can end with.  [BadDexFileError] is the
    parser's own class; the others are Python's built-in ones. *)
Inductive exn : Set :=
| BadDexFileError
| IndexError
| UnicodeDecodeError
| ValueError
| AttributeError
| TypeError
| NameError.

Inductive result (A : Type) : Type :=
| Ok (a : A)
| Raise (e : exn).
Arguments Ok {A} a.
Arguments Raise {A} e.

#[global] Instance exn_eq_dec : EqDecision exn.
Proof. solve_decision. Defined.

#[global] Instance byte_eq_dec : EqDecision byte := Byte.byte_eq_dec.

#[global] Instance result_ret : MRet result := fun A a => Ok a.
#[global] Instance result_bind : MBind result := fun A B f m =>
  match m with
  | Ok a => f a
  | Raise e => Raise e
  end.
#[global] Instance result_fmap : FMap result := fun A B f m =>
  match m with
  | Ok a => Ok (f a)
  | Raise e => Raise e
  end.

(** [[f(x) for x in xs]]: the elements are built left to right and the
    first exception ends the comprehension. *)
Fixpoint comprehension {A B} (f : A -> result B) (xs : list A) : result (list B) :=
  match xs with
  | [] => Ok []
  | x :: xs' => y ← f x; ys ← comprehension f xs'; Ok (y :: ys)
  end.

(** ** Python sequences *)

Abbreviation bytes := (list byte).

(** The integer a byte is when a [bytes] value is iterated or indexed. *)
Definition byte_val (b : byte) : Z := Z.of_N (Byte.to_N b).

(** Where a slice bound lands in a sequence of [len] elements: a negative
    bound counts from the end, and both ends are clamped. *)
Definition slice_bound (i len : Z) : Z :=
  if i <? 0 then Z.max 0 (i + len) else Z.min i len.

(** [s[lo:hi]]. *)
Definition py_slice {A} (lo hi : Z) (s : list A) : list A :=
  let len := Z.of_nat (length s) in
  let lo' := slice_bound lo len in
  let hi' := slice_bound hi len in
  take (Z.to_nat (hi' - lo')) (drop (Z.to_nat lo') s).

(** [s[lo:]]. *)
Definition py_slice_from {A} (lo : Z) (s : list A) : list A :=
  drop (Z.to_nat (slice_bound lo (Z.of_nat (length s)))) s.

(** [s[i]]: raises [IndexError] outside [-len, len). *)
Definition py_index {A} (s : list A) (i : Z) : result A :=
  let len := Z.of_nat (length s) in
  let i' := if i <? 0 then i + len else i in
  if (0 <=? i') && (i' <? len) then
    match s !! Z.to_nat i' with
    | Some x => Ok x
    | None => Raise IndexError
    end
  else Raise IndexError.

(** [range(start, stop, step)] for a positive [step]. *)
Definition py_range (start stop step : Z) : list Z :=
  (fun k => start + step * k) <$> seqZ 0 ((stop - start + step - 1) `div` step).

(** [int.from_bytes(b, "little")]. *)
Fixpoint int_from_bytes_little (b : bytes) : Z :=
  match b with
  | [] => 0
  | x :: b' => byte_val x + 256 * int_from_bytes_little b'
  end.

(** [int.from_bytes(b, "little", signed=True)]: two's complement over the
    width of [b]. *)
Definition int_from_bytes_little_signed (b : bytes) : Z :=
  let v := int_from_bytes_little b in
  let w := 8 * Z.of_nat (length b) in
  if (0 <? w) && (2 ^ (w - 1) <=? v) then v - 2 ^ w else v.

(** ** Attribute lookup

    A class is described by the names it declares.  Assigning
    [self.name] on an instance of a class with [__slots__] raises
    [AttributeError] when [name] is not a slot; looking up a method the
    class does not define raises [AttributeError] too. *)
Definition declares (names : list string) (name : string) : bool :=
  existsb (String.eqb name) names.

Definition py_setattr (slots : list string) (name : string) : result unit :=
  if declares slots name then Ok tt else Raise AttributeError.

Definition lookup_name {M} (table : list (string * M)) (name : string) : option M :=
  snd <$> find (fun p => String.eqb name (fst p)) table.

(** [obj.name] for a method [name] of the class of [obj]. *)
Definition py_getattr {M} (methods : list (string * M)) (name : string) : result M :=
  match lookup_name methods name with
  | Some m => Ok m
  | None => Raise AttributeError
  end.

(** A bare [name] evaluated at module level: [NameError] when the module
    binds no such name. *)
Definition py_global {M} (globals : list (string * M)) (name : string) : result M :=
  match lookup_name globals name with
  | Some m => Ok m
  | None => Raise NameError
  end.

(** What the zero-argument methods used by the parser return. *)
Inductive pyval : Type :=
| PyInt (z : Z)
| PyBytes (b : bytes).

(** [len(v)]. *)
Definition py_len (v : pyval) : result Z :=
  match v with
  | PyBytes b => Ok (Z.of_nat (length b))
  | PyInt _ => Raise TypeError
  end.

(** [range(obj)] needs [obj.__index__()]; an object without it "cannot be
    interpreted as an integer" ([TypeError]). *)
Definition py_operator_index {T} (methods : list (string * (T -> pyval))) (obj : T)
  : result Z :=
  match lookup_name methods "__index__" with
  | Some m => match m obj with
              | PyInt z => Ok z
              | PyBytes _ => Raise TypeError
              end
  | None => Raise TypeError
  end.

Definition raise_if (cond : bool) (e : exn) : result unit :=
  if cond then Raise e else Ok tt.

(** ** Library functions the parser calls

    [zlib.adler32], [hashlib.sha1] and the strict UTF-8 codec are not
    part of the repository; they are embedded from their definitions
    (RFC 1950, FIPS 180-4, and the well-formed byte sequences of the
    Unicode standard) so that a header can be validated by evaluation. *)

(** [zlib.adler32(data)], with the default start value 1. *)
Definition adler32_step (s : Z * Z) (x : byte) : Z * Z :=
  let a := (fst s + byte_val x) mod 65521 in
  (a, (snd s + a) mod 65521).

Definition adler32 (data : bytes) : Z :=
  let s := fold_left adler32_step data (1, 0) in
  Z.lor (Z.shiftl (snd s) 16) (fst s).

Module SHA1.
Definition w32 (x : Z) : Z := x mod 2 ^ 32.
Definition rotl (n x : Z) : Z := w32 (Z.lor (Z.shiftl x n) (Z.shiftr x (32 - n))).
Definition not32 (x : Z) : Z := Z.lxor x 0xffffffff.

Definition byte_of_Z (z : Z) : byte :=
  match Byte.of_N (Z.to_N (z mod 256)) with
  | Some b => b
  | None => x00
  end.

(** Big-endian bytes of the low [8 * n] bits of [z]. *)
Fixpoint be_bytes (n : nat) (z : Z) : bytes :=
  match n with
  | O => []
  | S n' => byte_of_Z (Z.shiftr z (8 * Z.of_nat n')) :: be_bytes n' z
  end.

Definition be_word (b : bytes) : Z :=
  fold_left (fun acc x => acc * 256 + byte_val x) b 0.

(** The message, a single 1 bit, zeros, and the bit length on 64 bits,
    to a multiple of 64 bytes. *)
Definition pad (msg : bytes) : bytes :=
  let len := Z.of_nat (length msg) in
  msg ++ [x80] ++ repeat x00 (Z.to_nat ((55 - len) mod 64)) ++ be_bytes 8 (8 * len).

Fixpoint words (n : nat) (block : bytes) : list Z :=
  match n with
  | O => []
  | S n' => be_word (take 4 block) :: words n' (drop 4 block)
  end.

(** The message schedule, kept most recent word first. *)
Fixpoint schedule (n : nat) (w : list Z) : list Z :=
  match n with
  | O => w
  | S n' =>
      let x := Z.lxor (Z.lxor (nth 2 w 0) (nth 7 w 0))
                      (Z.lxor (nth 13 w 0) (nth 15 w 0)) in
      schedule n' (rotl 1 x :: w)
  end.

Definition state : Type := Z * Z * Z * Z * Z.

Definition f (t b c d : Z) : Z :=
  if t <? 20 then Z.lor (Z.land b c) (Z.land (not32 b) d)
  else if t <? 40 then Z.lxor (Z.lxor b c) d
  else if t <? 60 then Z.lor (Z.lor (Z.land b c) (Z.land b d)) (Z.land c d)
  else Z.lxor (Z.lxor b c) d.

Definition k (t : Z) : Z :=
  if t <? 20 then 0x5A827999
  else if t <? 40 then 0x6ED9EBA1
  else if t <? 60 then 0x8F1BBCDC
  else 0xCA62C1D6.

Fixpoint rounds (t : Z) (w : list Z) (s : state) : state :=
  match w with
  | [] => s
  | wt :: w' =>
      let '(a, b, c, d, e) := s in
      let tmp := w32 (rotl 5 a + f t b c d + e + k t + wt) in
      rounds (t + 1) w' (tmp, a, rotl 30 b, c, d)
  end.

Definition compress (h : state) (block : bytes) : state :=
  let w := rev (schedule 64 (rev (words 16 block))) in
  let '(h0, h1, h2, h3, h4) := h in
  let '(a, b, c, d, e) := rounds 0 w h in
  (w32 (h0 + a), w32 (h1 + b), w32 (h2 + c), w32 (h3 + d), w32 (h4 + e)).

Fixpoint blocks (n : nat) (msg : bytes) (h : state) : state :=
  match n with
  | O => h
  | S n' => blocks n' (drop 64 msg) (compress h (take 64 msg))
  end.

Definition init_state : state :=
  (0x67452301, 0xEFCDAB89, 0x98BADCFE, 0x10325476, 0xC3D2E1F0).

(** [hashlib.sha1(msg).digest()]. *)
Definition digest (msg : bytes) : bytes :=
  let p := pad msg in
  let '(h0, h1, h2, h3, h4) := blocks (length p / 64) p init_state in
  be_bytes 4 h0 ++ be_bytes 4 h1 ++ be_bytes 4 h2 ++ be_bytes 4 h3 ++ be_bytes 4 h4.
End SHA1.

(** [b.decode("utf8")]: the code points of [b], or [UnicodeDecodeError]
    when [b] is not well-formed UTF-8 (a truncated or overlong sequence,
    a surrogate, a value above U+10FFFF, a stray continuation byte). *)
Definition in_range (lo hi x : Z) : bool := (lo <=? x) && (x <=? hi).

Fixpoint utf8_decode (b : bytes) : result (list Z) :=
  match b with
  | [] => Ok []
  | x0 :: b1 =>
      let c0 := byte_val x0 in
      if c0 <? 0x80 then cons c0 <$> utf8_decode b1
      else if in_range 0xC2 0xDF c0 then
        match b1 with
        | x1 :: b2 =>
            let c1 := byte_val x1 in
            if in_range 0x80 0xBF c1
            then cons ((c0 - 0xC0) * 64 + (c1 - 0x80)) <$> utf8_decode b2
            else Raise UnicodeDecodeError
        | _ => Raise UnicodeDecodeError
        end
      else if in_range 0xE0 0xEF c0 then
        match b1 with
        | x1 :: x2 :: b3 =>
            let c1 := byte_val x1 in
            let c2 := byte_val x2 in
            let lo := if c0 =? 0xE0 then 0xA0 else 0x80 in
            let hi := if c0 =? 0xED then 0x9F else 0xBF in
            if in_range lo hi c1 && in_range 0x80 0xBF c2
            then cons ((c0 - 0xE0) * 4096 + (c1 - 0x80) * 64 + (c2 - 0x80))
                   <$> utf8_decode b3
            else Raise UnicodeDecodeError
        | _ => Raise UnicodeDecodeError
        end
      else if in_range 0xF0 0xF4 c0 then
        match b1 with
        | x1 :: x2 :: x3 :: b4 =>
            let c1 := byte_val x1 in
            let c2 := byte_val x2 in
            let c3 := byte_val x3 in
            let lo := if c0 =? 0xF0 then 0x90 else 0x80 in
            let hi := if c0 =? 0xF4 then 0x8F else 0xBF in
            if in_range lo hi c1 && in_range 0x80 0xBF c2 && in_range 0x80 0xBF c3
            then cons ((c0 - 0xF0) * 262144 + (c1 - 0x80) * 4096
                       + (c2 - 0x80) * 64 + (c3 - 0x80))
                   <$> utf8_decode b4
            else Raise UnicodeDecodeError
        | _ => Raise UnicodeDecodeError
        end
      else Raise UnicodeDecodeError
  end.


(** ** Module constants and enumerations *)

Definition MAGIC : bytes := [x64; x65; x78; x0a].
Definition ENDIAN_CONSTANT : Z := 0x12345678.
Definition REVERSE_ENDIAN_CONSTANT : Z := 0x78563412.
Definition NO_INDEX : Z := 0xffffffff.

Module AccessFlag.
(** An [enum.Flag]: a value is an integer whose bits are all named by a
    member.  The union of the member values is [0x37fff]. *)
Definition members : list Z :=
  [0x1; 0x2; 0x4; 0x8; 0x10; 0x20; 0x40; 0x40; 0x80; 0x80; 0x100; 0x200;
   0x400; 0x800; 0x1000; 0x2000; 0x4000; 0x10000; 0x20000].

Definition flag_mask : Z := fold_left Z.lor members 0.

(** What [enum.Flag] does with a bit that no member names is the
    boundary of the class.  The source sets none, so it is the default
    of the interpreter that runs the module, and the defaults differ:
    Python 3.10, the oldest that loads the module (its signatures write
    [X | None]), raises [ValueError], as the boundary [STRICT] of the
    later versions does; CPython 3.11 gives [enum.Flag] the boundary
    [CONFORM], which drops the bit. *)
Inductive boundary : Set := STRICT | CONFORM.

(** [AccessFlag(v)] under the boundary [fb], for the non-negative [v]
    the parser passes: the flag whose value is [v] when every bit of [v]
    is named, and otherwise [ValueError] or the flag of the named bits. *)
Definition of_int (fb : boundary) (v : Z) : result Z :=
  if Z.land v flag_mask =? v then Ok v
  else match fb with
       | STRICT => Raise ValueError
       | CONFORM => Ok (Z.land v flag_mask)
       end.
End AccessFlag.

Module TypeCode.
Inductive t : Set :=
| TYPE_HEADER_ITEM | TYPE_STRING_ID_ITEM | TYPE_TYPE_ID_ITEM
| TYPE_PROTO_ID_ITEM | TYPE_FIELD_ID_ITEM | TYPE_METHOD_ID_ITEM
| TYPE_CLASS_DEF_ITEM | TYPE_CALL_SITE_ID_ITEM | TYPE_METHOD_HANDLE_ITEM
| TYPE_MAP_LIST | TYPE_TYPE_LIST | TYPE_ANNOTATION_SET_REF_LIST
| TYPE_ANNOTATION_SET_ITEM | TYPE_CLASS_DATA_ITEM | TYPE_CODE_ITEM
| TYPE_STRING_DATA_ITEM | TYPE_DEBUG_INFO_ITEM | TYPE_ANNOTATION_ITEM
| TYPE_ENCODED_ARRAY_ITEM | TYPE_ANNOTATIONS_DIRECTORY_ITEM
| TYPE_HIDDENAPI_CLASS_DATA_ITEM.

Definition values : list (Z * t) :=
  [(0x0000, TYPE_HEADER_ITEM); (0x0001, TYPE_STRING_ID_ITEM);
   (0x0002, TYPE_TYPE_ID_ITEM); (0x0003, TYPE_PROTO_ID_ITEM);
   (0x0004, TYPE_FIELD_ID_ITEM); (0x0005, TYPE_METHOD_ID_ITEM);
   (0x0006, TYPE_CLASS_DEF_ITEM); (0x0007, TYPE_CALL_SITE_ID_ITEM);
   (0x0008, TYPE_METHOD_HANDLE_ITEM); (0x1000, TYPE_MAP_LIST);
   (0x1001, TYPE_TYPE_LIST); (0x1002, TYPE_ANNOTATION_SET_REF_LIST);
   (0x1003, TYPE_ANNOTATION_SET_ITEM); (0x2000, TYPE_CLASS_DATA_ITEM);
   (0x2001, TYPE_CODE_ITEM); (0x2002, TYPE_STRING_DATA_ITEM);
   (0x2003, TYPE_DEBUG_INFO_ITEM); (0x2004, TYPE_ANNOTATION_ITEM);
   (0x2005, TYPE_ENCODED_ARRAY_ITEM); (0x2006, TYPE_ANNOTATIONS_DIRECTORY_ITEM);
   (0xF000, TYPE_HIDDENAPI_CLASS_DATA_ITEM)].
End TypeCode.

Module Visibility.
(** The three names share the value 0, so the last two are aliases of
    the first. *)
Inductive t : Set := VISIBILITY_BUILD.

Definition values : list (Z * t) :=
  [(0x00, VISIBILITY_BUILD); (0x00, VISIBILITY_BUILD); (0x00, VISIBILITY_BUILD)].
End Visibility.

Module ValueFormat.
Inductive t : Set :=
| VALUE_BYTE | VALUE_SHORT | VALUE_CHAR | VALUE_INT | VALUE_LONG
| VALUE_FLOAT | VALUE_DOUBLE | VALUE_METHOD_TYPE | VALUE_METHOD_HANDLE
| VALUE_STRING | VALUE_TYPE | VALUE_FIELD | VALUE_METHOD | VALUE_ENUM
| VALUE_ARRAY | VALUE_ANNOTATION | VALUE_NULL | VALUE_BOOLEAN.

Definition values : list (Z * t) :=
  [(0x00, VALUE_BYTE); (0x02, VALUE_SHORT); (0x03, VALUE_CHAR);
   (0x04, VALUE_INT); (0x06, VALUE_LONG); (0x10, VALUE_FLOAT);
   (0x11, VALUE_DOUBLE); (0x15, VALUE_METHOD_TYPE);
   (0x16, VALUE_METHOD_HANDLE); (0x17, VALUE_STRING); (0x18, VALUE_TYPE);
   (0x19, VALUE_FIELD); (0x1a, VALUE_METHOD); (0x1b, VALUE_ENUM);
   (0x1c, VALUE_ARRAY); (0x1d, VALUE_ANNOTATION); (0x1e, VALUE_NULL);
   (0x1f, VALUE_BOOLEAN)].
End ValueFormat.

(** [E(v)] for an [enum.Enum] class [E]: the first member whose value is
    [v], or [ValueError]. *)
Definition enum_of_int {E} (values : list (Z * E)) (v : Z) : result E :=
  match find (fun p => fst p =? v) values with
  | Some p => Ok (snd p)
  | None => Raise ValueError
  end.

(** ** The header *)

Module HeaderItem.
(** The slots the constructor assigns; [header_size] is declared but
    never assigned. *)
Record t : Type := mk {
  version : list Z;
  checksum : Z;
  signature : bytes;
  file_size : Z;
  endianness : string;
  link_size : Z;
  link_off : Z;
  map_off : Z;
  string_ids_size : Z;
  string_ids_off : Z;
  type_ids_size : Z;
  type_ids_off : Z;
  proto_ids_size : Z;
  proto_ids_off : Z;
  field_ids_size : Z;
  field_ids_off : Z;
  method_ids_size : Z;
  method_ids_off : Z;
  class_defs_size : Z;
  class_defs_off : Z;
  data_size : Z;
  data_off : Z
}.

Definition HEADER_SIZE : Z := 112.

(** The tag test at the end of the checks: the name recorded for each
    of the two constants, or [BadDexFileError]. *)
Definition endianness_of (endian_tag : Z) : result string :=
  if endian_tag =? ENDIAN_CONSTANT then Ok "big"%string
  else if endian_tag =? REVERSE_ENDIAN_CONSTANT then Ok "little"%string
  else Raise BadDexFileError.

Definition init (data : bytes) : result t :=
  let magic := py_slice 0 4 data in
  _ ← raise_if (negb (bool_decide (magic = MAGIC))) BadDexFileError;
  version ← utf8_decode (py_slice 4 7 data);
  b7 ← py_index data 7;
  _ ← raise_if (negb (byte_val b7 =? 0x00)) BadDexFileError;
  let checksum := adler32 (py_slice_from 12 data) in
  let expected_checksum := int_from_bytes_little (py_slice 8 12 data) in
  _ ← raise_if (negb (checksum =? expected_checksum)) BadDexFileError;
  let signature := py_slice 12 32 data in
  let self_signature := SHA1.digest (py_slice_from 32 data) in
  _ ← raise_if (negb (bool_decide (self_signature = signature))) BadDexFileError;
  let self_file_size := Z.of_nat (length data) in
  let file_size := int_from_bytes_little (py_slice 32 36 data) in
  _ ← raise_if (negb (self_file_size =? file_size)) BadDexFileError;
  let header_size := int_from_bytes_little (py_slice 36 40 data) in
  _ ← raise_if (negb (header_size =? HEADER_SIZE)) BadDexFileError;
  let endian_tag := int_from_bytes_little (py_slice 40 44 data) in
  endianness ← endianness_of endian_tag;
  Ok {| version := version;
        checksum := checksum;
        signature := self_signature;
        file_size := self_file_size;
        endianness := endianness;
        link_size := int_from_bytes_little (py_slice 44 48 data);
        link_off := int_from_bytes_little (py_slice 48 52 data);
        map_off := int_from_bytes_little (py_slice 52 56 data);
        string_ids_size := int_from_bytes_little (py_slice 56 60 data);
        string_ids_off := int_from_bytes_little (py_slice 60 64 data);
        type_ids_size := int_from_bytes_little (py_slice 64 68 data);
        type_ids_off := int_from_bytes_little (py_slice 68 72 data);
        proto_ids_size := int_from_bytes_little (py_slice 72 76 data);
        proto_ids_off := int_from_bytes_little (py_slice 76 80 data);
        field_ids_size := int_from_bytes_little (py_slice 80 84 data);
        field_ids_off := int_from_bytes_little (py_slice 84 88 data);
        method_ids_size := int_from_bytes_little (py_slice 88 92 data);
        method_ids_off := int_from_bytes_little (py_slice 92 96 data);
        class_defs_size := int_from_bytes_little (py_slice 96 100 data);
        class_defs_off := int_from_bytes_little (py_slice 100 104 data);
        data_size := int_from_bytes_little (py_slice 104 108 data);
        data_off := int_from_bytes_little (py_slice 108 112 data) |}.
End HeaderItem.

(** ** Map list and string data *)

Module MapItem.
Record t : Type := mk {
  type : TypeCode.t;
  unused : Z;
  size : Z;
  offset : Z
}.

Definition init (data : bytes) : result t :=
  type ← enum_of_int TypeCode.values (int_from_bytes_little (py_slice 0 2 data));
  Ok {| type := type;
        unused := int_from_bytes_little (py_slice 2 4 data);
        size := int_from_bytes_little (py_slice 4 8 data);
        offset := int_from_bytes_little (py_slice 8 12 data) |}.
End MapItem.

Module MapList.
(** The slot [list] is spelled [list_] here. *)
Record t : Type := mk {
  size : Z;
  list_ : list MapItem.t
}.

Definition init (data : bytes) : result t :=
  let size := int_from_bytes_little (py_slice 0 4 data) in
  l ← comprehension (fun off => MapItem.init (py_slice off (off + 12) data))
                    (py_range 4 (4 + size * 12) 12);
  Ok {| size := size; list_ := l |}.
End MapList.

Module StringDataItem.
Record t : Type := mk {
  utf16size : Z;
  data : list Z
}.

Definition init (data : bytes) : result t :=
  let utf16size := int_from_bytes_little (py_slice 0 1 data) in
  text ← utf8_decode (py_slice 1 (1 + utf16size) data);
  Ok {| utf16size := utf16size; data := text |}.
End StringDataItem.

(** ** The five identifier tables *)

Module StringIdItem.
Record t : Type := mk { string_data_off : Z }.

Definition init (data : bytes) : t :=
  {| string_data_off := int_from_bytes_little data |}.

Definition get_string_data_item (self : t) (data : bytes) : result StringDataItem.t :=
  StringDataItem.init (py_slice_from (string_data_off self) data).
End StringIdItem.

Module TypeIdItem.
Record t : Type := mk { descriptor_idx : Z }.

Definition init (data : bytes) : t :=
  {| descriptor_idx := int_from_bytes_little data |}.

Definition get_string_id_item (self : t) (string_ids : list StringIdItem.t)
  : result StringIdItem.t :=
  py_index string_ids (descriptor_idx self).
End TypeIdItem.

Module TypeItem.
Record t : Type := mk { type_idx : Z }.

Definition init (data : bytes) : t :=
  {| type_idx := int_from_bytes_little data |}.

Definition get_type_type_id_item (self : t) (type_ids : list TypeIdItem.t)
  : result TypeIdItem.t :=
  py_index type_ids (type_idx self).
End TypeItem.

Module TypeList.
Record t : Type := mk {
  size : Z;
  list_ : list TypeItem.t
}.

Definition init (data : bytes) : t :=
  let size := int_from_bytes_little (py_slice 0 4 data) in
  {| size := size;
     list_ := (fun off => TypeItem.init (py_slice off (off + 2) data))
                <$> py_range 4 (4 + size * 2) 2 |}.
End TypeList.

Module ProtoIdItem.
Record t : Type := mk {
  shorty_idx : Z;
  return_type_idx : Z;
  parameters_off : Z
}.

Definition init (data : bytes) : t :=
  {| shorty_idx := int_from_bytes_little (py_slice 0 4 data);
     return_type_idx := int_from_bytes_little (py_slice 4 8 data);
     parameters_off := int_from_bytes_little (py_slice 8 12 data) |}.

Definition get_shorty_string_id_item (self : t) (string_ids : list StringIdItem.t)
  : result StringIdItem.t :=
  py_index string_ids (shorty_idx self).

Definition get_return_type_type_id_item (self : t) (type_ids : list TypeIdItem.t)
  : result TypeIdItem.t :=
  py_index type_ids (return_type_idx self).

Definition get_parameters (self : t) (data : bytes) : TypeList.t :=
  if parameters_off self =? 0x00
  then TypeList.init (repeat x00 4)
  else TypeList.init (py_slice_from (parameters_off self) data).
End ProtoIdItem.

Module FieldIdItem.
Record t : Type := mk {
  class_idx : Z;
  type_idx : Z;
  name_idx : Z
}.

Definition init (data : bytes) : t :=
  {| class_idx := int_from_bytes_little (py_slice 0 2 data);
     type_idx := int_from_bytes_little (py_slice 2 4 data);
     name_idx := int_from_bytes_little (py_slice 4 8 data) |}.

Definition get_class_type_id_item (self : t) (type_ids : list TypeIdItem.t)
  : result TypeIdItem.t :=
  py_index type_ids (class_idx self).

Definition get_type_type_id_item (self : t) (type_ids : list TypeIdItem.t)
  : result TypeIdItem.t :=
  py_index type_ids (type_idx self).

Definition get_name_string_id_item (self : t) (string_ids : list StringIdItem.t)
  : result StringIdItem.t :=
  py_index string_ids (name_idx self).
End FieldIdItem.

Module MethodIdItem.
Record t : Type := mk {
  class_idx : Z;
  proto_idx : Z;
  name_idx : Z
}.

Definition init (data : bytes) : t :=
  {| class_idx := int_from_bytes_little (py_slice 0 2 data);
     proto_idx := int_from_bytes_little (py_slice 2 4 data);
     name_idx := int_from_bytes_little (py_slice 4 8 data) |}.

Definition get_class_type_id_item (self : t) (type_ids : list TypeIdItem.t)
  : result TypeIdItem.t :=
  py_index type_ids (class_idx self).

Definition get_proto_proto_id_item (self : t) (proto_ids : list ProtoIdItem.t)
  : result ProtoIdItem.t :=
  py_index proto_ids (proto_idx self).

Definition get_name_string_id_item (self : t) (string_ids : list StringIdItem.t)
  : result StringIdItem.t :=
  py_index string_ids (name_idx self).
End MethodIdItem.

(** ** Variable-length integers *)

Module Uleb128.
Record t : Type := mk {
  data : bytes;
  _size : Z
}.

(** The [for idx, b in enumerate(data)] loop, from position [idx] on:
    the value [size] has when the loop is left by [break] or by
    exhausting [data] (then [size] is still 0), or the exception raised
    at position 4. *)
Fixpoint scan (idx : Z) (data : bytes) : result Z :=
  match data with
  | [] => Ok 0
  | b :: data' =>
      if Z.land (byte_val b) 0x80 =? 0 then Ok (idx + 1)
      else if idx =? 4 then Raise BadDexFileError
      else scan (idx + 1) data'
  end.

Definition init (data : bytes) : result t :=
  size ← scan 0 data;
  Ok {| _size := size; data := py_slice 0 size data |}.

(** [__int__]. *)
Definition int (self : t) : Z :=
  fold_left (fun value b => Z.lor (Z.shiftl value 7) (Z.land (byte_val b) 0x7f))
            (rev (data self)) 0.

(** The methods an instance can be asked for, besides the constructor. *)
Definition methods : list (string * (t -> pyval)) :=
  [("__int__"%string, fun self => PyInt (int self))].
End Uleb128.

(** ** Encoded values and annotations *)

Module EncodedValue.
(** [value] is [None] while the slot has not been assigned. *)
Record t : Type := mk {
  value_arg : Z;
  value_type : ValueFormat.t;
  value : option Z
}.

Definition init (data : bytes) : result t :=
  b0 ← py_index data 0;
  value_type ← enum_of_int ValueFormat.values (Z.land (byte_val b0) 0x1f);
  let value_arg := Z.land (byte_val b0) (Z.shiftr 0xe0 5) in
  match value_type with
  | ValueFormat.VALUE_BYTE =>
      _ ← raise_if (negb (value_arg =? 0)) BadDexFileError;
      Ok {| value_arg := value_arg; value_type := value_type;
            value := Some (int_from_bytes_little_signed (py_slice 1 2 data)) |}
  | _ =>
      Ok {| value_arg := value_arg; value_type := value_type; value := None |}
  end.
End EncodedValue.

Module AnnotationElement.
Record t : Type := mk {
  name_idx : Uleb128.t;
  value : EncodedValue.t
}.

Definition init (data : bytes) : result t :=
  name_idx ← Uleb128.init (py_slice_from 0 data);
  get_bytes ← py_getattr Uleb128.methods "get_bytes";
  off ← py_len (get_bytes name_idx);
  value ← EncodedValue.init (py_slice_from off data);
  Ok {| name_idx := name_idx; value := value |}.

Definition methods : list (string * (t -> pyval)) := [].
End AnnotationElement.

Module EncodedAnnotation.
Record t : Type := mk {
  type_idx : Uleb128.t;
  size : Uleb128.t;
  elements : list AnnotationElement.t
}.

(** The [for _ in range(self.size)] loop, [n] iterations from [off]. *)
Fixpoint elements_loop (n : nat) (data : bytes) (off : Z)
  : result (list AnnotationElement.t) :=
  match n with
  | O => Ok []
  | S n' =>
      e ← AnnotationElement.init (py_slice_from off data);
      get_bytes ← py_getattr AnnotationElement.methods "get_bytes";
      len ← py_len (get_bytes e);
      es ← elements_loop n' data (off + len);
      Ok (e :: es)
  end.

Definition init (data : bytes) : result t :=
  type_idx ← Uleb128.init (py_slice_from 0 data);
  get_bytes ← py_getattr Uleb128.methods "get_bytes";
  off ← py_len (get_bytes type_idx);
  size ← Uleb128.init (py_slice_from off data);
  get_bytes ← py_getattr Uleb128.methods "get_bytes";
  len ← py_len (get_bytes size);
  let off := off + len in
  n ← py_operator_index Uleb128.methods size;
  elements ← elements_loop (Z.to_nat n) data off;
  Ok {| type_idx := type_idx; size := size; elements := elements |}.
End EncodedAnnotation.

Module AnnotationItem.
Record t : Type := mk {
  visibility : Visibility.t;
  annotation : EncodedAnnotation.t
}.

Definition init (data : bytes) : result t :=
  visibility ← enum_of_int Visibility.values (int_from_bytes_little (py_slice 0 1 data));
  annotation ← EncodedAnnotation.init (py_slice_from 1 data);
  Ok {| visibility := visibility; annotation := annotation |}.
End AnnotationItem.

Module AnnotationOffItem.
Definition slots : list string := ["annotation_off"%string].

(** The only slot; [None] while it has not been assigned. *)
Record t : Type := mk { annotation_off : option Z }.

(** The constructor assigns [self.annotations_off], which is not the
    declared slot. *)
Definition init (data : bytes) : result t :=
  let v := int_from_bytes_little (py_slice 0 4 data) in
  _ ← py_setattr slots "annotations_off";
  Ok {| annotation_off := None |}.
End AnnotationOffItem.

Module AnnotationSetItem.
Record t : Type := mk {
  size : Z;
  entries : list AnnotationOffItem.t
}.

Definition init (data : bytes) : result t :=
  let size := int_from_bytes_little (py_slice 0 4 data) in
  entries ← comprehension
              (fun off => AnnotationOffItem.init (py_slice off (off + 4) data))
              (py_range 4 (4 + size * 4) 4);
  Ok {| size := size; entries := entries |}.
End AnnotationSetItem.

Module FieldAnnotation.
Record t : Type := mk {
  field_idx : Z;
  annotations_off : Z
}.

Definition init (data : bytes) : t :=
  {| field_idx := int_from_bytes_little (py_slice 0 4 data);
     annotations_off := int_from_bytes_little (py_slice 4 8 data) |}.

Definition get_field (self : t) (field_ids : list FieldIdItem.t)
  : result FieldIdItem.t :=
  py_index field_ids (field_idx self).

Definition get_annotations (self : t) (data : bytes) : result AnnotationSetItem.t :=
  AnnotationSetItem.init (py_slice_from (annotations_off self) data).
End FieldAnnotation.

Module AnnotationDirectoryItem.
(** The classes of the module that build an annotation entry from its
    eight bytes.  [MethodAnnotation] and [ParameterAnnotation] are
    named by the constructor below but the module defines neither. *)
Definition entry_classes : list (string * (bytes -> FieldAnnotation.t)) :=
  [("FieldAnnotation"%string, FieldAnnotation.init)].

Record t : Type := mk {
  class_annotations_off : Z;
  fields_size : Z;
  annoted_methods_size : Z;
  annoted_parameters_size : Z;
  field_annotations : list FieldAnnotation.t;
  method_annotations : list FieldAnnotation.t;
  parameter_annotations : list FieldAnnotation.t
}.

Definition entries (class : string) (data : bytes) (start stop : Z)
  : result (list FieldAnnotation.t) :=
  comprehension
    (fun off => c ← py_global entry_classes class;
                Ok (c (py_slice off (off + 8) data)))
    (py_range start stop 8).

Definition init (data : bytes) : result t :=
  let class_annotations_off := int_from_bytes_little (py_slice 0 4 data) in
  let fields_size := int_from_bytes_little (py_slice 4 8 data) in
  let annoted_methods_size := int_from_bytes_little (py_slice 8 12 data) in
  let annoted_parameters_size := int_from_bytes_little (py_slice 12 16 data) in
  let start := 16 in
  let end_ := start + fields_size * 8 in
  field_annotations ← entries "FieldAnnotation" data start end_;
  let start := end_ in
  let end_ := start + annoted_methods_size * 8 in
  method_annotations ← entries "MethodAnnotation" data start end_;
  let start := end_ in
  let end_ := start + annoted_parameters_size * 8 in
  parameter_annotations ← entries "ParameterAnnotation" data start end_;
  Ok {| class_annotations_off := class_annotations_off;
        fields_size := fields_size;
        annoted_methods_size := annoted_methods_size;
        annoted_parameters_size := annoted_parameters_size;
        field_annotations := field_annotations;
        method_annotations := method_annotations;
        parameter_annotations := parameter_annotations |}.
End AnnotationDirectoryItem.

(** ** Class data *)

Module EncodedField.
Record t : Type := mk {
  field_idx_diff : Uleb128.t;
  access_flags : Uleb128.t;
  _size : Z
}.

Definition init (data : bytes) : result t :=
  field_idx_diff ← Uleb128.init (py_slice_from 0 data);
  let off := Uleb128._size field_idx_diff in
  access_flags ← Uleb128.init (py_slice_from off data);
  Ok {| field_idx_diff := field_idx_diff;
        access_flags := access_flags;
        _size := off + Uleb128._size access_flags |}.

Definition get_field (self : t) (prev_idx : Z) (field_ids : list FieldIdItem.t)
  : result FieldIdItem.t :=
  let field_idx := prev_idx + Uleb128.int (field_idx_diff self) in
  py_index field_ids field_idx.

Definition get_access_flags (fb : AccessFlag.boundary) (self : t) : result Z :=
  AccessFlag.of_int fb (Uleb128.int (access_flags self)).
End EncodedField.

Module EncodedMethod.
Record t : Type := mk {
  method_idx_diff : Uleb128.t;
  access_flags : Uleb128.t;
  code_off : Uleb128.t;
  _size : Z
}.

Definition init (data : bytes) : result t :=
  method_idx_diff ← Uleb128.init (py_slice_from 0 data);
  let off := Uleb128._size method_idx_diff in
  access_flags ← Uleb128.init (py_slice_from off data);
  let off := off + Uleb128._size access_flags in
  code_off ← Uleb128.init (py_slice_from off data);
  Ok {| method_idx_diff := method_idx_diff;
        access_flags := access_flags;
        code_off := code_off;
        _size := off + Uleb128._size code_off |}.

Definition get_method (self : t) (prev_idx : Z) (method_ids : list MethodIdItem.t)
  : result MethodIdItem.t :=
  let method_idx := prev_idx + Uleb128.int (method_idx_diff self) in
  py_index method_ids method_idx.

Definition get_access_flags (fb : AccessFlag.boundary) (self : t) : result Z :=
  AccessFlag.of_int fb (Uleb128.int (access_flags self)).
End EncodedMethod.

Module ClassDataItem.
Record t : Type := mk {
  static_fields_size : Uleb128.t;
  instance_fields_size : Uleb128.t;
  direct_mehtods_size : Uleb128.t;
  virtual_methods_size : Uleb128.t;
  static_fields : list EncodedField.t;
  instance_fields : list EncodedField.t;
  direct_mehtods : list EncodedMethod.t;
  virtual_methods : list EncodedMethod.t
}.

(** The four loops of the constructor share one shape: [n] iterations
    that append [item(data[off:])] and advance [off] by the [_size] of
    the record just read.  The result is the records in order and
    [off] at the end. *)
Fixpoint records_loop {A} (item : bytes -> result A) (size : A -> Z)
  (n : nat) (data : bytes) (off : Z) : result (list A * Z) :=
  match n with
  | O => Ok ([], off)
  | S n' =>
      x ← item (py_slice_from off data);
      r ← records_loop item size n' data (off + size x);
      Ok (x :: fst r, snd r)
  end.

Definition fields_loop := records_loop EncodedField.init EncodedField._size.
Definition methods_loop := records_loop EncodedMethod.init EncodedMethod._size.

Definition init (data : bytes) : result t :=
  static_fields_size ← Uleb128.init (py_slice_from 0 data);
  let off := Uleb128._size static_fields_size in
  instance_fields_size ← Uleb128.init (py_slice_from off data);
  let off := off + Uleb128._size instance_fields_size in
  direct_mehtods_size ← Uleb128.init (py_slice_from off data);
  let off := off + Uleb128._size direct_mehtods_size in
  virtual_methods_size ← Uleb128.init (py_slice_from off data);
  let off := off + Uleb128._size virtual_methods_size in
  sf ← fields_loop (Z.to_nat (Uleb128.int static_fields_size)) data off;
  inf ← fields_loop (Z.to_nat (Uleb128.int instance_fields_size)) data (snd sf);
  dm ← methods_loop (Z.to_nat (Uleb128.int direct_mehtods_size)) data (snd inf);
  vm ← methods_loop (Z.to_nat (Uleb128.int virtual_methods_size)) data (snd dm);
  Ok {| static_fields_size := static_fields_size;
        instance_fields_size := instance_fields_size;
        direct_mehtods_size := direct_mehtods_size;
        virtual_methods_size := virtual_methods_size;
        static_fields := fst sf;
        instance_fields := fst inf;
        direct_mehtods := fst dm;
        virtual_methods := fst vm |}.

(** The loops of [dump_data].  Each iteration resolves one member with
    [get_field] or [get_method] at the running [prev_idx] and then adds
    the record's delta to [prev_idx].  The embedding keeps, for every
    position, the outcome that call has when the loop reaches the
    position; the text built around it is not modelled, and in the
    source an exception at one position ends the dump there. *)
Fixpoint dump_loop {R A} (get : R -> Z -> result A) (delta : R -> Z)
  (prev_idx : Z) (rs : list R) : list (result A) :=
  match rs with
  | [] => []
  | r :: rs' => get r prev_idx :: dump_loop get delta (prev_idx + delta r) rs'
  end.

Definition field_delta (f : EncodedField.t) : Z :=
  Uleb128.int (EncodedField.field_idx_diff f).
Definition method_delta (m : EncodedMethod.t) : Z :=
  Uleb128.int (EncodedMethod.method_idx_diff m).

Definition dump_fields (prev_idx : Z) (fs : list EncodedField.t)
  (field_ids : list FieldIdItem.t) : list (result FieldIdItem.t) :=
  dump_loop (fun f prev => EncodedField.get_field f prev field_ids)
            field_delta prev_idx fs.

Definition dump_methods (prev_idx : Z) (ms : list EncodedMethod.t)
  (method_ids : list MethodIdItem.t) : list (result MethodIdItem.t) :=
  dump_loop (fun m prev => EncodedMethod.get_method m prev method_ids)
            method_delta prev_idx ms.

Record members : Type := mk_members {
  static_field_members : list (result FieldIdItem.t);
  instance_field_members : list (result FieldIdItem.t);
  direct_method_members : list (result MethodIdItem.t);
  virtual_method_members : list (result MethodIdItem.t)
}.

Definition dump_data (self : t) (method_ids : list MethodIdItem.t)
  (field_ids : list FieldIdItem.t) : members :=
  {| static_field_members := dump_fields 0 (static_fields self) field_ids;
     instance_field_members := dump_fields 0 (instance_fields self) field_ids;
     direct_method_members := dump_methods 0 (direct_mehtods self) method_ids;
     virtual_method_members := dump_methods 0 (virtual_methods self) method_ids |}.
End ClassDataItem.

Module EncodedArrayItem.
(** The constructor assigns nothing: the single slot [a] stays unset. *)
Record t : Type := mk { a : option Z }.

Definition init (data : bytes) : t := {| a := None |}.
End EncodedArrayItem.

(** ** Class definitions *)

Module ClassDefItem.
Record t : Type := mk {
  class_idx : Z;
  access_flags : Z;
  superclass_idx : Z;
  interfaces_off : Z;
  source_file_idx : Z;
  annotations_off : Z;
  class_data_off : Z;
  static_values_off : Z
}.

(** [fb] is the boundary the interpreter gives [AccessFlag]. *)
Definition init (fb : AccessFlag.boundary) (data : bytes) : result t :=
  let class_idx := int_from_bytes_little (py_slice 0 4 data) in
  access_flags ← AccessFlag.of_int fb (int_from_bytes_little (py_slice 4 8 data));
  Ok {| class_idx := class_idx;
        access_flags := access_flags;
        superclass_idx := int_from_bytes_little (py_slice 8 12 data);
        interfaces_off := int_from_bytes_little (py_slice 12 16 data);
        source_file_idx := int_from_bytes_little (py_slice 16 20 data);
        annotations_off := int_from_bytes_little (py_slice 20 24 data);
        class_data_off := int_from_bytes_little (py_slice 24 28 data);
        static_values_off := int_from_bytes_little (py_slice 28 32 data) |}.

Definition get_class_type_id_item (self : t) (type_ids : list TypeIdItem.t)
  : result TypeIdItem.t :=
  py_index type_ids (class_idx self).

Definition get_superclass_type_id_item (self : t) (type_ids : list TypeIdItem.t)
  : result (option TypeIdItem.t) :=
  if superclass_idx self =? NO_INDEX then Ok None
  else Some <$> py_index type_ids (superclass_idx self).

Definition get_interfaces_type_list (self : t) (data : bytes)
  : option TypeList.t :=
  if interfaces_off self =? 0x00 then None
  else Some (TypeList.init (py_slice_from (interfaces_off self) data)).

Definition get_source_file_string_id_item (self : t) (string_ids : list StringIdItem.t)
  : result (option StringIdItem.t) :=
  if source_file_idx self =? NO_INDEX then Ok None
  else Some <$> py_index string_ids (source_file_idx self).

Definition get_annotations_annotation_directory_item (self : t) (data : bytes)
  : result (option AnnotationDirectoryItem.t) :=
  if annotations_off self =? 0x00 then Ok None
  else Some <$> AnnotationDirectoryItem.init (py_slice_from (annotations_off self) data).

Definition get_class_data_class_data_item (self : t) (data : bytes)
  : result (option ClassDataItem.t) :=
  if class_data_off self =? 0x00 then Ok None
  else Some <$> ClassDataItem.init (py_slice_from (class_data_off self) data).

Definition get_static_values_encoded_array_item (self : t) (data : bytes)
  : option EncodedArrayItem.t :=
  if static_values_off self =? 0x00 then None
  else Some (EncodedArrayItem.init (py_slice_from (static_values_off self) data)).
End ClassDefItem.

(** ** The parser *)

Module DexParser.
Record t : Type := mk {
  full_data : bytes;
  header : HeaderItem.t;
  map_list : MapList.t;
  string_ids : list StringIdItem.t;
  type_ids : list TypeIdItem.t;
  proto_ids : list ProtoIdItem.t;
  field_ids : list FieldIdItem.t;
  method_ids : list MethodIdItem.t;
  class_defs : list ClassDefItem.t
}.

(** [[item(data[off : off + stride]) for off in
      range(start, start + (size * stride), stride)]]. *)
Definition table {A} (item : bytes -> A) (stride : Z) (data : bytes) (start size : Z)
  : list A :=
  (fun off => item (py_slice off (off + stride) data))
    <$> py_range start (start + size * stride) stride.

(** [DexParser(data)], run by an interpreter that gives [AccessFlag] the
    boundary [fb]. *)
Definition init (fb : AccessFlag.boundary) (data : bytes) : result t :=
  header ← HeaderItem.init data;
  map_list ← MapList.init (py_slice_from (HeaderItem.map_off header) data);
  let string_ids :=
    table StringIdItem.init 4 data
          (HeaderItem.string_ids_off header) (HeaderItem.string_ids_size header) in
  let type_ids :=
    table TypeIdItem.init 4 data
          (HeaderItem.type_ids_off header) (HeaderItem.type_ids_size header) in
  let proto_ids :=
    table ProtoIdItem.init 12 data
          (HeaderItem.proto_ids_off header) (HeaderItem.proto_ids_size header) in
  let field_ids :=
    table FieldIdItem.init 8 data
          (HeaderItem.field_ids_off header) (HeaderItem.field_ids_size header) in
  let method_ids :=
    table MethodIdItem.init 8 data
          (HeaderItem.method_ids_off header) (HeaderItem.method_ids_size header) in
  class_defs ←
    comprehension
      (fun off => ClassDefItem.init fb (py_slice off (off + 32) data))
      (py_range (HeaderItem.class_defs_off header)
                (HeaderItem.class_defs_off header
                 + HeaderItem.class_defs_size header * 32) 32);
  Ok {| full_data := data;
        header := header;
        map_list := map_list;
        string_ids := string_ids;
        type_ids := type_ids;
        proto_ids := proto_ids;
        field_ids := field_ids;
        method_ids := method_ids;
        class_defs := class_defs |}.
End DexParser.

(** ** Notions of the specification

    The definitions below are not taken from the source.  They say, in
    the words of the specification, what the theorems compare the
    parser with. *)

(** The six checks of the header contract, as the specification lists
    them. *)
Definition header_valid (data : bytes) : Prop :=
  py_slice 0 4 data = MAGIC /\
  (exists b7, data !! 7%nat = Some b7 /\ byte_val b7 = 0) /\
  adler32 (py_slice_from 12 data) = int_from_bytes_little (py_slice 8 12 data) /\
  SHA1.digest (py_slice_from 32 data) = py_slice 12 32 data /\
  Z.of_nat (length data) = int_from_bytes_little (py_slice 32 36 data) /\
  int_from_bytes_little (py_slice 36 40 data) = 112 /\
  (int_from_bytes_little (py_slice 40 44 data) = ENDIAN_CONSTANT \/
   int_from_bytes_little (py_slice 40 44 data) = REVERSE_ENDIAN_CONSTANT).

(** The value of a varint as the specification writes it: the sum of
    [(byte_i & 0x7f) << (7 * i)] over the bytes, [i] counted from [i0]. *)
Fixpoint varint_sum (i0 : Z) (l : bytes) : Z :=
  match l with
  | [] => 0
  | b :: l' => Z.shiftl (Z.land (byte_val b) 0x7f) (7 * i0) + varint_sum (i0 + 1) l'
  end.

(** A byte that announces a further byte of the varint. *)
Definition continues (b : byte) : Prop := Z.land (byte_val b) 0x80 <> 0.

(** The sum of the deltas of a run of records. *)
Definition delta_sum {A} (delta : A -> Z) (xs : list A) : Z :=
  foldr (fun x acc => delta x + acc) 0 xs.

(** The index delta a member of a class-data sequence is written with:
    the value of the first varint of a field record (its two varints)
    and of a method record (its three varints). *)
Definition field_index_delta (p : bytes * bytes) : Z := varint_sum 0 (fst p).

Definition method_index_delta (t : bytes * bytes * bytes) : Z :=
  varint_sum 0 (fst (fst t)).

(** The member a sequence resolves at position [i]: the entry of [table]
    at the sum of the deltas of positions 0 through [i]. *)
Definition resolved_by_prefix_sum {R A} (delta : R -> Z) (rs : list R)
  (table : list A) (members : list (result A)) : Prop :=
  length members = length rs /\
  forall (i : nat) (r : R), rs !! i = Some r ->
    let idx := delta_sum delta (take (S i) rs) in
    0 <= idx /\ members !! i = Some (py_index table idx).

(** What it means for [tbl] to be the table of [size] records of [stride]
    bytes declared at [start]: it has one record per declared position,
    the record at position [k] is built from what the buffer holds of
    the [stride] bytes at [start + stride * k], and a position at or
    past the end of the buffer yields the record [zero]. *)
Definition table_built {A} (item : bytes -> A) (stride : Z) (data : bytes)
  (start size : Z) (zero : A) (tbl : list A) : Prop :=
  length tbl = Z.to_nat size /\
  forall k : nat, Z.of_nat k < size ->
    let off := start + stride * Z.of_nat k in
    tbl !! k = Some (item (take (Z.to_nat stride) (drop (Z.to_nat off) data))) /\
    (Z.of_nat (length data) <= off -> tbl !! k = Some zero).

(** Resolving the index [idx] in [table] with outcome [res]: the entry at
    [idx] when [idx] is in range, [IndexError] when it is not. *)
Definition index_resolution {A} (idx : Z) (table : list A) (res : result A) : Prop :=
  0 <= idx /\
  (idx < Z.of_nat (length table) ->
     exists x, table !! Z.to_nat idx = Some x /\ res = Ok x) /\
  (Z.of_nat (length table) <= idx -> res = Raise IndexError).

(** Resolving an optional index [idx] in [table] with outcome [res]:
    nothing when [idx] is the reserved all-ones value, and otherwise the
    entry at [idx] when [idx] is in range and [IndexError] when it is
    not. *)
Definition optional_index_resolution {A} (idx : Z) (table : list A)
  (res : result (option A)) : Prop :=
  0 <= idx /\
  (idx = 0xffffffff -> res = Ok None) /\
  (idx <> 0xffffffff -> idx < Z.of_nat (length table) ->
     exists x, table !! Z.to_nat idx = Some x /\ res = Ok (Some x)) /\
  (idx <> 0xffffffff -> Z.of_nat (length table) <= idx -> res = Raise IndexError).

(** The sum of the bytes of a buffer. *)
Definition byte_sum (l : bytes) : Z := foldr (fun x acc => byte_val x + acc) 0 l.

(** ** Sample inputs

    A container of 121 bytes: the header, one string identifier at 112
    pointing to the string data "abc" at 116, and a type table declared
    with two records at 118, of which the first is cut by the end of the
    buffer and the second lies beyond it.  The map offset is the buffer
    length, so the map list is empty. *)
Definition sample_dex : bytes :=
  [
   x64; x65; x78; x0a; x30; x33; x35; x00; x64; x0e; xa0; xaa; xca; xbb; x7a; x41;
   x0f; x55; xa7; xb6; x4a; x83; x9f; xaf; x01; x12; x82; x6d; xa9; x8f; x22; xef;
   x79; x00; x00; x00; x70; x00; x00; x00; x78; x56; x34; x12; x00; x00; x00; x00;
   x00; x00; x00; x00; x79; x00; x00; x00; x01; x00; x00; x00; x70; x00; x00; x00;
   x02; x00; x00; x00; x76; x00; x00; x00; x00; x00; x00; x00; x00; x00; x00; x00;
   x00; x00; x00; x00; x00; x00; x00; x00; x00; x00; x00; x00; x00; x00; x00; x00;
   x00; x00; x00; x00; x00; x00; x00; x00; x00; x00; x00; x00; x00; x00; x00; x00;
   x74; x00; x00; x00; x03; x61; x62; x63; x00
  ].

(** A class data item: two static fields with deltas 3 and 2, one
    instance field with delta 5, one direct method with delta 1 and code
    offset 0x100, no virtual method. *)
Definition sample_class_data : bytes :=
  [x02; x01; x01; x00; x03; x01; x02; x02; x05; x0a; x01; x01; x80; x02].

(** A class definition of class 1, public, with no superclass, no
    interfaces, no source file, no annotations, class data at offset 32
    and no static values. *)
Definition sample_class_def : bytes :=
  [x01; x00; x00; x00; x01; x00; x00; x00; xff; xff; xff; xff; x00; x00; x00; x00;
   xff; xff; xff; xff; x00; x00; x00; x00; x20; x00; x00; x00; x00; x00; x00; x00].

(** A field table of six entries, the entry at [k] named by string [k]. *)
Definition sample_field_ids : list FieldIdItem.t :=
  (fun k => {| FieldIdItem.class_idx := 0; FieldIdItem.type_idx := 0;
               FieldIdItem.name_idx := k |}) <$> seqZ 0 6.

(** ** Further notions used by the properties *)

(** [records_at item size data off xs off']: the records [xs] lie one
    after the other in [data], the first decoded at [off], each next one
    where the previous ended, and the last ends at [off']. *)
Inductive records_at {A} (item : bytes -> result A) (size : A -> Z) (data : bytes)
  : Z -> list A -> Z -> Prop :=
| records_at_nil (off : Z) : records_at item size data off [] off
| records_at_cons (off : Z) (x : A) (xs : list A) (off' : Z) :
    item (py_slice_from off data) = Ok x ->
    records_at item size data (off + size x) xs off' ->
    records_at item size data off (x :: xs) off'.

(** An unsigned 32-bit value. *)
Definition u32 (z : Z) : Prop := 0 <= z < 2 ^ 32.

(** The header [h] with its version replaced by [v]. *)
Definition with_version (v : list Z) (h : HeaderItem.t) : HeaderItem.t :=
  {| HeaderItem.version := v;
     HeaderItem.checksum := HeaderItem.checksum h;
     HeaderItem.signature := HeaderItem.signature h;
     HeaderItem.file_size := HeaderItem.file_size h;
     HeaderItem.endianness := HeaderItem.endianness h;
     HeaderItem.link_size := HeaderItem.link_size h;
     HeaderItem.link_off := HeaderItem.link_off h;
     HeaderItem.map_off := HeaderItem.map_off h;
     HeaderItem.string_ids_size := HeaderItem.string_ids_size h;
     HeaderItem.string_ids_off := HeaderItem.string_ids_off h;
     HeaderItem.type_ids_size := HeaderItem.type_ids_size h;
     HeaderItem.type_ids_off := HeaderItem.type_ids_off h;
     HeaderItem.proto_ids_size := HeaderItem.proto_ids_size h;
     HeaderItem.proto_ids_off := HeaderItem.proto_ids_off h;
     HeaderItem.field_ids_size := HeaderItem.field_ids_size h;
     HeaderItem.field_ids_off := HeaderItem.field_ids_off h;
     HeaderItem.method_ids_size := HeaderItem.method_ids_size h;
     HeaderItem.method_ids_off := HeaderItem.method_ids_off h;
     HeaderItem.class_defs_size := HeaderItem.class_defs_size h;
     HeaderItem.class_defs_off := HeaderItem.class_defs_off h;
     HeaderItem.data_size := HeaderItem.data_size h;
     HeaderItem.data_off := HeaderItem.data_off h |}.

(** The access-flags word of the class definition declared at position
    [k]: the little-endian value of bytes 4 to 7 of its 32-byte record. *)
Definition class_flags_word (data : bytes) (h : HeaderItem.t) (k : nat) : Z :=
  let off := HeaderItem.class_defs_off h + 32 * Z.of_nat k in
  int_from_bytes_little (py_slice (off + 4) (off + 8) data).

(** Every bit of [w] is the bit of an access flag. *)
Definition flags_named (w : Z) : Prop := Z.land w 0x37fff = w.

(** What the interpreter asks of the class definitions that [h]
    declares: under the strict boundary every access-flags word has
    named bits only; under the conforming boundary, nothing.  No index
    stored in a record takes part. *)
Definition class_flags_accepted (fb : AccessFlag.boundary) (data : bytes)
  (h : HeaderItem.t) : Prop :=
  fb = AccessFlag.STRICT ->
  forall k : nat, Z.of_nat k < HeaderItem.class_defs_size h ->
    flags_named (class_flags_word data h k).

(** The class definition made of the eight little-endian words of the
    32-byte record [raw], with [flags] for its access flags. *)
Definition class_def_words (raw : bytes) (flags : Z) : ClassDefItem.t :=
  {| ClassDefItem.class_idx := int_from_bytes_little (py_slice 0 4 raw);
     ClassDefItem.access_flags := flags;
     ClassDefItem.superclass_idx := int_from_bytes_little (py_slice 8 12 raw);
     ClassDefItem.interfaces_off := int_from_bytes_little (py_slice 12 16 raw);
     ClassDefItem.source_file_idx := int_from_bytes_little (py_slice 16 20 raw);
     ClassDefItem.annotations_off := int_from_bytes_little (py_slice 20 24 raw);
     ClassDefItem.class_data_off := int_from_bytes_little (py_slice 24 28 raw);
     ClassDefItem.static_values_off := int_from_bytes_little (py_slice 28 32 raw) |}.

(** The bytes of one well-formed varint: at most four bytes with the
    high bit set, then one byte with the high bit clear. *)
Definition varint_bytes (v : bytes) : Prop :=
  exists pre b, v = pre ++ [b] /\ Forall continues pre /\ ~ continues b /\
                (length pre <= 4)%nat.

(** The varint object that holds the bytes [v]. *)
Definition uleb_of (v : bytes) : Uleb128.t :=
  {| Uleb128.data := v; Uleb128._size := Z.of_nat (length v) |}.

(** A field record written as its two varints, and a method record
    written as its three varints. *)
Definition field_bytes (p : bytes * bytes) : bytes := fst p ++ snd p.

Definition field_of (p : bytes * bytes) : EncodedField.t :=
  {| EncodedField.field_idx_diff := uleb_of (fst p);
     EncodedField.access_flags := uleb_of (snd p);
     EncodedField._size := Z.of_nat (length (fst p)) + Z.of_nat (length (snd p)) |}.

Definition field_wf (p : bytes * bytes) : Prop :=
  varint_bytes (fst p) /\ varint_bytes (snd p).

Definition method_bytes (t : bytes * bytes * bytes) : bytes :=
  fst (fst t) ++ snd (fst t) ++ snd t.

Definition method_of (t : bytes * bytes * bytes) : EncodedMethod.t :=
  {| EncodedMethod.method_idx_diff := uleb_of (fst (fst t));
     EncodedMethod.access_flags := uleb_of (snd (fst t));
     EncodedMethod.code_off := uleb_of (snd t);
     EncodedMethod._size :=
       Z.of_nat (length (fst (fst t))) + Z.of_nat (length (snd (fst t)))
       + Z.of_nat (length (snd t)) |}.

Definition method_wf (t : bytes * bytes * bytes) : Prop :=
  varint_bytes (fst (fst t)) /\ varint_bytes (snd (fst t)) /\ varint_bytes (snd t).

(** ** Further sample inputs

    The shortest buffer that validates: the first 44 bytes of a header,
    with the file size 44 and the header size 112 it must declare. *)
Definition sample_header_44 : bytes :=
  [
   x64; x65; x78; x0a; x30; x33; x35; x00; xe9; x0b; x94; xef; xe2; x46; xa6; x85;
   x1b; xd2; x28; x85; xe0; xb1; x66; x30; x29; x0e; xc0; xf9; xdf; xb2; x9b; x08;
   x2c; x00; x00; x00; x70; x00; x00; x00; x78; x56; x34; x12
  ].

(** A container that declares nothing: the 112 bytes of the header, the
    map offset at the end of the buffer. *)
Definition sample_empty_dex : bytes :=
  [
   x64; x65; x78; x0a; x30; x33; x35; x00; x21; x0e; xce; xdf; xfd; xe1; x97; x77;
   x84; xf6; xac; xcf; xa1; x5e; x5e; xf4; x94; x91; x21; x31; x9c; xc9; x10; x9e;
   x70; x00; x00; x00; x70; x00; x00; x00; x78; x56; x34; x12; x00; x00; x00; x00;
   x00; x00; x00; x00; x70; x00; x00; x00; x00; x00; x00; x00; x00; x00; x00; x00;
   x00; x00; x00; x00; x00; x00; x00; x00; x00; x00; x00; x00; x00; x00; x00; x00;
   x00; x00; x00; x00; x00; x00; x00; x00; x00; x00; x00; x00; x00; x00; x00; x00;
   x00; x00; x00; x00; x00; x00; x00; x00; x00; x00; x00; x00; x00; x00; x00; x00
  ].

(** A container whose header validates and whose map list, at 112, holds
    one item with the type code 9, which is not in the enumeration. *)
Definition sample_bad_map_dex : bytes :=
  [
   x64; x65; x78; x0a; x30; x33; x35; x00; xed; x0c; x51; x31; x4f; x9d; x76; x93;
   xc0; x6b; x09; xcd; xf4; x88; xe2; x4a; x45; xc5; x48; xe8; x6a; xa5; x1e; x68;
   x80; x00; x00; x00; x70; x00; x00; x00; x78; x56; x34; x12; x00; x00; x00; x00;
   x00; x00; x00; x00; x70; x00; x00; x00; x00; x00; x00; x00; x00; x00; x00; x00;
   x00; x00; x00; x00; x00; x00; x00; x00; x00; x00; x00; x00; x00; x00; x00; x00;
   x00; x00; x00; x00; x00; x00; x00; x00; x00; x00; x00; x00; x00; x00; x00; x00;
   x00; x00; x00; x00; x00; x00; x00; x00; x00; x00; x00; x00; x00; x00; x00; x00;
   x01; x00; x00; x00; x09; x00; x00; x00; x01; x00; x00; x00; x00; x00; x00; x00
  ].

(** A container with one class definition at 112 whose class data, the
    bytes of [sample_class_data], is at 144. *)
Definition sample_class_dex : bytes :=
  [
   x64; x65; x78; x0a; x30; x33; x35; x00; x03; x19; xd7; x26; x89; xf2; x5e; x9e;
   xa1; xe2; x29; x8d; x57; xea; xaa; x3e; x48; xa3; xa5; xdb; xef; xcf; xff; xa7;
   x9e; x00; x00; x00; x70; x00; x00; x00; x78; x56; x34; x12; x00; x00; x00; x00;
   x00; x00; x00; x00; x9e; x00; x00; x00; x00; x00; x00; x00; x00; x00; x00; x00;
   x00; x00; x00; x00; x00; x00; x00; x00; x00; x00; x00; x00; x00; x00; x00; x00;
   x00; x00; x00; x00; x00; x00; x00; x00; x00; x00; x00; x00; x00; x00; x00; x00;
   x01; x00; x00; x00; x70; x00; x00; x00; x00; x00; x00; x00; x00; x00; x00; x00;
   x01; x00; x00; x00; x01; x00; x00; x00; xff; xff; xff; xff; x00; x00; x00; x00;
   xff; xff; xff; xff; x00; x00; x00; x00; x90; x00; x00; x00; x00; x00; x00; x00;
   x02; x01; x01; x00; x03; x01; x02; x02; x05; x0a; x01; x01; x80; x02
  ].

(** A container with one class definition at 112 whose access-flags word
    is [0x8001]: the public flag and the bit [0x8000], which no flag
    names. *)
Definition sample_flag_dex : bytes :=
  [
   x64; x65; x78; x0a; x30; x33; x35; x00; x19; x16; x2b; xcb; x86; x1a; xb9; xcf;
   x70; x2b; x41; xbd; xa8; x82; x95; x6c; x06; xa2; xb7; xe7; xa8; x82; xa3; x8b;
   x90; x00; x00; x00; x70; x00; x00; x00; x78; x56; x34; x12; x00; x00; x00; x00;
   x00; x00; x00; x00; x90; x00; x00; x00; x00; x00; x00; x00; x00; x00; x00; x00;
   x00; x00; x00; x00; x00; x00; x00; x00; x00; x00; x00; x00; x00; x00; x00; x00;
   x00; x00; x00; x00; x00; x00; x00; x00; x00; x00; x00; x00; x00; x00; x00; x00;
   x01; x00; x00; x00; x70; x00; x00; x00; x00; x00; x00; x00; x00; x00; x00; x00;
   x00; x00; x00; x00; x01; x80; x00; x00; xff; xff; xff; xff; x00; x00; x00; x00;
   xff; xff; xff; xff; x00; x00; x00; x00; x00; x00; x00; x00; x00; x00; x00; x00
  ].

(** A container with the string "LA;" (string data at 152), the type it
    names, and at 120 the definition of that class, which has
    annotations and static values.  The annotations directory at 157
    declares no field annotation, one method annotation (the eight bytes
    at 173) and no parameter annotation; the static values at 181 are an
    encoded array holding the one byte value 7. *)
Definition sample_annotated_dex : bytes :=
  [
   x64; x65; x78; x0a; x30; x33; x35; x00; x8e; x16; x69; xff; x39; x24; x04; x16;
   x6a; x8d; x2a; x21; x5c; xab; x55; x6f; x95; xcf; xfa; xb4; x2c; x0f; x1f; x93;
   xb8; x00; x00; x00; x70; x00; x00; x00; x78; x56; x34; x12; x00; x00; x00; x00;
   x00; x00; x00; x00; xb8; x00; x00; x00; x01; x00; x00; x00; x70; x00; x00; x00;
   x01; x00; x00; x00; x74; x00; x00; x00; x00; x00; x00; x00; x00; x00; x00; x00;
   x00; x00; x00; x00; x00; x00; x00; x00; x00; x00; x00; x00; x00; x00; x00; x00;
   x01; x00; x00; x00; x78; x00; x00; x00; x00; x00; x00; x00; x00; x00; x00; x00;
   x98; x00; x00; x00; x00; x00; x00; x00; x00; x00; x00; x00; x01; x00; x00; x00;
   xff; xff; xff; xff; x00; x00; x00; x00; xff; xff; xff; xff; x9d; x00; x00; x00;
   x00; x00; x00; x00; xb5; x00; x00; x00; x03; x4c; x41; x3b; x00; x00; x00; x00;
   x00; x00; x00; x00; x00; x01; x00; x00; x00; x00; x00; x00; x00; x00; x00; x00;
   x00; x00; x00; x00; x00; x01; x00; x07
  ].

(** The two static fields of [sample_class_data], with deltas 3 and 2. *)
Definition sample_static_fields : list EncodedField.t :=
  [{| EncodedField.field_idx_diff := {| Uleb128.data := [x03]; Uleb128._size := 1 |};
      EncodedField.access_flags := {| Uleb128.data := [x01]; Uleb128._size := 1 |};
      EncodedField._size := 2 |};
   {| EncodedField.field_idx_diff := {| Uleb128.data := [x02]; Uleb128._size := 1 |};
      EncodedField.access_flags := {| Uleb128.data := [x02]; Uleb128._size := 1 |};
      EncodedField._size := 2 |}].

(** * Properties *)

(** ** Sequences, slices and integers *)

Lemma bind_Ok_inv {A B} (m : result A) (f : A -> result B) (b : B) :
  m ≫= f = Ok b -> exists a, m = Ok a /\ f a = Ok b.
Proof. destruct m as [a|e]; simpl; [eauto | discriminate]. Qed.

Lemma fmap_Ok_inv {A B} (f : A -> B) (m : result A) (b : B) :
  f <$> m = Ok b -> exists a, m = Ok a /\ b = f a.
Proof. destruct m as [a|e]; simpl; [intros [= <-]; eauto | discriminate]. Qed.

Lemma raise_if_Ok_inv (c : bool) (e : exn) (u : unit) :
  raise_if c e = Ok u -> c = false.
Proof. by destruct c. Qed.

Lemma slice_bound_nonneg (i len : Z) : 0 <= i -> slice_bound i len = Z.min i len.
Proof. intros Hi. unfold slice_bound. case_match; [lia | done]. Qed.

Lemma py_slice_from_drop {A} (lo : Z) (s : list A) :
  0 <= lo -> py_slice_from lo s = drop (Z.to_nat lo) s.
Proof.
  intros Hlo. unfold py_slice_from. rewrite slice_bound_nonneg by done.
  destruct (Z.le_ge_cases lo (Z.of_nat (length s))) as [Hle|Hge].
  - by rewrite Z.min_l.
  - rewrite Z.min_r, Nat2Z.id by done.
    rewrite !drop_ge; [done | lia | done].
Qed.

Lemma py_slice_take_drop {A} (lo hi : Z) (s : list A) :
  0 <= lo <= hi ->
  py_slice lo hi s = take (Z.to_nat (hi - lo)) (drop (Z.to_nat lo) s).
Proof.
  intros [Hlo Hhi]. unfold py_slice.
  rewrite !slice_bound_nonneg by lia.
  destruct (Z.le_ge_cases lo (Z.of_nat (length s))) as [Hle|Hge].
  - rewrite (Z.min_l lo) by done.
    destruct (Z.le_ge_cases hi (Z.of_nat (length s))) as [Hle'|Hge'].
    + by rewrite Z.min_l.
    + rewrite Z.min_r by done.
      rewrite !take_ge; [done | rewrite length_drop; lia..].
  - rewrite !(drop_ge s) by lia. by rewrite !take_nil.
Qed.

Lemma py_slice_length_le {A} (lo hi : Z) (s : list A) :
  0 <= lo <= hi -> Z.of_nat (length (py_slice lo hi s)) <= hi - lo.
Proof.
  intros H. rewrite py_slice_take_drop by done. rewrite length_take. lia.
Qed.

Lemma py_slice_beyond {A} (lo hi : Z) (s : list A) :
  Z.of_nat (length s) <= lo -> 0 <= lo -> py_slice lo hi s = [].
Proof.
  intros Hlen Hlo. unfold py_slice. rewrite (slice_bound_nonneg lo) by done.
  rewrite Z.min_r, Nat2Z.id by done. rewrite drop_ge by done. apply take_nil.
Qed.

Lemma py_slice_lookup {A} (lo hi : Z) (s : list A) (k : nat) :
  0 <= lo -> Z.of_nat k < hi - lo ->
  py_slice lo hi s !! k = s !! (Z.to_nat lo + k)%nat.
Proof.
  intros Hlo Hk. rewrite py_slice_take_drop by lia.
  rewrite lookup_take_lt by lia. apply lookup_drop.
Qed.

Lemma py_index_nonneg {A} (s : list A) (i : Z) :
  0 <= i ->
  py_index s i = match s !! Z.to_nat i with
                 | Some x => Ok x
                 | None => Raise IndexError
                 end.
Proof.
  intros Hi. unfold py_index.
  destruct (i <? 0) eqn:Hneg; [lia|].
  destruct (Z.ltb_spec i (Z.of_nat (length s))) as [Hlt|Hge].
  - replace (0 <=? i) with true by lia. done.
  - rewrite andb_false_r. rewrite lookup_ge_None_2 by lia. done.
Qed.

Lemma py_index_in_range {A} (s : list A) (i : Z) :
  0 <= i < Z.of_nat (length s) ->
  exists x, s !! Z.to_nat i = Some x /\ py_index s i = Ok x.
Proof.
  intros [Hi Hlt]. rewrite py_index_nonneg by done.
  destruct (lookup_lt_is_Some_2 s (Z.to_nat i)) as [x Hx]; [lia|].
  exists x. by rewrite Hx.
Qed.

Lemma py_index_out_of_range {A} (s : list A) (i : Z) :
  Z.of_nat (length s) <= i -> py_index s i = Raise IndexError.
Proof.
  intros Hge. rewrite py_index_nonneg by lia.
  by rewrite lookup_ge_None_2 by lia.
Qed.

Lemma byte_val_range (b : byte) : 0 <= byte_val b < 256.
Proof.
  unfold byte_val. pose proof (Byte.to_N_bounded b). lia.
Qed.

Lemma byte_val_inj (b b' : byte) : byte_val b = byte_val b' -> b = b'.
Proof.
  unfold byte_val. intros H%N2Z.inj.
  pose proof (Byte.of_to_N b) as Hb. rewrite H, Byte.of_to_N in Hb. congruence.
Qed.

Lemma int_from_bytes_little_range (b : bytes) :
  0 <= int_from_bytes_little b < 256 ^ Z.of_nat (length b).
Proof.
  induction b as [|x b IH]; simpl int_from_bytes_little; [simpl; lia|].
  pose proof (byte_val_range x).
  rewrite length_cons, Nat2Z.inj_succ, Z.pow_succ_r by lia. lia.
Qed.

Lemma int_from_bytes_little_nonneg (b : bytes) : 0 <= int_from_bytes_little b.
Proof. apply int_from_bytes_little_range. Qed.

Lemma int_from_bytes_little_inj (b b' : bytes) :
  length b = length b' ->
  int_from_bytes_little b = int_from_bytes_little b' -> b = b'.
Proof.
  revert b'. induction b as [|x b IH]; intros [|x' b'] Hlen Heq; try done.
  simpl in *. pose proof (byte_val_range x). pose proof (byte_val_range x').
  assert (byte_val x = byte_val x') as Hx by lia.
  f_equal; [by apply byte_val_inj|]. apply IH; [lia | lia].
Qed.

Lemma py_range_length (start size step : Z) :
  0 < step -> 0 <= size ->
  length (py_range start (start + size * step) step) = Z.to_nat size.
Proof.
  intros Hstep Hsize. unfold py_range. rewrite length_fmap, length_seqZ.
  f_equal. replace (start + size * step - start + step - 1)
    with (step - 1 + size * step) by lia.
  rewrite Z.div_add by lia. rewrite Z.div_small by lia. lia.
Qed.

Lemma py_range_lookup (start size step : Z) (k : nat) :
  0 < step -> Z.of_nat k < size ->
  py_range start (start + size * step) step !! k = Some (start + step * Z.of_nat k).
Proof.
  intros Hstep Hk. unfold py_range. rewrite list_lookup_fmap.
  rewrite lookup_seqZ_lt; [done|].
  replace (start + size * step - start + step - 1)
    with (step - 1 + size * step) by lia.
  rewrite Z.div_add by lia. rewrite Z.div_small by lia. lia.
Qed.

Lemma py_range_empty (start step : Z) :
  0 < step -> py_range start (start + 0 * step) step = [].
Proof.
  intros Hstep. apply length_zero_iff_nil.
  rewrite py_range_length by lia. done.
Qed.

(** ** The header checks *)

Ltac inv_bind H :=
  let x := fresh "x" in
  let Hx := fresh "Hx" in
  apply bind_Ok_inv in H as (x & Hx & H).

Lemma endianness_of_Ok (tag : Z) (s : string) :
  HeaderItem.endianness_of tag = Ok s ->
  tag = ENDIAN_CONSTANT \/ tag = REVERSE_ENDIAN_CONSTANT.
Proof.
  unfold HeaderItem.endianness_of.
  destruct (Z.eqb_spec tag ENDIAN_CONSTANT); [by left|].
  destruct (Z.eqb_spec tag REVERSE_ENDIAN_CONSTANT); [by right | discriminate].
Qed.

Lemma endianness_of_Raise (tag : Z) (e : exn) :
  HeaderItem.endianness_of tag = Raise e -> e = BadDexFileError.
Proof.
  unfold HeaderItem.endianness_of. repeat case_match; congruence.
Qed.

(** What a validated header tells about the buffer, check by check. *)
Lemma HeaderItem_init_Ok_inv (data : bytes) (h : HeaderItem.t) :
  HeaderItem.init data = Ok h ->
  header_valid data.
Proof.
  unfold HeaderItem.init. intros H.
  inv_bind H. apply raise_if_Ok_inv, negb_false_iff, bool_decide_eq_true in Hx.
  inv_bind H. inv_bind H.
  inv_bind H. apply raise_if_Ok_inv, negb_false_iff, Z.eqb_eq in Hx2.
  inv_bind H. apply raise_if_Ok_inv, negb_false_iff, Z.eqb_eq in Hx3.
  inv_bind H. apply raise_if_Ok_inv, negb_false_iff, bool_decide_eq_true in Hx4.
  inv_bind H. apply raise_if_Ok_inv, negb_false_iff, Z.eqb_eq in Hx5.
  inv_bind H. apply raise_if_Ok_inv, negb_false_iff, Z.eqb_eq in Hx6.
  inv_bind H. apply endianness_of_Ok in Hx7.
  assert (data !! 7%nat = Some x1) as Hb7.
  { rewrite py_index_nonneg in Hx1 by lia.
    change (Z.to_nat 7) with 7%nat in Hx1.
    destruct (data !! 7%nat); by simplify_eq. }
  unfold header_valid. eauto 10.
Qed.

Lemma HeaderItem_init_fields (data : bytes) (h : HeaderItem.t) :
  HeaderItem.init data = Ok h ->
  HeaderItem.file_size h = Z.of_nat (length data) /\
  HeaderItem.map_off h = int_from_bytes_little (py_slice 52 56 data) /\
  HeaderItem.string_ids_size h = int_from_bytes_little (py_slice 56 60 data) /\
  HeaderItem.string_ids_off h = int_from_bytes_little (py_slice 60 64 data) /\
  HeaderItem.type_ids_size h = int_from_bytes_little (py_slice 64 68 data) /\
  HeaderItem.type_ids_off h = int_from_bytes_little (py_slice 68 72 data) /\
  HeaderItem.proto_ids_size h = int_from_bytes_little (py_slice 72 76 data) /\
  HeaderItem.proto_ids_off h = int_from_bytes_little (py_slice 76 80 data) /\
  HeaderItem.field_ids_size h = int_from_bytes_little (py_slice 80 84 data) /\
  HeaderItem.field_ids_off h = int_from_bytes_little (py_slice 84 88 data) /\
  HeaderItem.method_ids_size h = int_from_bytes_little (py_slice 88 92 data) /\
  HeaderItem.method_ids_off h = int_from_bytes_little (py_slice 92 96 data) /\
  HeaderItem.class_defs_size h = int_from_bytes_little (py_slice 96 100 data) /\
  HeaderItem.class_defs_off h = int_from_bytes_little (py_slice 100 104 data).
Proof.
  unfold HeaderItem.init. intros H.
  do 9 inv_bind H. injection H as <-. simpl. repeat split.
Qed.

(** On a buffer of at least eight bytes whose version field is UTF-8,
    the constructor follows the six checks: a header when all hold,
    [BadDexFileError] otherwise. *)
Lemma HeaderItem_init_cases (data : bytes) (v : list Z) :
  (8 <= length data)%nat ->
  utf8_decode (py_slice 4 7 data) = Ok v ->
  (exists h, HeaderItem.init data = Ok h /\ header_valid data) \/
  (HeaderItem.init data = Raise BadDexFileError /\ ~ header_valid data).
Proof.
  intros Hlen Hv.
  destruct (lookup_lt_is_Some_2 data 7) as [b7 Hb7]; [lia|].
  assert (py_index data 7 = Ok b7) as Hidx.
  { rewrite py_index_nonneg by lia. change (Z.to_nat 7) with 7%nat. by rewrite Hb7. }
  unfold HeaderItem.init. rewrite Hv, Hidx.
  destruct (decide (py_slice 0 4 data = MAGIC)) as [Hm|Hm]; cycle 1.
  { right. rewrite (bool_decide_eq_false_2 _ Hm). split; [reflexivity|].
    unfold header_valid. tauto. }
  rewrite (bool_decide_eq_true_2 _ Hm). simpl.
  destruct (Z.eqb_spec (byte_val b7) 0) as [H7|H7]; simpl; cycle 1.
  { right. split; [reflexivity|]. intros (_ & (b & Hb & Hz) & _). congruence. }
  destruct (Z.eqb_spec (adler32 (py_slice_from 12 data))
              (int_from_bytes_little (py_slice 8 12 data))) as [Hc|Hc]; simpl; cycle 1.
  { right. split; [reflexivity|]. unfold header_valid. tauto. }
  destruct (decide (SHA1.digest (py_slice_from 32 data) = py_slice 12 32 data))
    as [Hs|Hs]; cycle 1.
  { right. rewrite (bool_decide_eq_false_2 _ Hs). split; [reflexivity|].
    unfold header_valid. tauto. }
  rewrite (bool_decide_eq_true_2 _ Hs). simpl.
  destruct (Z.eqb_spec (Z.of_nat (length data))
              (int_from_bytes_little (py_slice 32 36 data))) as [Hf|Hf]; simpl; cycle 1.
  { right. split; [reflexivity|]. unfold header_valid. tauto. }
  destruct (Z.eqb_spec (int_from_bytes_little (py_slice 36 40 data))
              HeaderItem.HEADER_SIZE) as [Hh|Hh]; simpl; cycle 1.
  { right. split; [reflexivity|]. unfold header_valid. tauto. }
  destruct (HeaderItem.endianness_of (int_from_bytes_little (py_slice 40 44 data)))
    as [s|e] eqn:He; simpl.
  - left. eexists. split; [reflexivity|]. apply endianness_of_Ok in He.
    unfold header_valid. eauto 10.
  - right. pose proof (endianness_of_Raise _ _ He) as ->. split; [reflexivity|].
    intros (_ & _ & _ & _ & _ & _ & Ht). unfold HeaderItem.endianness_of in He.
    destruct Ht as [Ht|Ht]; rewrite Ht in He; discriminate.
Qed.

(** ** Variable-length integers *)

Lemma lor_shiftl_low (n v x : Z) :
  0 <= n -> 0 <= x < 2 ^ n -> Z.lor (Z.shiftl v n) x = 2 ^ n * v + x.
Proof.
  intros Hn Hx.
  assert (Z.land (Z.shiftl v n) x = 0) as Hland.
  { apply Z.bits_inj'. intros k Hk. rewrite Z.land_spec, Z.bits_0.
    destruct (Z.lt_ge_cases k n) as [Hlt|Hge].
    - rewrite Z.shiftl_spec_low by done. done.
    - replace x with (x mod 2 ^ n) by (apply Z.mod_small; lia).
      rewrite Z.mod_pow2_bits_high by lia. apply andb_false_r. }
  rewrite <- Z.lxor_lor, <- Z.add_nocarry_lxor by done.
  rewrite Z.shiftl_mul_pow2 by lia. lia.
Qed.

Lemma land_7f_range (x : Z) : 0 <= Z.land x 0x7f < 128.
Proof.
  change 0x7f with (Z.ones 7). rewrite Z.land_ones by lia.
  apply Z.mod_pos_bound. lia.
Qed.

Lemma varint_sum_shift (i0 : Z) (l : bytes) :
  0 <= i0 -> varint_sum (i0 + 1) l = 128 * varint_sum i0 l.
Proof.
  revert i0. induction l as [|b l IH]; intros i0 Hi0; simpl; [done|].
  rewrite IH by lia. rewrite !Z.shiftl_mul_pow2 by lia.
  replace (7 * (i0 + 1)) with (7 * i0 + 7) by lia.
  rewrite Z.pow_add_r by lia. lia.
Qed.

(** [__int__] computes the sum of the specification. *)
Lemma Uleb128_int_sum (u : Uleb128.t) :
  Uleb128.int u = varint_sum 0 (Uleb128.data u).
Proof.
  unfold Uleb128.int. induction (Uleb128.data u) as [|b l IH]; [done|].
  simpl rev. rewrite fold_left_app. simpl fold_left at 1. rewrite IH.
  rewrite (lor_shiftl_low 7) by (lia || apply land_7f_range).
  change (2 ^ 7) with 128.
  simpl varint_sum. rewrite (varint_sum_shift 0) by lia.
  rewrite Z.shiftl_0_r. lia.
Qed.

Lemma Uleb128_scan_terminated (pre : bytes) (b : byte) (rest : bytes) (idx : Z) :
  Forall continues pre -> ~ continues b ->
  idx + Z.of_nat (length pre) <= 4 ->
  Uleb128.scan idx (pre ++ b :: rest) = Ok (idx + Z.of_nat (length pre) + 1).
Proof.
  intros Hpre Hb. revert idx. induction Hpre as [|x pre Hx _ IH]; intros idx Hidx.
  - simpl. destruct (Z.eqb_spec (Z.land (byte_val b) 128) 0) as [_|Hne];
      [f_equal; lia | by destruct Hb].
  - simpl app. simpl Uleb128.scan.
    destruct (Z.eqb_spec (Z.land (byte_val x) 128) 0) as [He|_]; [by destruct Hx|].
    rewrite length_cons, Nat2Z.inj_succ in Hidx.
    destruct (Z.eqb_spec idx 4) as [->|_]; [lia|].
    rewrite IH by lia. f_equal. rewrite length_cons. lia.
Qed.

(** A varint that ends within five bytes: the bytes up to the first one
    with the high bit clear are kept, their number is the size, and the
    value is the sum of the specification. *)
Lemma Uleb128_init_terminated (pre : bytes) (b : byte) (rest : bytes) :
  Forall continues pre -> ~ continues b -> (length pre <= 4)%nat ->
  exists u, Uleb128.init (pre ++ b :: rest) = Ok u /\
            Uleb128.data u = pre ++ [b] /\
            Uleb128._size u = Z.of_nat (length pre) + 1 /\
            Uleb128.int u = varint_sum 0 (pre ++ [b]).
Proof.
  intros Hpre Hb Hlen. unfold Uleb128.init.
  rewrite Uleb128_scan_terminated by (done || lia). simpl.
  eexists. split; [done|]. simpl.
  assert (py_slice 0 (Z.of_nat (length pre) + 1) (pre ++ b :: rest) = pre ++ [b]) as Hs.
  { rewrite py_slice_take_drop by lia. simpl drop.
    replace (Z.to_nat (Z.of_nat (length pre) + 1 - 0)) with (length (pre ++ [b]))
      by (rewrite length_app; simpl; lia).
    rewrite (cons_middle b pre rest), app_assoc. apply take_app_length. }
  rewrite Z.add_0_l. repeat split; [done|].
  rewrite Uleb128_int_sum. simpl Uleb128.data. by rewrite Hs.
Qed.

Lemma Uleb128_scan_overlong (data : bytes) (idx : Z) :
  idx <= 4 -> 4 - idx < Z.of_nat (length data) ->
  Forall continues (take (Z.to_nat (5 - idx)) data) ->
  Uleb128.scan idx data = Raise BadDexFileError.
Proof.
  revert idx. induction data as [|x data IH]; intros idx Hidx Hlen Hall.
  - simpl in Hlen. lia.
  - destruct (Z.to_nat (5 - idx)) as [|n] eqn:Hn; [lia|].
    simpl in Hall. inversion_clear Hall as [|? ? Hx Hall'].
    simpl. destruct (Z.eqb_spec (Z.land (byte_val x) 128) 0) as [He|_];
      [by destruct Hx|].
    destruct (Z.eqb_spec idx 4) as [->|Hne]; [done|].
    apply IH; [lia | rewrite length_cons in Hlen; lia |].
    by replace (Z.to_nat (5 - (idx + 1))) with n by lia.
Qed.

(** Five bytes in a row with the high bit set are rejected. *)
Lemma Uleb128_init_overlong (data : bytes) :
  (5 <= length data)%nat -> Forall continues (take 5 data) ->
  Uleb128.init data = Raise BadDexFileError.
Proof.
  intros Hlen Hall. unfold Uleb128.init.
  rewrite Uleb128_scan_overlong; [done | lia | lia | done].
Qed.

Lemma Uleb128_scan_exhausted (data : bytes) (idx : Z) :
  idx + Z.of_nat (length data) <= 4 -> Forall continues data ->
  Uleb128.scan idx data = Ok 0.
Proof.
  intros Hlen Hall. revert idx Hlen.
  induction Hall as [|x data Hx _ IH]; intros idx Hlen; [done|].
  simpl. destruct (Z.eqb_spec (Z.land (byte_val x) 128) 0) as [He|_];
    [by destruct Hx|].
  rewrite length_cons in Hlen.
  destruct (Z.eqb_spec idx 4) as [->|_]; [lia|].
  apply IH. lia.
Qed.

(** A buffer that ends before the varint does, after fewer than five
    bytes, is not rejected: the loop runs out of bytes, [size] keeps its
    initial 0 and the varint reads as 0 over no bytes. *)
Lemma Uleb128_init_truncated (data : bytes) :
  (length data <= 4)%nat -> Forall continues data ->
  Uleb128.init data = Ok {| Uleb128.data := []; Uleb128._size := 0 |}.
Proof.
  intros Hlen Hall. unfold Uleb128.init.
  rewrite Uleb128_scan_exhausted by (done || lia). simpl.
  by rewrite py_slice_take_drop by lia.
Qed.

(** ** Class data *)

Lemma records_loop_records_at {A} (item : bytes -> result A) (size : A -> Z)
  (n : nat) (data : bytes) (off : Z) (r : list A * Z) :
  ClassDataItem.records_loop item size n data off = Ok r ->
  length (fst r) = n /\ records_at item size data off (fst r) (snd r).
Proof.
  revert off r. induction n as [|n IH]; intros off r H; simpl in H.
  - injection H as <-. split; [done | constructor].
  - inv_bind H. inv_bind H. injection H as <-. simpl.
    destruct (IH _ _ Hx0) as [Hlen Hrec].
    split; [by rewrite Hlen | by econstructor].
Qed.

Lemma records_at_records_loop {A} (item : bytes -> result A) (size : A -> Z)
  (data : bytes) (off : Z) (xs : list A) (off' : Z) :
  records_at item size data off xs off' ->
  ClassDataItem.records_loop item size (length xs) data off = Ok (xs, off').
Proof.
  induction 1 as [off|off x xs off' Hx _ IH]; simpl; [done|].
  rewrite Hx. simpl. rewrite IH. done.
Qed.

Lemma dump_loop_lookup {R A} (get : R -> Z -> result A) (delta : R -> Z)
  (prev : Z) (rs : list R) (i : nat) (r : R) :
  rs !! i = Some r ->
  ClassDataItem.dump_loop get delta prev rs !! i
  = Some (get r (prev + delta_sum delta (take i rs))).
Proof.
  revert prev i. induction rs as [|x rs IH]; intros prev i Hi; [done|].
  destruct i as [|i]; simpl in *.
  - injection Hi as ->. by rewrite Z.add_0_r.
  - rewrite (IH _ _ Hi). do 2 f_equal. lia.
Qed.

Lemma dump_loop_length {R A} (get : R -> Z -> result A) (delta : R -> Z)
  (prev : Z) (rs : list R) :
  length (ClassDataItem.dump_loop get delta prev rs) = length rs.
Proof. revert prev. induction rs as [|x rs IH]; intros prev; simpl; [done | by rewrite IH]. Qed.

Lemma delta_sum_snoc {A} (delta : A -> Z) (xs : list A) (i : nat) (x : A) :
  xs !! i = Some x ->
  delta_sum delta (take (S i) xs) = delta_sum delta (take i xs) + delta x.
Proof.
  revert i. induction xs as [|y xs IH]; intros i Hi; [done|].
  destruct i as [|i]; simpl in *.
  - injection Hi as ->. lia.
  - rewrite (IH _ Hi). lia.
Qed.

Lemma varint_sum_nonneg (l : bytes) (i0 : Z) : 0 <= i0 -> 0 <= varint_sum i0 l.
Proof.
  revert i0. induction l as [|b l IH]; intros i0 Hi0; simpl; [done|].
  pose proof (land_7f_range (byte_val b)).
  pose proof (IH (i0 + 1) ltac:(lia)).
  rewrite Z.shiftl_mul_pow2 by lia.
  assert (0 <= 2 ^ (7 * i0)) by (apply Z.pow_nonneg; lia). nia.
Qed.

Lemma Uleb128_int_nonneg (u : Uleb128.t) : 0 <= Uleb128.int u.
Proof. rewrite Uleb128_int_sum. by apply varint_sum_nonneg. Qed.

Lemma delta_sum_nonneg {A} (delta : A -> Z) (xs : list A) :
  (forall x, 0 <= delta x) -> 0 <= delta_sum delta xs.
Proof.
  intros Hd. induction xs as [|x xs IH]; simpl; [done|]. specialize (Hd x). lia.
Qed.

Lemma dump_fields_lookup (fs : list EncodedField.t) (field_ids : list FieldIdItem.t)
  (i : nat) (f : EncodedField.t) :
  fs !! i = Some f ->
  ClassDataItem.dump_fields 0 fs field_ids !! i
  = Some (py_index field_ids (delta_sum ClassDataItem.field_delta (take (S i) fs))).
Proof.
  intros Hi. unfold ClassDataItem.dump_fields.
  rewrite (dump_loop_lookup _ _ _ _ _ _ Hi). unfold EncodedField.get_field.
  rewrite (delta_sum_snoc _ _ _ _ Hi). done.
Qed.

Lemma dump_methods_lookup (ms : list EncodedMethod.t) (method_ids : list MethodIdItem.t)
  (i : nat) (m : EncodedMethod.t) :
  ms !! i = Some m ->
  ClassDataItem.dump_methods 0 ms method_ids !! i
  = Some (py_index method_ids (delta_sum ClassDataItem.method_delta (take (S i) ms))).
Proof.
  intros Hi. unfold ClassDataItem.dump_methods.
  rewrite (dump_loop_lookup _ _ _ _ _ _ Hi). unfold EncodedMethod.get_method.
  rewrite (delta_sum_snoc _ _ _ _ Hi). done.
Qed.

(** The steps of the constructor, one by one: the four varints, and the
    four loops as runs of consecutive records. *)
Lemma ClassDataItem_init_steps (data : bytes) (cd : ClassDataItem.t) :
  ClassDataItem.init data = Ok cd <->
  let c1 := ClassDataItem.static_fields_size cd in
  let c2 := ClassDataItem.instance_fields_size cd in
  let c3 := ClassDataItem.direct_mehtods_size cd in
  let c4 := ClassDataItem.virtual_methods_size cd in
  let o1 := Uleb128._size c1 in
  let o2 := o1 + Uleb128._size c2 in
  let o3 := o2 + Uleb128._size c3 in
  let o4 := o3 + Uleb128._size c4 in
  Uleb128.init (py_slice_from 0 data) = Ok c1 /\
  Uleb128.init (py_slice_from o1 data) = Ok c2 /\
  Uleb128.init (py_slice_from o2 data) = Ok c3 /\
  Uleb128.init (py_slice_from o3 data) = Ok c4 /\
  length (ClassDataItem.static_fields cd) = Z.to_nat (Uleb128.int c1) /\
  length (ClassDataItem.instance_fields cd) = Z.to_nat (Uleb128.int c2) /\
  length (ClassDataItem.direct_mehtods cd) = Z.to_nat (Uleb128.int c3) /\
  length (ClassDataItem.virtual_methods cd) = Z.to_nat (Uleb128.int c4) /\
  exists o5 o6 o7 o8 : Z,
    records_at EncodedField.init EncodedField._size data
               o4 (ClassDataItem.static_fields cd) o5 /\
    records_at EncodedField.init EncodedField._size data
               o5 (ClassDataItem.instance_fields cd) o6 /\
    records_at EncodedMethod.init EncodedMethod._size data
               o6 (ClassDataItem.direct_mehtods cd) o7 /\
    records_at EncodedMethod.init EncodedMethod._size data
               o7 (ClassDataItem.virtual_methods cd) o8.
Proof.
  unfold ClassDataItem.init. split.
  - intros H. do 8 inv_bind H. injection H as <-. simpl.
    apply records_loop_records_at in Hx3 as [? ?], Hx4 as [? ?],
      Hx5 as [? ?], Hx6 as [? ?].
    repeat (split; [done|]). eauto 10.
  - destruct cd as [c1 c2 c3 c4 sf inf dm vm]. simpl.
    intros (H1 & H2 & H3 & H4 & L1 & L2 & L3 & L4 & o5 & o6 & o7 & o8
            & R1 & R2 & R3 & R4).
    rewrite H1. simpl. rewrite H2. simpl. rewrite H3. simpl. rewrite H4. simpl.
    unfold ClassDataItem.fields_loop, ClassDataItem.methods_loop.
    rewrite <- L1, (records_at_records_loop _ _ _ _ _ _ R1). simpl.
    rewrite <- L2, (records_at_records_loop _ _ _ _ _ _ R2). simpl.
    rewrite <- L3, (records_at_records_loop _ _ _ _ _ _ R3). simpl.
    rewrite <- L4, (records_at_records_loop _ _ _ _ _ _ R4). simpl.
    done.
Qed.

Lemma field_delta_nonneg (f : EncodedField.t) : 0 <= ClassDataItem.field_delta f.
Proof. apply Uleb128_int_nonneg. Qed.

Lemma method_delta_nonneg (m : EncodedMethod.t) : 0 <= ClassDataItem.method_delta m.
Proof. apply Uleb128_int_nonneg. Qed.

Lemma dump_fields_resolved (fs : list EncodedField.t) (field_ids : list FieldIdItem.t) :
  resolved_by_prefix_sum ClassDataItem.field_delta fs field_ids
    (ClassDataItem.dump_fields 0 fs field_ids).
Proof.
  split; [apply dump_loop_length|]. intros i f Hi. split.
  - apply delta_sum_nonneg, field_delta_nonneg.
  - by apply dump_fields_lookup with f.
Qed.

Lemma dump_methods_resolved (ms : list EncodedMethod.t) (method_ids : list MethodIdItem.t) :
  resolved_by_prefix_sum ClassDataItem.method_delta ms method_ids
    (ClassDataItem.dump_methods 0 ms method_ids).
Proof.
  split; [apply dump_loop_length|]. intros i m Hi. split.
  - apply delta_sum_nonneg, method_delta_nonneg.
  - by apply dump_methods_lookup with m.
Qed.

(** *** Class data written as the specification lays it out *)

Lemma py_slice_from_app {A} (front rest : list A) :
  py_slice_from (Z.of_nat (length front)) (front ++ rest) = rest.
Proof.
  rewrite py_slice_from_drop by lia. rewrite Nat2Z.id. apply drop_app_length.
Qed.

Lemma py_slice_from_0 {A} (s : list A) : py_slice_from 0 s = s.
Proof. by rewrite py_slice_from_drop by lia. Qed.

Lemma Uleb128_init_varint (v back : bytes) :
  varint_bytes v -> Uleb128.init (v ++ back) = Ok (uleb_of v).
Proof.
  intros (pre & b & -> & Hpre & Hb & Hlen).
  rewrite <- app_assoc. simpl app.
  destruct (Uleb128_init_terminated pre b back Hpre Hb Hlen)
    as ([d s] & -> & Hd & Hs & _).
  simpl in Hd, Hs. subst. unfold uleb_of. do 2 f_equal.
  rewrite length_app. simpl. lia.
Qed.

Lemma uleb_of_int (v : bytes) : Uleb128.int (uleb_of v) = varint_sum 0 v.
Proof. apply Uleb128_int_sum. Qed.

Lemma EncodedField_init_wf (p : bytes * bytes) (back : bytes) :
  field_wf p -> EncodedField.init (field_bytes p ++ back) = Ok (field_of p).
Proof.
  destruct p as [v1 v2]. intros [H1 H2]. unfold EncodedField.init, field_bytes.
  simpl fst. simpl snd. rewrite <- app_assoc.
  rewrite py_slice_from_0.
  rewrite (Uleb128_init_varint v1 _ H1). cbn [mbind result_bind uleb_of Uleb128._size].
  rewrite py_slice_from_app, (Uleb128_init_varint v2 _ H2). done.
Qed.

Lemma EncodedMethod_init_wf (t : bytes * bytes * bytes) (back : bytes) :
  method_wf t -> EncodedMethod.init (method_bytes t ++ back) = Ok (method_of t).
Proof.
  destruct t as [[v1 v2] v3]. intros (H1 & H2 & H3).
  unfold EncodedMethod.init, method_bytes. simpl fst. simpl snd.
  rewrite <- !app_assoc.
  rewrite py_slice_from_0.
  rewrite (Uleb128_init_varint v1 _ H1). cbn [mbind result_bind uleb_of Uleb128._size].
  rewrite py_slice_from_app, (Uleb128_init_varint v2 _ H2).
  cbn [mbind result_bind uleb_of Uleb128._size].
  rewrite <- Nat2Z.inj_add, <- length_app.
  rewrite (app_assoc v1 v2), py_slice_from_app, (Uleb128_init_varint v3 _ H3).
  cbn [mbind result_bind]. unfold method_of. simpl. do 2 f_equal.
  rewrite length_app. lia.
Qed.

Lemma records_at_wf {A P} (item : bytes -> result A) (size : A -> Z)
  (enc : P -> bytes) (dec : P -> A) (wf : P -> Prop) (ps : list P)
  (front back : bytes) :
  (forall p rest, wf p -> item (enc p ++ rest) = Ok (dec p)) ->
  (forall p, size (dec p) = Z.of_nat (length (enc p))) ->
  Forall wf ps ->
  records_at item size (front ++ concat (enc <$> ps) ++ back)
    (Z.of_nat (length front)) (dec <$> ps)
    (Z.of_nat (length (front ++ concat (enc <$> ps)))).
Proof.
  intros Hitem Hsize Hwf. revert front.
  induction Hwf as [|p ps Hp _ IH]; intros front.
  - simpl. rewrite app_nil_r. constructor.
  - simpl. econstructor.
    + rewrite py_slice_from_app, <- app_assoc. by apply Hitem.
    + rewrite Hsize, <- Nat2Z.inj_add, <- length_app.
      specialize (IH (front ++ enc p)).
      rewrite <- !app_assoc in IH. rewrite <- !app_assoc. exact IH.
Qed.

(** Well-formed class data decodes to the counts and records it was
    written from. *)
Lemma ClassDataItem_init_encoded (c1 c2 c3 c4 : bytes)
  (sfs ifs : list (bytes * bytes)) (dms vms : list (bytes * bytes * bytes))
  (rest : bytes) :
  varint_bytes c1 -> varint_bytes c2 -> varint_bytes c3 -> varint_bytes c4 ->
  Forall field_wf sfs -> Forall field_wf ifs ->
  Forall method_wf dms -> Forall method_wf vms ->
  varint_sum 0 c1 = Z.of_nat (length sfs) ->
  varint_sum 0 c2 = Z.of_nat (length ifs) ->
  varint_sum 0 c3 = Z.of_nat (length dms) ->
  varint_sum 0 c4 = Z.of_nat (length vms) ->
  ClassDataItem.init
    (c1 ++ c2 ++ c3 ++ c4
     ++ concat (field_bytes <$> sfs) ++ concat (field_bytes <$> ifs)
     ++ concat (method_bytes <$> dms) ++ concat (method_bytes <$> vms) ++ rest)
  = Ok {| ClassDataItem.static_fields_size := uleb_of c1;
          ClassDataItem.instance_fields_size := uleb_of c2;
          ClassDataItem.direct_mehtods_size := uleb_of c3;
          ClassDataItem.virtual_methods_size := uleb_of c4;
          ClassDataItem.static_fields := field_of <$> sfs;
          ClassDataItem.instance_fields := field_of <$> ifs;
          ClassDataItem.direct_mehtods := method_of <$> dms;
          ClassDataItem.virtual_methods := method_of <$> vms |}.
Proof.
  intros W1 W2 W3 W4 Wsf Wif Wdm Wvm N1 N2 N3 N4.
  set (F1 := concat (field_bytes <$> sfs)). set (F2 := concat (field_bytes <$> ifs)).
  set (M1 := concat (method_bytes <$> dms)). set (M2 := concat (method_bytes <$> vms)).
  apply ClassDataItem_init_steps.
  cbn [ClassDataItem.static_fields_size ClassDataItem.instance_fields_size
       ClassDataItem.direct_mehtods_size ClassDataItem.virtual_methods_size
       ClassDataItem.static_fields ClassDataItem.instance_fields
       ClassDataItem.direct_mehtods ClassDataItem.virtual_methods].
  cbv zeta. rewrite !uleb_of_int. cbn [uleb_of Uleb128._size]. rewrite !length_fmap.
  rewrite <- !Nat2Z.inj_add, <- !length_app.
  split; [|split; [|split; [|split]]].
  - rewrite py_slice_from_0. by apply Uleb128_init_varint.
  - rewrite py_slice_from_app. by apply Uleb128_init_varint.
  - rewrite (app_assoc c1 c2), py_slice_from_app. by apply Uleb128_init_varint.
  - rewrite (app_assoc c1 c2), (app_assoc (c1 ++ c2) c3), py_slice_from_app.
    by apply Uleb128_init_varint.
  - rewrite N1, N2, N3, N4, !Nat2Z.id.
    repeat (split; [done|]).
    set (H0 := ((c1 ++ c2) ++ c3) ++ c4).
    exists (Z.of_nat (length (H0 ++ F1))), (Z.of_nat (length ((H0 ++ F1) ++ F2))),
      (Z.of_nat (length (((H0 ++ F1) ++ F2) ++ M1))),
      (Z.of_nat (length ((((H0 ++ F1) ++ F2) ++ M1) ++ M2))).
    assert (forall p, EncodedField._size (field_of p) = Z.of_nat (length (field_bytes p)))
      as Sf by (intros [??]; unfold field_bytes; simpl; rewrite length_app; lia).
    assert (forall t, EncodedMethod._size (method_of t) = Z.of_nat (length (method_bytes t)))
      as Sm by (intros [[??]?]; unfold method_bytes; simpl; rewrite !length_app; lia).
    split; [|split; [|split]].
    + pose proof (records_at_wf EncodedField.init EncodedField._size field_bytes
                    field_of field_wf sfs H0 (F2 ++ M1 ++ M2 ++ rest)
                    EncodedField_init_wf Sf Wsf) as R.
      unfold H0 in *. fold F1 in R. rewrite <- !app_assoc in *. exact R.
    + pose proof (records_at_wf EncodedField.init EncodedField._size field_bytes
                    field_of field_wf ifs (H0 ++ F1) (M1 ++ M2 ++ rest)
                    EncodedField_init_wf Sf Wif) as R.
      unfold H0 in *. fold F2 in R. rewrite <- !app_assoc in *. exact R.
    + pose proof (records_at_wf EncodedMethod.init EncodedMethod._size method_bytes
                    method_of method_wf dms ((H0 ++ F1) ++ F2) (M2 ++ rest)
                    EncodedMethod_init_wf Sm Wdm) as R.
      unfold H0 in *. fold M1 in R. rewrite <- !app_assoc in *. exact R.
    + pose proof (records_at_wf EncodedMethod.init EncodedMethod._size method_bytes
                    method_of method_wf vms (((H0 ++ F1) ++ F2) ++ M1) rest
                    EncodedMethod_init_wf Sm Wvm) as R.
      unfold H0 in *. fold M2 in R. rewrite <- !app_assoc in *. exact R.
Qed.

Lemma delta_sum_fmap {A B} (f : A -> B) (delta : B -> Z) (delta' : A -> Z)
  (xs : list A) :
  (forall x, delta (f x) = delta' x) ->
  delta_sum delta (f <$> xs) = delta_sum delta' xs.
Proof.
  intros Hd. unfold delta_sum. induction xs as [|x xs IH]; simpl; [done|].
  rewrite Hd. f_equal. exact IH.
Qed.

Lemma field_index_delta_nonneg (p : bytes * bytes) : 0 <= field_index_delta p.
Proof. by apply varint_sum_nonneg. Qed.

Lemma method_index_delta_nonneg (t : bytes * bytes * bytes) : 0 <= method_index_delta t.
Proof. by apply varint_sum_nonneg. Qed.

(** The members resolved from decoded records, in terms of the varints
    the records were written with. *)
Lemma dump_fields_encoded (ps : list (bytes * bytes)) (field_ids : list FieldIdItem.t) :
  resolved_by_prefix_sum field_index_delta ps field_ids
    (ClassDataItem.dump_fields 0 (field_of <$> ps) field_ids).
Proof.
  split.
  - unfold ClassDataItem.dump_fields. by rewrite dump_loop_length, length_fmap.
  - intros i p Hi. cbv zeta. split.
    + apply delta_sum_nonneg, field_index_delta_nonneg.
    + rewrite (dump_fields_lookup _ _ i (field_of p))
        by (by rewrite list_lookup_fmap, Hi).
      do 2 f_equal. rewrite <- fmap_take. apply delta_sum_fmap.
      intros q. apply uleb_of_int.
Qed.

Lemma dump_methods_encoded (ts : list (bytes * bytes * bytes))
  (method_ids : list MethodIdItem.t) :
  resolved_by_prefix_sum method_index_delta ts method_ids
    (ClassDataItem.dump_methods 0 (method_of <$> ts) method_ids).
Proof.
  split.
  - unfold ClassDataItem.dump_methods. by rewrite dump_loop_length, length_fmap.
  - intros i t Hi. cbv zeta. split.
    + apply delta_sum_nonneg, method_index_delta_nonneg.
    + rewrite (dump_methods_lookup _ _ i (method_of t))
        by (by rewrite list_lookup_fmap, Hi).
      do 2 f_equal. rewrite <- fmap_take. apply delta_sum_fmap.
      intros q. apply uleb_of_int.
Qed.

(** C3.  Take a class-data record written as the specification lays it
    out: four varint counts, then the static fields, the instance
    fields, the direct methods and the virtual methods, in that order,
    every member written as its varints (two for a field, three for a
    method, the first being the index delta) and every sequence holding
    as many members as its count says.  The constructor reads back the
    four counts and the four sequences, member for member, whatever
    follows the record in the buffer; and in each of the four sequences,
    taken separately from an accumulator of 0, the member resolved at
    position [i] is the table entry whose index is the sum of the deltas
    written at positions 0 to [i]. *)
Theorem ClassDataItem_delta_decoding (c1 c2 c3 c4 : bytes)
  (sfs ifs : list (bytes * bytes)) (dms vms : list (bytes * bytes * bytes))
  (rest : bytes) (method_ids : list MethodIdItem.t) (field_ids : list FieldIdItem.t) :
  varint_bytes c1 -> varint_bytes c2 -> varint_bytes c3 -> varint_bytes c4 ->
  Forall field_wf sfs -> Forall field_wf ifs ->
  Forall method_wf dms -> Forall method_wf vms ->
  varint_sum 0 c1 = Z.of_nat (length sfs) ->
  varint_sum 0 c2 = Z.of_nat (length ifs) ->
  varint_sum 0 c3 = Z.of_nat (length dms) ->
  varint_sum 0 c4 = Z.of_nat (length vms) ->
  exists cd,
    ClassDataItem.init
      (c1 ++ c2 ++ c3 ++ c4
       ++ concat (field_bytes <$> sfs) ++ concat (field_bytes <$> ifs)
       ++ concat (method_bytes <$> dms) ++ concat (method_bytes <$> vms) ++ rest)
    = Ok cd /\
    (Uleb128.data (ClassDataItem.static_fields_size cd) = c1 /\
     Uleb128.data (ClassDataItem.instance_fields_size cd) = c2 /\
     Uleb128.data (ClassDataItem.direct_mehtods_size cd) = c3 /\
     Uleb128.data (ClassDataItem.virtual_methods_size cd) = c4) /\
    (Uleb128.int (ClassDataItem.static_fields_size cd) = Z.of_nat (length sfs) /\
     Uleb128.int (ClassDataItem.instance_fields_size cd) = Z.of_nat (length ifs) /\
     Uleb128.int (ClassDataItem.direct_mehtods_size cd) = Z.of_nat (length dms) /\
     Uleb128.int (ClassDataItem.virtual_methods_size cd) = Z.of_nat (length vms)) /\
    (ClassDataItem.static_fields cd = field_of <$> sfs /\
     ClassDataItem.instance_fields cd = field_of <$> ifs /\
     ClassDataItem.direct_mehtods cd = method_of <$> dms /\
     ClassDataItem.virtual_methods cd = method_of <$> vms) /\
    let m := ClassDataItem.dump_data cd method_ids field_ids in
    resolved_by_prefix_sum field_index_delta sfs field_ids
      (ClassDataItem.static_field_members m) /\
    resolved_by_prefix_sum field_index_delta ifs field_ids
      (ClassDataItem.instance_field_members m) /\
    resolved_by_prefix_sum method_index_delta dms method_ids
      (ClassDataItem.direct_method_members m) /\
    resolved_by_prefix_sum method_index_delta vms method_ids
      (ClassDataItem.virtual_method_members m).
Proof.
  intros W1 W2 W3 W4 Wsf Wif Wdm Wvm N1 N2 N3 N4.
  eexists. split; [by apply ClassDataItem_init_encoded|].
  cbn [ClassDataItem.static_fields_size ClassDataItem.instance_fields_size
       ClassDataItem.direct_mehtods_size ClassDataItem.virtual_methods_size
       ClassDataItem.static_fields ClassDataItem.instance_fields
       ClassDataItem.direct_mehtods ClassDataItem.virtual_methods
       ClassDataItem.dump_data ClassDataItem.static_field_members
       ClassDataItem.instance_field_members ClassDataItem.direct_method_members
       ClassDataItem.virtual_method_members].
  split; [done|]. split; [by rewrite !uleb_of_int|]. split; [done|].
  cbv zeta.
  auto using dump_fields_encoded, dump_methods_encoded.
Qed.

(** ** Class definitions *)

Lemma ClassDefItem_init_nonneg (fb : AccessFlag.boundary) (raw : bytes)
  (c : ClassDefItem.t) :
  ClassDefItem.init fb raw = Ok c ->
  0 <= ClassDefItem.class_idx c /\
  0 <= ClassDefItem.superclass_idx c /\
  0 <= ClassDefItem.source_file_idx c.
Proof.
  unfold ClassDefItem.init. intros H. inv_bind H. injection H as <-. simpl.
  auto using int_from_bytes_little_nonneg.
Qed.

(** Each resolver answers its sentinel with nothing, for every buffer
    and every table, so without looking at them. *)
Lemma ClassDefItem_sentinels (c : ClassDefItem.t) (data : bytes)
  (type_ids : list TypeIdItem.t) (string_ids : list StringIdItem.t) :
  (ClassDefItem.interfaces_off c = 0 ->
     ClassDefItem.get_interfaces_type_list c data = None) /\
  (ClassDefItem.annotations_off c = 0 ->
     ClassDefItem.get_annotations_annotation_directory_item c data = Ok None) /\
  (ClassDefItem.class_data_off c = 0 ->
     ClassDefItem.get_class_data_class_data_item c data = Ok None) /\
  (ClassDefItem.static_values_off c = 0 ->
     ClassDefItem.get_static_values_encoded_array_item c data = None) /\
  (ClassDefItem.superclass_idx c = NO_INDEX ->
     ClassDefItem.get_superclass_type_id_item c type_ids = Ok None) /\
  (ClassDefItem.source_file_idx c = NO_INDEX ->
     ClassDefItem.get_source_file_string_id_item c string_ids = Ok None).
Proof.
  unfold ClassDefItem.get_interfaces_type_list,
    ClassDefItem.get_annotations_annotation_directory_item,
    ClassDefItem.get_class_data_class_data_item,
    ClassDefItem.get_static_values_encoded_array_item,
    ClassDefItem.get_superclass_type_id_item,
    ClassDefItem.get_source_file_string_id_item.
  repeat split; by intros ->.
Qed.

(** The static-values resolver never reads the array it is given: at
    any offset other than 0 it returns the object whose one slot is
    unset. *)
Lemma ClassDefItem_static_values_unread (c : ClassDefItem.t) (data : bytes) :
  ClassDefItem.static_values_off c <> 0 ->
  ClassDefItem.get_static_values_encoded_array_item c data
  = Some {| EncodedArrayItem.a := None |}.
Proof.
  intros Hne%Z.eqb_neq. unfold ClassDefItem.get_static_values_encoded_array_item.
  by rewrite Hne.
Qed.

(** ** Tables *)

Lemma table_length {A} (item : bytes -> A) (stride : Z) (data : bytes) (start size : Z) :
  0 < stride -> 0 <= size ->
  length (DexParser.table item stride data start size) = Z.to_nat size.
Proof.
  intros Hs Hn. unfold DexParser.table. rewrite length_fmap.
  by apply py_range_length.
Qed.

Lemma table_lookup {A} (item : bytes -> A) (stride : Z) (data : bytes)
  (start size : Z) (k : nat) :
  0 < stride -> Z.of_nat k < size ->
  DexParser.table item stride data start size !! k
  = Some (item (py_slice (start + stride * Z.of_nat k)
                         (start + stride * Z.of_nat k + stride) data)).
Proof.
  intros Hs Hk. unfold DexParser.table. rewrite list_lookup_fmap.
  by rewrite py_range_lookup.
Qed.

Lemma table_is_built {A} (item : bytes -> A) (stride : Z) (data : bytes)
  (start size : Z) :
  0 < stride -> 0 <= start -> 0 <= size ->
  table_built item stride data start size (item [])
              (DexParser.table item stride data start size).
Proof.
  intros Hs Hstart Hn. split; [by apply table_length|].
  intros k Hk off. rewrite table_lookup by done. fold off.
  assert (0 <= off) by (unfold off; lia).
  split.
  - rewrite py_slice_take_drop by lia. do 3 f_equal. lia.
  - intros Hbeyond. by rewrite py_slice_beyond.
Qed.

Lemma py_index_resolution {A} (table : list A) (idx : Z) :
  0 <= idx -> index_resolution idx table (py_index table idx).
Proof.
  intros Hidx. split; [done|]. split.
  - intros Hlt. by apply py_index_in_range.
  - apply py_index_out_of_range.
Qed.

Lemma comprehension_Ok_lookup {A B} (f : A -> result B) (xs : list A) (ys : list B) :
  comprehension f xs = Ok ys ->
  length ys = length xs /\
  forall (i : nat) (y : B), ys !! i = Some y -> exists x, xs !! i = Some x /\ f x = Ok y.
Proof.
  revert ys. induction xs as [|x xs IH]; intros ys H; simpl in H.
  - injection H as <-. split; [done | by intros i y].
  - inv_bind H. inv_bind H. injection H as <-.
    destruct (IH _ Hx0) as [Hlen Hlk]. split; [simpl; by rewrite Hlen|].
    intros [|i] y Hy; simpl in *; [injection Hy as <-; eauto | eauto].
Qed.

Lemma comprehension_Raise_inv {A B} (f : A -> result B) (xs : list A) (e : exn) :
  comprehension f xs = Raise e -> exists x, x ∈ xs /\ f x = Raise e.
Proof.
  induction xs as [|x xs IH]; simpl; [discriminate|].
  destruct (f x) as [y|e'] eqn:Hfx; simpl.
  - destruct (comprehension f xs) as [ys|e'] eqn:Hc; simpl; [discriminate|].
    intros [= ->]. destruct IH as (x' & Hin & Hx'); [done|].
    exists x'. split; [by right | done].
  - intros [= ->]. exists x. split; [by left | done].
Qed.

(** What a successful decode holds: the validated header and the tables
    declared by it. *)
Lemma DexParser_init_Ok_inv (fb : AccessFlag.boundary) (data : bytes)
  (dex : DexParser.t) :
  DexParser.init fb data = Ok dex ->
  let h := DexParser.header dex in
  HeaderItem.init data = Ok h /\
  MapList.init (py_slice_from (HeaderItem.map_off h) data) = Ok (DexParser.map_list dex) /\
  DexParser.string_ids dex
  = DexParser.table StringIdItem.init 4 data
      (HeaderItem.string_ids_off h) (HeaderItem.string_ids_size h) /\
  DexParser.type_ids dex
  = DexParser.table TypeIdItem.init 4 data
      (HeaderItem.type_ids_off h) (HeaderItem.type_ids_size h) /\
  DexParser.proto_ids dex
  = DexParser.table ProtoIdItem.init 12 data
      (HeaderItem.proto_ids_off h) (HeaderItem.proto_ids_size h) /\
  DexParser.field_ids dex
  = DexParser.table FieldIdItem.init 8 data
      (HeaderItem.field_ids_off h) (HeaderItem.field_ids_size h) /\
  DexParser.method_ids dex
  = DexParser.table MethodIdItem.init 8 data
      (HeaderItem.method_ids_off h) (HeaderItem.method_ids_size h) /\
  comprehension (fun off => ClassDefItem.init fb (py_slice off (off + 32) data))
    (py_range (HeaderItem.class_defs_off h)
       (HeaderItem.class_defs_off h + HeaderItem.class_defs_size h * 32) 32)
  = Ok (DexParser.class_defs dex).
Proof.
  unfold DexParser.init. intros H. do 3 inv_bind H. injection H as <-. simpl.
  repeat split; done.
Qed.

(** After the header, a decode can only fail in the map list or in a
    class definition. *)
Lemma DexParser_init_Raise_inv (fb : AccessFlag.boundary) (data : bytes)
  (h : HeaderItem.t) (e : exn) :
  HeaderItem.init data = Ok h ->
  DexParser.init fb data = Raise e ->
  MapList.init (py_slice_from (HeaderItem.map_off h) data) = Raise e \/
  comprehension (fun off => ClassDefItem.init fb (py_slice off (off + 32) data))
    (py_range (HeaderItem.class_defs_off h)
       (HeaderItem.class_defs_off h + HeaderItem.class_defs_size h * 32) 32)
  = Raise e.
Proof.
  unfold DexParser.init. intros ->. cbn [mbind result_bind].
  destruct (MapList.init _) as [ml|e']; cbn [mbind result_bind];
    [|intros [= ->]; by left].
  destruct (comprehension _ _) as [cds|e']; cbn [mbind result_bind]; [discriminate|].
  intros [= ->]. by right.
Qed.

Lemma table_elem {A} (item : bytes -> A) (stride : Z) (data : bytes)
  (start size : Z) (r : A) :
  r ∈ DexParser.table item stride data start size -> exists b, r = item b.
Proof.
  unfold DexParser.table. intros (off & -> & _)%list_elem_of_fmap. eauto.
Qed.

Lemma comprehension_elem {A B} (f : A -> result B) (xs : list A) (ys : list B) (y : B) :
  comprehension f xs = Ok ys -> y ∈ ys -> exists x, f x = Ok y.
Proof.
  intros Hc (i & Hi)%list_elem_of_lookup.
  destruct (comprehension_Ok_lookup _ _ _ Hc) as [_ Hlk].
  destruct (Hlk _ _ Hi) as (x & _ & Hx). eauto.
Qed.

(** C10.  Once the header validates, the five identifier tables are
    built whatever offsets and counts it declares: each has one record
    per declared position, a record reaching past the end of the buffer
    is built from the bytes that remain, an integer read from no bytes
    is 0, and so a record lying wholly past the end has every field 0.
    Building them raises nothing: a decode that fails after the header
    fails in the map list or in a class definition. *)
Theorem id_tables_never_raise (fb : AccessFlag.boundary) (data : bytes)
  (h : HeaderItem.t) :
  HeaderItem.init data = Ok h ->
  table_built StringIdItem.init 4 data
    (HeaderItem.string_ids_off h) (HeaderItem.string_ids_size h)
    {| StringIdItem.string_data_off := 0 |}
    (DexParser.table StringIdItem.init 4 data
       (HeaderItem.string_ids_off h) (HeaderItem.string_ids_size h)) /\
  table_built TypeIdItem.init 4 data
    (HeaderItem.type_ids_off h) (HeaderItem.type_ids_size h)
    {| TypeIdItem.descriptor_idx := 0 |}
    (DexParser.table TypeIdItem.init 4 data
       (HeaderItem.type_ids_off h) (HeaderItem.type_ids_size h)) /\
  table_built ProtoIdItem.init 12 data
    (HeaderItem.proto_ids_off h) (HeaderItem.proto_ids_size h)
    {| ProtoIdItem.shorty_idx := 0; ProtoIdItem.return_type_idx := 0;
       ProtoIdItem.parameters_off := 0 |}
    (DexParser.table ProtoIdItem.init 12 data
       (HeaderItem.proto_ids_off h) (HeaderItem.proto_ids_size h)) /\
  table_built FieldIdItem.init 8 data
    (HeaderItem.field_ids_off h) (HeaderItem.field_ids_size h)
    {| FieldIdItem.class_idx := 0; FieldIdItem.type_idx := 0;
       FieldIdItem.name_idx := 0 |}
    (DexParser.table FieldIdItem.init 8 data
       (HeaderItem.field_ids_off h) (HeaderItem.field_ids_size h)) /\
  table_built MethodIdItem.init 8 data
    (HeaderItem.method_ids_off h) (HeaderItem.method_ids_size h)
    {| MethodIdItem.class_idx := 0; MethodIdItem.proto_idx := 0;
       MethodIdItem.name_idx := 0 |}
    (DexParser.table MethodIdItem.init 8 data
       (HeaderItem.method_ids_off h) (HeaderItem.method_ids_size h)) /\
  int_from_bytes_little [] = 0 /\
  (forall dex, DexParser.init fb data = Ok dex ->
     DexParser.string_ids dex
     = DexParser.table StringIdItem.init 4 data
         (HeaderItem.string_ids_off h) (HeaderItem.string_ids_size h) /\
     DexParser.type_ids dex
     = DexParser.table TypeIdItem.init 4 data
         (HeaderItem.type_ids_off h) (HeaderItem.type_ids_size h) /\
     DexParser.proto_ids dex
     = DexParser.table ProtoIdItem.init 12 data
         (HeaderItem.proto_ids_off h) (HeaderItem.proto_ids_size h) /\
     DexParser.field_ids dex
     = DexParser.table FieldIdItem.init 8 data
         (HeaderItem.field_ids_off h) (HeaderItem.field_ids_size h) /\
     DexParser.method_ids dex
     = DexParser.table MethodIdItem.init 8 data
         (HeaderItem.method_ids_off h) (HeaderItem.method_ids_size h)) /\
  (forall e, DexParser.init fb data = Raise e ->
     MapList.init (py_slice_from (HeaderItem.map_off h) data) = Raise e \/
     comprehension (fun off => ClassDefItem.init fb (py_slice off (off + 32) data))
       (py_range (HeaderItem.class_defs_off h)
          (HeaderItem.class_defs_off h + HeaderItem.class_defs_size h * 32) 32)
     = Raise e).
Proof.
  intros Hh.
  destruct (HeaderItem_init_fields _ _ Hh)
    as (_ & _ & E1 & E2 & E3 & E4 & E5 & E6 & E7 & E8 & E9 & E10 & _).
  pose proof int_from_bytes_little_nonneg as Hnn.
  do 5 (split; [apply table_is_built; (lia || congruence)|]).
  split; [done|]. split.
  - intros dex Hdex. destruct (DexParser_init_Ok_inv _ _ _ Hdex) as (Hh' & _ & H).
    rewrite Hh in Hh'. injection Hh' as Heq. rewrite <- Heq in H. tauto.
  - intros e He. by apply DexParser_init_Raise_inv.
Qed.

Lemma py_slice_sub {A} (off n lo hi : Z) (s : list A) :
  0 <= off -> 0 <= lo <= hi -> hi <= n ->
  py_slice lo hi (py_slice off (off + n) s) = py_slice (off + lo) (off + hi) s.
Proof.
  intros Hoff Hlo Hhi. rewrite !py_slice_take_drop by lia.
  apply list_eq. intros i.
  destruct (decide (i < Z.to_nat (hi - lo))%nat) as [Hlt|Hge].
  - rewrite !lookup_take_lt by lia. rewrite !lookup_drop.
    rewrite lookup_take_lt by lia. rewrite lookup_drop. f_equal. lia.
  - rewrite !lookup_take_ge by lia. done.
Qed.

Lemma py_range_elem (start size step off : Z) :
  0 < step -> 0 <= size ->
  off ∈ py_range start (start + size * step) step ->
  exists k : nat, Z.of_nat k < size /\ off = start + step * Z.of_nat k.
Proof.
  intros Hstep Hsize (k & Hk)%list_elem_of_lookup.
  pose proof (lookup_lt_Some _ _ _ Hk) as Hlt.
  rewrite py_range_length in Hlt by done.
  exists k. split; [lia|].
  rewrite py_range_lookup in Hk by lia. by injection Hk as <-.
Qed.

Lemma comprehension_Ok_intro {A B} (f : A -> result B) (xs : list A) :
  (forall x, x ∈ xs -> exists y, f x = Ok y) ->
  exists ys, comprehension f xs = Ok ys.
Proof.
  induction xs as [|x xs IH]; intros Hf; simpl; [eauto|].
  destruct (Hf x) as [y ->]; [by left|].
  destruct IH as [ys ->]; [intros x' Hx'; apply Hf; by right|].
  simpl. eauto.
Qed.

Lemma of_int_Ok (fb : AccessFlag.boundary) (v : Z) :
  (fb = AccessFlag.STRICT -> flags_named v) ->
  AccessFlag.of_int fb v = Ok (Z.land v 0x37fff).
Proof.
  intros Hacc. unfold AccessFlag.of_int. change AccessFlag.flag_mask with 0x37fff.
  destruct (Z.eqb_spec (Z.land v 0x37fff) v) as [Heq|Hne]; [by rewrite Heq|].
  destruct fb; [|done]. by destruct Hne; apply Hacc.
Qed.

Lemma of_int_Ok_inv (fb : AccessFlag.boundary) (v w : Z) :
  AccessFlag.of_int fb v = Ok w -> w = Z.land v 0x37fff.
Proof.
  unfold AccessFlag.of_int. change AccessFlag.flag_mask with 0x37fff.
  destruct (Z.eqb_spec (Z.land v 0x37fff) v) as [Heq|Hne].
  - intros [= <-]. done.
  - destruct fb; [discriminate|]. by intros [= <-].
Qed.

(** A class definition is built from its 32 bytes as soon as the
    interpreter accepts its access flags; the indices it stores are
    copied, not looked up. *)
Lemma ClassDefItem_init_accepted (fb : AccessFlag.boundary) (raw : bytes) :
  (fb = AccessFlag.STRICT -> flags_named (int_from_bytes_little (py_slice 4 8 raw))) ->
  exists c, ClassDefItem.init fb raw = Ok c /\
    ClassDefItem.class_idx c = int_from_bytes_little (py_slice 0 4 raw) /\
    ClassDefItem.superclass_idx c = int_from_bytes_little (py_slice 8 12 raw) /\
    ClassDefItem.source_file_idx c = int_from_bytes_little (py_slice 16 20 raw).
Proof.
  intros Hacc. unfold ClassDefItem.init. rewrite (of_int_Ok _ _ Hacc).
  eexists. split; [done|]. done.
Qed.

Lemma optional_py_index_resolution {A} (table : list A) (idx : Z) :
  0 <= idx ->
  optional_index_resolution idx table
    (if idx =? NO_INDEX then Ok None else Some <$> py_index table idx).
Proof.
  intros Hidx. change NO_INDEX with 0xffffffff.
  split; [done|]. split; [|split].
  - intros ->. done.
  - intros Hne%Z.eqb_neq Hlt. rewrite Hne.
    destruct (py_index_in_range table idx ltac:(lia)) as (x & Hx & ->). eauto.
  - intros Hne%Z.eqb_neq Hge. rewrite Hne. by rewrite py_index_out_of_range.
Qed.

(** C7.  Whether a container decodes does not depend on the indices its
    records hold.  When the header validates, the map list decodes and
    the interpreter accepts the access flags of the declared class
    definitions, the decode succeeds, and the tables whose records hold
    indices into other tables are complete: one record per declared
    position, the record at position [k] holding what the bytes at that
    position say, in range of the indexed table or not.  An index is
    looked at only when a resolver method is called on its record: the
    call returns the entry at that index when the index is in range of
    the table it is given and raises [IndexError] when it is not, and
    the two optional indices of a class definition resolve to nothing on
    the reserved value. *)
Theorem index_resolution_is_lazy (fb : AccessFlag.boundary) (data : bytes)
  (h : HeaderItem.t) (ml : MapList.t) :
  HeaderItem.init data = Ok h ->
  MapList.init (py_slice_from (HeaderItem.map_off h) data) = Ok ml ->
  class_flags_accepted fb data h ->
  exists dex, DexParser.init fb data = Ok dex /\
    DexParser.header dex = h /\
    table_built TypeIdItem.init 4 data
      (HeaderItem.type_ids_off h) (HeaderItem.type_ids_size h)
      {| TypeIdItem.descriptor_idx := 0 |} (DexParser.type_ids dex) /\
    table_built ProtoIdItem.init 12 data
      (HeaderItem.proto_ids_off h) (HeaderItem.proto_ids_size h)
      {| ProtoIdItem.shorty_idx := 0; ProtoIdItem.return_type_idx := 0;
         ProtoIdItem.parameters_off := 0 |} (DexParser.proto_ids dex) /\
    table_built FieldIdItem.init 8 data
      (HeaderItem.field_ids_off h) (HeaderItem.field_ids_size h)
      {| FieldIdItem.class_idx := 0; FieldIdItem.type_idx := 0;
         FieldIdItem.name_idx := 0 |} (DexParser.field_ids dex) /\
    table_built MethodIdItem.init 8 data
      (HeaderItem.method_ids_off h) (HeaderItem.method_ids_size h)
      {| MethodIdItem.class_idx := 0; MethodIdItem.proto_idx := 0;
         MethodIdItem.name_idx := 0 |} (DexParser.method_ids dex) /\
    (length (DexParser.class_defs dex) = Z.to_nat (HeaderItem.class_defs_size h) /\
     forall k : nat, Z.of_nat k < HeaderItem.class_defs_size h ->
       let off := HeaderItem.class_defs_off h + 32 * Z.of_nat k in
       exists c, DexParser.class_defs dex !! k = Some c /\
         ClassDefItem.class_idx c
         = int_from_bytes_little (py_slice off (off + 4) data) /\
         ClassDefItem.superclass_idx c
         = int_from_bytes_little (py_slice (off + 8) (off + 12) data) /\
         ClassDefItem.source_file_idx c
         = int_from_bytes_little (py_slice (off + 16) (off + 20) data)) /\
    (forall r, r ∈ DexParser.type_ids dex ->
       forall string_ids,
         index_resolution (TypeIdItem.descriptor_idx r) string_ids
           (TypeIdItem.get_string_id_item r string_ids)) /\
    (forall r, r ∈ DexParser.proto_ids dex ->
       forall string_ids type_ids,
         index_resolution (ProtoIdItem.shorty_idx r) string_ids
           (ProtoIdItem.get_shorty_string_id_item r string_ids) /\
         index_resolution (ProtoIdItem.return_type_idx r) type_ids
           (ProtoIdItem.get_return_type_type_id_item r type_ids)) /\
    (forall r, r ∈ DexParser.field_ids dex ->
       forall string_ids type_ids,
         index_resolution (FieldIdItem.class_idx r) type_ids
           (FieldIdItem.get_class_type_id_item r type_ids) /\
         index_resolution (FieldIdItem.type_idx r) type_ids
           (FieldIdItem.get_type_type_id_item r type_ids) /\
         index_resolution (FieldIdItem.name_idx r) string_ids
           (FieldIdItem.get_name_string_id_item r string_ids)) /\
    (forall r, r ∈ DexParser.method_ids dex ->
       forall string_ids type_ids proto_ids,
         index_resolution (MethodIdItem.class_idx r) type_ids
           (MethodIdItem.get_class_type_id_item r type_ids) /\
         index_resolution (MethodIdItem.proto_idx r) proto_ids
           (MethodIdItem.get_proto_proto_id_item r proto_ids) /\
         index_resolution (MethodIdItem.name_idx r) string_ids
           (MethodIdItem.get_name_string_id_item r string_ids)) /\
    (forall r, r ∈ DexParser.class_defs dex ->
       forall string_ids type_ids,
         index_resolution (ClassDefItem.class_idx r) type_ids
           (ClassDefItem.get_class_type_id_item r type_ids) /\
         optional_index_resolution (ClassDefItem.superclass_idx r) type_ids
           (ClassDefItem.get_superclass_type_id_item r type_ids) /\
         optional_index_resolution (ClassDefItem.source_file_idx r) string_ids
           (ClassDefItem.get_source_file_string_id_item r string_ids)).
Proof.
  intros Hh Hml Hacc.
  destruct (HeaderItem_init_fields _ _ Hh)
    as (_ & _ & _ & _ & E5 & E6 & E7 & E8 & E9 & E10 & E11 & E12 & E13 & E14).
  pose proof int_from_bytes_little_nonneg as Hnn.
  assert (0 <= HeaderItem.class_defs_size h) as Hsize by (rewrite E13; apply Hnn).
  assert (0 <= HeaderItem.class_defs_off h) as Hoff by (rewrite E14; apply Hnn).
  set (offs := py_range (HeaderItem.class_defs_off h)
                 (HeaderItem.class_defs_off h + HeaderItem.class_defs_size h * 32) 32).
  assert (forall k : nat, Z.of_nat k < HeaderItem.class_defs_size h ->
            exists c,
              ClassDefItem.init fb
                (py_slice (HeaderItem.class_defs_off h + 32 * Z.of_nat k)
                          (HeaderItem.class_defs_off h + 32 * Z.of_nat k + 32) data)
              = Ok c /\
              ClassDefItem.class_idx c
              = int_from_bytes_little
                  (py_slice (HeaderItem.class_defs_off h + 32 * Z.of_nat k)
                            (HeaderItem.class_defs_off h + 32 * Z.of_nat k + 4) data) /\
              ClassDefItem.superclass_idx c
              = int_from_bytes_little
                  (py_slice (HeaderItem.class_defs_off h + 32 * Z.of_nat k + 8)
                            (HeaderItem.class_defs_off h + 32 * Z.of_nat k + 12) data) /\
              ClassDefItem.source_file_idx c
              = int_from_bytes_little
                  (py_slice (HeaderItem.class_defs_off h + 32 * Z.of_nat k + 16)
                            (HeaderItem.class_defs_off h + 32 * Z.of_nat k + 20) data))
    as Hrec.
  { intros k Hk.
    set (off := HeaderItem.class_defs_off h + 32 * Z.of_nat k).
    destruct (ClassDefItem_init_accepted fb (py_slice off (off + 32) data))
      as (c & Hc & C1 & C2 & C3).
    - intros Hfb. specialize (Hacc Hfb k Hk). unfold class_flags_word in Hacc.
      fold off in Hacc. cbv zeta in Hacc. by rewrite py_slice_sub by lia.
    - exists c. split; [done|].
      rewrite C1, C2, C3, !py_slice_sub by lia.
      rewrite Z.add_0_r. done. }
  destruct (comprehension_Ok_intro
              (fun off => ClassDefItem.init fb (py_slice off (off + 32) data)) offs)
    as [cds Hcds].
  { intros off (k & Hk & ->)%py_range_elem; [|lia..].
    destruct (Hrec k Hk) as (c & Hc & _). eauto. }
  destruct (comprehension_Ok_lookup _ _ _ Hcds) as [Hlen Hlk].
  unfold offs in Hlen. rewrite py_range_length in Hlen by lia.
  eexists. split.
  { unfold DexParser.init. rewrite Hh. cbn [mbind result_bind].
    rewrite Hml. cbn [mbind result_bind]. fold offs. rewrite Hcds.
    cbn [mbind result_bind]. reflexivity. }
  cbn [DexParser.header DexParser.type_ids DexParser.proto_ids DexParser.field_ids
       DexParser.method_ids DexParser.class_defs].
  split; [done|].
  do 4 (split; [apply table_is_built; (lia || congruence)|]).
  split; [|split; [|split; [|split; [|split]]]].
  - split; [done|]. intros k Hk.
    destruct (lookup_lt_is_Some_2 cds k) as [c Hck]; [lia|].
    exists c. split; [done|].
    destruct (Hlk _ _ Hck) as (off' & Hoff' & Hinit).
    unfold offs in Hoff'. rewrite py_range_lookup in Hoff' by lia.
    injection Hoff' as <-.
    destruct (Hrec k Hk) as (c' & Hc' & C1 & C2 & C3).
    rewrite Hinit in Hc'. injection Hc' as <-. done.
  - intros r [b ->]%table_elem sids. apply py_index_resolution, Hnn.
  - intros r [b ->]%table_elem sids tids. split; apply py_index_resolution, Hnn.
  - intros r [b ->]%table_elem sids tids.
    split; [|split]; apply py_index_resolution, Hnn.
  - intros r [b ->]%table_elem sids tids pids.
    split; [|split]; apply py_index_resolution, Hnn.
  - intros r Hr sids tids.
    destruct (comprehension_elem _ _ _ _ Hcds Hr) as [off Hinit].
    apply ClassDefItem_init_nonneg in Hinit as (H1 & H2 & H3).
    split; [by apply py_index_resolution|].
    split; by apply optional_py_index_resolution.
Qed.

(** ** Annotations *)

Lemma Uleb128_has_no_get_bytes : py_getattr Uleb128.methods "get_bytes" = Raise AttributeError.
Proof. reflexivity. Qed.

Lemma scan_Raise_inv (data : bytes) (idx : Z) (e : exn) :
  Uleb128.scan idx data = Raise e -> e = BadDexFileError.
Proof.
  revert idx. induction data as [|b data IH]; intros idx; simpl; [discriminate|].
  repeat case_match; try congruence. apply IH.
Qed.

Lemma Uleb128_init_Raise_inv (data : bytes) (e : exn) :
  Uleb128.init data = Raise e -> e = BadDexFileError.
Proof.
  unfold Uleb128.init. destruct (Uleb128.scan 0 data) eqn:Hs; simpl; [discriminate|].
  intros [= <-]. by apply scan_Raise_inv in Hs.
Qed.

Lemma EncodedAnnotation_init_raises (data : bytes) :
  EncodedAnnotation.init data = Raise AttributeError \/
  EncodedAnnotation.init data = Raise BadDexFileError.
Proof.
  unfold EncodedAnnotation.init.
  destruct (Uleb128.init (py_slice_from 0 data)) as [u|e] eqn:Hu; simpl.
  - by left.
  - right. by rewrite (Uleb128_init_Raise_inv _ _ Hu).
Qed.

Lemma AnnotationOffItem_init_raises (data : bytes) :
  AnnotationOffItem.init data = Raise AttributeError.
Proof. reflexivity. Qed.

Lemma enum_of_int_Raise_inv {E} (values : list (Z * E)) (v : Z) (e : exn) :
  enum_of_int values v = Raise e -> e = ValueError.
Proof. unfold enum_of_int. case_match; congruence. Qed.

(** C9.  Constructing an [EncodedAnnotation] always raises: once the
    first varint is read the constructor asks it for [get_bytes], which
    [Uleb128] does not define.  Constructing an [AnnotationOffItem]
    always raises: it assigns [annotations_off], which is not among its
    slots.  Hence no [AnnotationItem] is ever decoded, and an
    [AnnotationSetItem] is decoded only when it declares no entry. *)
Theorem annotation_decoding_always_raises (data : bytes) :
  (EncodedAnnotation.init data = Raise AttributeError \/
   EncodedAnnotation.init data = Raise BadDexFileError) /\
  (forall u, Uleb128.init (py_slice_from 0 data) = Ok u ->
     EncodedAnnotation.init data = Raise AttributeError) /\
  declares (fst <$> Uleb128.methods) "get_bytes" = false /\
  AnnotationOffItem.init data = Raise AttributeError /\
  declares AnnotationOffItem.slots "annotations_off" = false /\
  (forall a, AnnotationItem.init data <> Ok a) /\
  (forall s, AnnotationSetItem.init data = Ok s ->
     AnnotationSetItem.size s = 0 /\ AnnotationSetItem.entries s = []) /\
  (0 < int_from_bytes_little (py_slice 0 4 data) ->
     AnnotationSetItem.init data = Raise AttributeError).
Proof.
  split; [apply EncodedAnnotation_init_raises|].
  split; [intros u Hu; unfold EncodedAnnotation.init; by rewrite Hu|].
  split; [done|]. split; [done|]. split; [done|].
  assert (forall n : Z, 0 < n ->
            comprehension
              (fun off => AnnotationOffItem.init (py_slice off (off + 4) data))
              (py_range 4 (4 + n * 4) 4) = Raise AttributeError) as Hpos.
  { intros n Hn.
    pose proof (py_range_length 4 n 4 ltac:(lia) ltac:(lia)) as Hlen.
    destruct (py_range 4 (4 + n * 4) 4) as [|off offs]; [simpl in Hlen; lia|].
    done. }
  split; [|split].
  - intros a Ha. unfold AnnotationItem.init in Ha. do 2 inv_bind Ha.
    destruct (EncodedAnnotation_init_raises (py_slice_from 1 data)); congruence.
  - intros s Hs. unfold AnnotationSetItem.init in Hs. inv_bind Hs.
    injection Hs as <-. simpl.
    pose proof (int_from_bytes_little_nonneg (py_slice 0 4 data)) as Hnn.
    destruct (decide (int_from_bytes_little (py_slice 0 4 data) = 0)) as [Hz|Hz].
    + split; [done|]. rewrite Hz, py_range_empty in Hx by lia. by injection Hx.
    + rewrite Hpos in Hx by lia. discriminate.
  - intros Hpos'. unfold AnnotationSetItem.init. by rewrite Hpos.
Qed.

(** ** Integrity checks *)

Lemma adler32_fold_range (data : bytes) (s : Z * Z) :
  0 <= fst s < 65521 -> 0 <= snd s < 65521 ->
  0 <= fst (fold_left adler32_step data s) < 65521 /\
  0 <= snd (fold_left adler32_step data s) < 65521.
Proof.
  revert s. induction data as [|x data IH]; intros s Ha Hb; [done|].
  simpl. apply IH; simpl; apply Z.mod_pos_bound; lia.
Qed.

Lemma adler32_fold_sum (data : bytes) (s : Z * Z) :
  fst (fold_left adler32_step data s) mod 65521 = (fst s + byte_sum data) mod 65521.
Proof.
  revert s. induction data as [|x data IH]; intros s; simpl.
  - by rewrite Z.add_0_r.
  - rewrite IH. simpl. rewrite Zplus_mod_idemp_l. f_equal. lia.
Qed.

(** The low half of the checksum is one more than the sum of the bytes,
    modulo 65521. *)
Lemma adler32_low (data : bytes) :
  adler32 data mod 65536 = (1 + byte_sum data) mod 65521.
Proof.
  unfold adler32.
  destruct (adler32_fold_range data (1, 0)) as [Ha Hb]; [simpl; lia..|].
  rewrite (lor_shiftl_low 16) by lia.
  rewrite Z.add_comm, Z.mul_comm, Z.mod_add by lia.
  rewrite Z.mod_small by lia.
  rewrite <- (Z.mod_small (fst _) 65521) by done.
  apply adler32_fold_sum.
Qed.

Lemma byte_sum_insert (data : bytes) (i : nat) (x y : byte) :
  data !! i = Some x ->
  byte_sum (<[i := y]> data) = byte_sum data - byte_val x + byte_val y.
Proof.
  revert i. induction data as [|z data IH]; intros i Hi; [done|].
  destruct i as [|i]; simpl in *.
  - injection Hi as ->. lia.
  - rewrite (IH _ Hi). lia.
Qed.

(** Changing one byte changes the checksum. *)
Lemma adler32_insert_ne (data : bytes) (i : nat) (x y : byte) :
  data !! i = Some x -> x <> y ->
  adler32 (<[i := y]> data) <> adler32 data.
Proof.
  intros Hi Hne Heq.
  apply (f_equal (fun z => z mod 65536)) in Heq.
  rewrite !adler32_low, (byte_sum_insert _ _ _ _ Hi) in Heq.
  pose proof (byte_val_range x). pose proof (byte_val_range y).
  assert (byte_val x <> byte_val y) by (intros ?%byte_val_inj; done).
  set (S := byte_sum data) in *.
  assert ((byte_val y - byte_val x) mod 65521 = 0) as Hdiv.
  { replace (byte_val y - byte_val x)
      with ((1 + (S - byte_val x + byte_val y)) - (1 + S)) by lia.
    rewrite Zminus_mod, Heq, Z.sub_diag. done. }
  apply Z.mod_divide in Hdiv as [k Hk]; [|lia]. nia.
Qed.

Lemma HeaderItem_init_version (data : bytes) (h : HeaderItem.t) :
  HeaderItem.init data = Ok h ->
  utf8_decode (py_slice 4 7 data) = Ok (HeaderItem.version h).
Proof.
  unfold HeaderItem.init. intros H. do 9 inv_bind H. by injection H as <-.
Qed.

Lemma HeaderItem_init_checksum_mismatch (data : bytes) (v : list Z) (b7 : byte) :
  py_slice 0 4 data = MAGIC ->
  utf8_decode (py_slice 4 7 data) = Ok v ->
  data !! 7%nat = Some b7 -> byte_val b7 = 0 ->
  adler32 (py_slice_from 12 data) <> int_from_bytes_little (py_slice 8 12 data) ->
  HeaderItem.init data = Raise BadDexFileError.
Proof.
  intros Hm Hv Hb7 Hz Hne. unfold HeaderItem.init.
  rewrite (bool_decide_eq_true_2 _ Hm), Hv. simpl.
  rewrite py_index_nonneg by lia. change (Z.to_nat 7) with 7%nat.
  rewrite Hb7. simpl. rewrite Hz. simpl.
  apply Z.eqb_neq in Hne. rewrite Hne. done.
Qed.

(** C8.  When a buffer decodes, replacing any one byte at position 8 or
    later by a different byte (a byte of the stored checksum, of the
    stored signature, or of the content they cover) makes the decode
    fail with [BadDexFileError]. *)
Theorem corrupted_byte_is_rejected (fb : AccessFlag.boundary) (data : bytes)
  (dex : DexParser.t) (i : nat) (y : byte) :
  DexParser.init fb data = Ok dex ->
  (8 <= i < length data)%nat ->
  data !! i <> Some y ->
  DexParser.init fb (<[i := y]> data) = Raise BadDexFileError.
Proof.
  intros Hdex [Hi Hlen] Hy.
  destruct (DexParser_init_Ok_inv _ _ _ Hdex) as (Hh & _).
  pose proof (HeaderItem_init_version _ _ Hh) as Hv.
  destruct (HeaderItem_init_Ok_inv _ _ Hh) as (Hm & (b7 & Hb7 & Hz) & Hc & _).
  destruct (lookup_lt_is_Some_2 data i Hlen) as [x Hx].
  assert (x <> y) as Hxy by congruence.
  unfold DexParser.init.
  rewrite (HeaderItem_init_checksum_mismatch _ (HeaderItem.version (DexParser.header dex)) b7);
    [done | | | | done |].
  - rewrite <- Hm. rewrite !py_slice_take_drop by lia. simpl drop.
    apply take_insert_ge. lia.
  - rewrite <- Hv. f_equal. rewrite !py_slice_take_drop by lia.
    rewrite drop_insert_ge by lia. apply take_insert_ge. lia.
  - rewrite list_lookup_insert_ne by lia. done.
  - destruct (decide (i < 12)%nat) as [Hlt|Hge].
    + (* a byte of the stored checksum *)
      rewrite !py_slice_from_drop by lia.
      rewrite drop_insert_lt by lia. rewrite <- py_slice_from_drop, Hc by lia.
      intros Heq. apply int_from_bytes_little_inj in Heq.
      * apply (f_equal (fun l => l !! (i - 8)%nat)) in Heq.
        rewrite !py_slice_lookup in Heq by lia.
        replace (Z.to_nat 8 + (i - 8))%nat with i in Heq by lia.
        rewrite list_lookup_insert_eq in Heq by lia. congruence.
      * rewrite !py_slice_take_drop by lia. rewrite !length_take, !length_drop.
        by rewrite length_insert.
    + (* a byte of the signature or of the content *)
      assert (py_slice 8 12 (<[i:=y]> data) = py_slice 8 12 data) as ->.
      { rewrite !py_slice_take_drop by lia. rewrite drop_insert_ge by lia.
        apply take_insert_ge. lia. }
      rewrite <- Hc. rewrite !py_slice_from_drop by lia.
      rewrite drop_insert_ge by lia. apply adler32_insert_ne with x; [|done].
      rewrite lookup_drop. rewrite <- Hx. f_equal. lia.
Qed.

(** ** Where the parser departs from the specification *)

(** C1.  The header constructor does not always end in
    [BadDexFileError] when it produces no header: a buffer that holds
    the magic and nothing more raises [IndexError] at the read of byte
    7, and a buffer whose version bytes are not UTF-8 raises
    [UnicodeDecodeError] before any of the later checks. *)
Theorem HeaderItem_init_other_exceptions :
  HeaderItem.init [x64; x65; x78; x0a] = Raise IndexError /\
  HeaderItem.init [x64; x65; x78; x0a; xff; xff; xff; x00] = Raise UnicodeDecodeError.
Proof. split; reflexivity. Qed.

(** C2.  The string constructor decodes exactly [utf16size] bytes of the
    payload.  The record declaring 3 UTF-16 units over the four bytes
    [61 c3 a9 62] decodes to the two code points of [61 c3 a9], not to
    the three of the whole payload; and when the cut falls inside a
    multi-byte sequence the constructor raises. *)
Theorem StringDataItem_init_cuts_at_utf16size :
  StringDataItem.init [x03; x61; xc3; xa9; x62; x00]
  = Ok {| StringDataItem.utf16size := 3; StringDataItem.data := [0x61; 0xe9] |} /\
  utf8_decode [x61; xc3; xa9; x62] = Ok [0x61; 0xe9; 0x62] /\
  StringDataItem.init [x03; x61; x62; xc3; xa9; x00] = Raise UnicodeDecodeError.
Proof. repeat split; reflexivity. Qed.

(** C4.  A varint cut short by the end of the buffer is not rejected:
    on the single byte [80], whose high bit announces a further byte,
    the constructor returns a varint of size 0 and value 0. *)
Theorem Uleb128_init_accepts_truncated :
  exists u, Uleb128.init [x80] = Ok u /\
            Uleb128.data u = [] /\ Uleb128._size u = 0 /\ Uleb128.int u = 0.
Proof. eexists. repeat split; reflexivity. Qed.

Lemma EncodedValue_init_value_arg (data : bytes) (b0 : byte) (v : EncodedValue.t) :
  data !! 0%nat = Some b0 -> EncodedValue.init data = Ok v ->
  EncodedValue.value_arg v = Z.land (byte_val b0) 0x7.
Proof.
  intros Hb0. unfold EncodedValue.init. rewrite py_index_nonneg by lia.
  change (Z.to_nat 0) with 0%nat. rewrite Hb0. simpl.
  destruct (enum_of_int _ _) as [vt|e]; simpl; [|discriminate].
  destruct vt; simpl; try (by intros [= <-]).
  destruct (raise_if _ _); simpl; [by intros [= <-] | discriminate].
Qed.

(** C5.  The constructor takes the low three bits of the header byte as
    the argument, not [(header_byte >> 5) & 0x7], and assigns no value
    to a signed short: on the header byte [22] (format 2, argument 1)
    followed by [ff 7f] it records the argument 2 and leaves [value]
    unset, where the payload read as a signed short is 32767. *)
Theorem EncodedValue_init_short :
  EncodedValue.init [x22; xff; x7f]
  = Ok {| EncodedValue.value_arg := 2;
          EncodedValue.value_type := ValueFormat.VALUE_SHORT;
          EncodedValue.value := None |} /\
  Z.land (Z.shiftr (byte_val x22) 5) 0x7 = 1 /\
  int_from_bytes_little_signed [xff; x7f] = 32767.
Proof. repeat split; reflexivity. Qed.

(** C6.  Two resolvers of a class definition do not return the
    structure their field refers to.  The container
    [sample_annotated_dex] decodes under either boundary; its class
    definition names the class "LA;", has its annotations directory at
    157 and its static values at 181, neither being the sentinel 0.
    Resolving the annotations raises [NameError], because the directory
    declares a method annotation and the constructor names a class the
    module does not define; resolving the static values returns an
    object with its slot unset, where the buffer holds an array of one
    value. *)
Theorem ClassDefItem_resolvers_miss_structures :
  exists dex c,
    DexParser.init AccessFlag.STRICT sample_annotated_dex = Ok dex /\
    DexParser.init AccessFlag.CONFORM sample_annotated_dex = Ok dex /\
    DexParser.class_defs dex = [c] /\
    (t ← ClassDefItem.get_class_type_id_item c (DexParser.type_ids dex);
     s ← TypeIdItem.get_string_id_item t (DexParser.string_ids dex);
     StringDataItem.data <$> StringIdItem.get_string_data_item s (DexParser.full_data dex))
    = Ok [76; 65; 59] /\
    ClassDefItem.annotations_off c = 157 /\
    ClassDefItem.static_values_off c = 181 /\
    int_from_bytes_little
      (py_slice 8 12 (py_slice_from 157 (DexParser.full_data dex))) = 1 /\
    ClassDefItem.get_annotations_annotation_directory_item c (DexParser.full_data dex)
    = Raise NameError /\
    py_slice_from 181 (DexParser.full_data dex) = [x01; x00; x07] /\
    ClassDefItem.get_static_values_encoded_array_item c (DexParser.full_data dex)
    = Some {| EncodedArrayItem.a := None |}.
Proof.
  eexists _, _.
  split; [vm_compute; reflexivity|].
  split; [vm_compute; reflexivity|].
  split; [reflexivity|].
  repeat split; vm_compute; reflexivity.
Qed.

(** ** The theorems at the sample inputs *)

Example sample_class_data_members :
  exists cd, ClassDataItem.init sample_class_data = Ok cd /\
    let m := ClassDataItem.dump_data cd [] sample_field_ids in
    ClassDataItem.static_field_members m
    = [Ok {| FieldIdItem.class_idx := 0; FieldIdItem.type_idx := 0;
             FieldIdItem.name_idx := 3 |};
       Ok {| FieldIdItem.class_idx := 0; FieldIdItem.type_idx := 0;
             FieldIdItem.name_idx := 5 |}] /\
    ClassDataItem.instance_field_members m
    = [Ok {| FieldIdItem.class_idx := 0; FieldIdItem.type_idx := 0;
             FieldIdItem.name_idx := 5 |}] /\
    ClassDataItem.direct_method_members m = [Raise IndexError] /\
    ClassDataItem.virtual_method_members m = [].
Proof. eexists. split; [vm_compute; reflexivity|]. vm_compute. repeat split. Qed.

Ltac varint_witness pre b :=
  exists pre, b; split; [reflexivity|]; split;
  [repeat constructor; vm_compute; discriminate|]; split;
  [intros H; apply H; reflexivity | simpl; lia].

Lemma ClassDataItem_delta_decoding_witness :
  exists cd, ClassDataItem.init sample_class_data = Ok cd /\
    Uleb128.int (ClassDataItem.static_fields_size cd) = 2 /\
    ClassDataItem.static_fields cd = field_of <$> [([x03], [x01]); ([x02], [x02])] /\
    ClassDataItem.static_field_members
      (ClassDataItem.dump_data cd [] sample_field_ids) !! 1%nat
    = Some (py_index sample_field_ids 5).
Proof.
  destruct (ClassDataItem_delta_decoding [x02] [x01] [x01] [x00]
              [([x03], [x01]); ([x02], [x02])] [([x05], [x0a])]
              [([x01], [x01], [x80; x02])] [] [] [] sample_field_ids)
    as (cd & Hcd & _ & (Hn & _) & (Hsf & _) & (_ & Hres) & _).
  - varint_witness (@nil byte) x02.
  - varint_witness (@nil byte) x01.
  - varint_witness (@nil byte) x01.
  - varint_witness (@nil byte) x00.
  - repeat constructor; simpl;
      [varint_witness (@nil byte) x03 | varint_witness (@nil byte) x01
      | varint_witness (@nil byte) x02 | varint_witness (@nil byte) x02].
  - repeat constructor; simpl;
      [varint_witness (@nil byte) x05 | varint_witness (@nil byte) x0a].
  - repeat constructor; simpl;
      [varint_witness (@nil byte) x01 | varint_witness (@nil byte) x01
      | varint_witness [x80] x02].
  - constructor.
  - reflexivity.
  - reflexivity.
  - reflexivity.
  - reflexivity.
  - exists cd. split; [exact Hcd|]. split; [exact Hn|]. split; [exact Hsf|].
    destruct (Hres 1%nat ([x02], [x02]) eq_refl) as [_ Hm]. exact Hm.
Defined.

Lemma index_resolution_is_lazy_witness :
  exists dex, DexParser.init AccessFlag.STRICT sample_dex = Ok dex /\
    length (DexParser.string_ids dex) = 1%nat /\
    DexParser.type_ids dex !! 0%nat = Some {| TypeIdItem.descriptor_idx := 25442 |} /\
    TypeIdItem.get_string_id_item {| TypeIdItem.descriptor_idx := 25442 |}
      (DexParser.string_ids dex) = Raise IndexError.
Proof.
  destruct (HeaderItem.init sample_dex) as [h|e] eqn:Hh;
    [|vm_compute in Hh; discriminate].
  pose proof Hh as Hv. vm_compute in Hv. injection Hv as Hv.
  destruct (index_resolution_is_lazy AccessFlag.STRICT sample_dex h
              {| MapList.size := 0; MapList.list_ := [] |} Hh)
    as (dex & Hdex & _ & (_ & Ht) & _ & _ & _ & _ & Hres & _).
  - rewrite <- Hv. vm_compute. reflexivity.
  - intros _ k Hk. rewrite <- Hv in Hk. simpl in Hk. lia.
  - exists dex. split; [exact Hdex|].
    assert (DexParser.type_ids dex !! 0%nat
            = Some {| TypeIdItem.descriptor_idx := 25442 |}) as Ht0.
    { destruct (Ht 0%nat) as [Ht0 _]; [rewrite <- Hv; simpl; lia|].
      rewrite Ht0, <- Hv. vm_compute. reflexivity. }
    assert (length (DexParser.string_ids dex) = 1%nat) as Hlen.
    { unfold DexParser.init in Hdex. rewrite Hh in Hdex. rewrite <- Hv in Hdex.
      vm_compute in Hdex. injection Hdex as <-. reflexivity. }
    split; [exact Hlen|]. split; [exact Ht0|].
    destruct (Hres {| TypeIdItem.descriptor_idx := 25442 |}
                (list_elem_of_lookup_2 _ _ _ Ht0) (DexParser.string_ids dex))
      as (_ & _ & Hout).
    apply Hout. rewrite Hlen. simpl. lia.
Defined.

Lemma corrupted_byte_is_rejected_witness :
  DexParser.init AccessFlag.CONFORM (<[9%nat := x00]> sample_dex)
  = Raise BadDexFileError.
Proof.
  destruct (DexParser.init AccessFlag.CONFORM sample_dex) as [dex|e] eqn:H;
    [|vm_compute in H; discriminate].
  apply (corrupted_byte_is_rejected AccessFlag.CONFORM sample_dex dex 9 x00 H).
  - simpl. lia.
  - vm_compute. discriminate.
Defined.

Lemma id_tables_never_raise_witness :
  exists h, HeaderItem.init sample_dex = Ok h /\
    DexParser.table TypeIdItem.init 4 sample_dex
      (HeaderItem.type_ids_off h) (HeaderItem.type_ids_size h) !! 1%nat
    = Some {| TypeIdItem.descriptor_idx := 0 |}.
Proof.
  destruct (HeaderItem.init sample_dex) as [h|e] eqn:H;
    [|vm_compute in H; discriminate].
  exists h. split; [reflexivity|].
  destruct (id_tables_never_raise AccessFlag.STRICT sample_dex h H)
    as (_ & (_ & Hrec) & _).
  vm_compute in H. injection H as <-.
  destruct (Hrec 1%nat) as [_ Hz]; [simpl; lia|].
  apply Hz. simpl. lia.
Defined.

(** * Further properties of the parser *)

(** ** Variable-length integers *)

Lemma varint_sum_cons (b : byte) (l : bytes) :
  varint_sum 0 (b :: l) = Z.land (byte_val b) 0x7f + 128 * varint_sum 0 l.
Proof.
  simpl varint_sum. rewrite (varint_sum_shift 0) by lia.
  by rewrite Z.shiftl_0_r.
Qed.

Lemma varint_sum_bound (l : bytes) :
  0 <= varint_sum 0 l < 128 ^ Z.of_nat (length l).
Proof.
  induction l as [|b l IH]; [simpl; lia|].
  rewrite varint_sum_cons, length_cons, Nat2Z.inj_succ, Z.pow_succ_r by lia.
  pose proof (land_7f_range (byte_val b)). lia.
Qed.

Lemma Uleb128_scan_Ok_inv (data : bytes) (idx n : Z) :
  0 <= idx <= 4 ->
  Uleb128.scan idx data = Ok n ->
  (n = 0 /\ Forall continues data /\ idx + Z.of_nat (length data) <= 4) \/
  (exists pre b rest,
     data = pre ++ b :: rest /\ Forall continues pre /\ ~ continues b /\
     n = idx + Z.of_nat (length pre) + 1 /\ idx + Z.of_nat (length pre) <= 4).
Proof.
  revert idx. induction data as [|x data IH]; intros idx Hidx H; simpl in H.
  - left. injection H as <-. repeat split; [constructor | simpl; lia].
  - destruct (Z.eqb_spec (Z.land (byte_val x) 128) 0) as [Hx|Hx].
    + right. injection H as <-. exists [], x, data.
      repeat split; [constructor | unfold continues; tauto | simpl; lia..].
    + destruct (Z.eqb_spec idx 4) as [->|Hne]; [discriminate|].
      destruct (IH (idx + 1) ltac:(lia) H)
        as [(-> & Hall & Hlen) | (pre & b & rest & -> & Hall & Hb & -> & Hlen)].
      * left. repeat split; [by constructor | rewrite length_cons; lia].
      * right. exists (x :: pre), b, rest.
        repeat split; [by constructor | done | rewrite length_cons; lia..].
Qed.

Lemma Uleb128_scan_Raise_inv (data : bytes) (idx : Z) (e : exn) :
  0 <= idx <= 4 ->
  Uleb128.scan idx data = Raise e ->
  e = BadDexFileError /\
  5 - idx <= Z.of_nat (length data) /\
  Forall continues (take (Z.to_nat (5 - idx)) data).
Proof.
  revert idx. induction data as [|x data IH]; intros idx Hidx H; simpl in H;
    [discriminate|].
  destruct (Z.eqb_spec (Z.land (byte_val x) 128) 0) as [Hx|Hx]; [discriminate|].
  destruct (Z.eqb_spec idx 4) as [->|Hne].
  - injection H as <-. split; [done|]. rewrite length_cons. split; [lia|].
    change (Z.to_nat (5 - 4)) with 1%nat. simpl. by repeat constructor.
  - destruct (IH (idx + 1) ltac:(lia) H) as (-> & Hlen & Hall).
    split; [done|]. rewrite length_cons. split; [lia|].
    replace (Z.to_nat (5 - idx)) with (S (Z.to_nat (5 - (idx + 1)))) by lia.
    simpl. by constructor.
Qed.

(** X1.  Every varint the constructor returns keeps a prefix of the
    input of at most five bytes, and [_size] is the number of bytes
    kept.  Either no byte is kept, which happens exactly when the input
    has at most four bytes and all of them announce a further byte; or
    the kept bytes end with the first byte whose high bit is clear.  The
    value is the base-128 sum of the kept bytes and lies below
    [2 ^ (7 * _size)], so it can take up to 35 bits. *)
Theorem Uleb128_init_invariant (data : bytes) (u : Uleb128.t) :
  Uleb128.init data = Ok u ->
  Uleb128.data u = take (length (Uleb128.data u)) data /\
  Uleb128._size u = Z.of_nat (length (Uleb128.data u)) /\
  (length (Uleb128.data u) <= 5)%nat /\
  ((Uleb128.data u = [] /\ Forall continues data /\ (length data <= 4)%nat) \/
   (exists pre b, Uleb128.data u = pre ++ [b] /\
                  Forall continues pre /\ ~ continues b)) /\
  Uleb128.int u = varint_sum 0 (Uleb128.data u) /\
  0 <= Uleb128.int u < 2 ^ (7 * Uleb128._size u).
Proof.
  unfold Uleb128.init. intros H. inv_bind H. injection H as <-.
  rewrite Uleb128_int_sum. simpl Uleb128.data. simpl Uleb128._size.
  assert (forall l : bytes, 0 <= varint_sum 0 l < 2 ^ (7 * Z.of_nat (length l)))
    as Hbound.
  { intros l. rewrite Z.pow_mul_r by lia. apply varint_sum_bound. }
  destruct (Uleb128_scan_Ok_inv _ 0 _ ltac:(lia) Hx) as
      [(-> & Hall & Hlen) | (pre & b & rest & -> & Hall & Hb & -> & Hlen)].
  - rewrite py_slice_take_drop by lia. simpl.
    repeat split; try done; try lia. left. repeat split; [done | lia].
  - rewrite Z.add_0_l.
    assert (py_slice 0 (Z.of_nat (length pre) + 1) (pre ++ b :: rest) = pre ++ [b])
      as ->.
    { rewrite py_slice_take_drop by lia. simpl drop.
      replace (Z.to_nat (Z.of_nat (length pre) + 1 - 0)) with (length (pre ++ [b]))
        by (rewrite length_app; simpl; lia).
      rewrite (cons_middle b pre rest), app_assoc. apply take_app_length. }
    assert (length (pre ++ [b]) = S (length pre)) as Hl
      by (rewrite length_app; simpl; lia).
    split; [|split; [|split; [|split; [|split]]]].
    + rewrite (cons_middle b pre rest), app_assoc. by rewrite take_app_length.
    + rewrite Hl. lia.
    + rewrite Hl. lia.
    + right. eauto.
    + done.
    + replace (Z.of_nat (length pre) + 1) with (Z.of_nat (length (pre ++ [b])))
        by (rewrite Hl; lia).
      apply Hbound.
Qed.

(** X2.  The varint constructor fails in one way only: it raises
    [BadDexFileError] exactly when the input has at least five bytes and
    the first five all have the high bit set. *)
Theorem Uleb128_init_fails_iff (data : bytes) (e : exn) :
  Uleb128.init data = Raise e <->
  e = BadDexFileError /\ (5 <= length data)%nat /\ Forall continues (take 5 data).
Proof.
  split.
  - unfold Uleb128.init. destruct (Uleb128.scan 0 data) as [n|e'] eqn:Hs; simpl;
      [discriminate|].
    intros [= ->].
    destruct (Uleb128_scan_Raise_inv _ 0 _ ltac:(lia) Hs) as (-> & Hlen & Hall).
    repeat split; [lia | done].
  - intros (-> & Hlen & Hall). by apply Uleb128_init_overlong.
Qed.

(** ** Text and the header *)

Lemma fmap_Raise_inv {A B} (f : A -> B) (m : result A) (e : exn) :
  f <$> m = Raise e -> m = Raise e.
Proof. destruct m; simpl; [discriminate | by intros [= ->]]. Qed.

Lemma utf8_decode_Raise_inv_aux (n : nat) (b : bytes) (e : exn) :
  (length b <= n)%nat -> utf8_decode b = Raise e -> e = UnicodeDecodeError.
Proof.
  revert b e. induction n as [|n IH]; intros b e Hlen H.
  - destruct b; [discriminate | simpl in Hlen; lia].
  - destruct b as [|x0 b1]; [discriminate|]. simpl in H.
    repeat case_match; try congruence;
      apply fmap_Raise_inv in H; (eapply IH; [|exact H]);
      simpl length in Hlen; lia.
Qed.

Lemma utf8_decode_Raise_inv (b : bytes) (e : exn) :
  utf8_decode b = Raise e -> e = UnicodeDecodeError.
Proof. by apply utf8_decode_Raise_inv_aux with (length b). Qed.

Lemma utf8_decode_length_aux (n : nat) (b : bytes) (l : list Z) :
  (length b <= n)%nat -> utf8_decode b = Ok l -> (length l <= length b)%nat.
Proof.
  revert b l. induction n as [|n IH]; intros b l Hlen H.
  - destruct b; [by injection H as <- | simpl in Hlen; lia].
  - destruct b as [|x0 b1]; [by injection H as <-|]. simpl in H.
    repeat case_match; try congruence;
      apply fmap_Ok_inv in H as (a & E & ->);
      apply IH in E; simpl length in *; lia.
Qed.

(** The strict decoder yields at most one code point per byte. *)
Lemma utf8_decode_length (b : bytes) (l : list Z) :
  utf8_decode b = Ok l -> (length l <= length b)%nat.
Proof. by apply utf8_decode_length_aux with (length b). Qed.

(** Bytes below 0x80 decode to themselves. *)
Lemma utf8_decode_ascii (b : bytes) :
  Forall (fun x => byte_val x < 0x80) b -> utf8_decode b = Ok (byte_val <$> b).
Proof.
  induction 1 as [|x b Hx _ IH]; [done|]. simpl.
  destruct (Z.ltb_spec (byte_val x) 128) as [_|?]; [|lia]. by rewrite IH.
Qed.

Lemma py_slice_length {A} (lo hi : Z) (s : list A) :
  0 <= lo <= hi ->
  Z.of_nat (length (py_slice lo hi s))
  = Z.min (hi - lo) (Z.max 0 (Z.of_nat (length s) - lo)).
Proof.
  intros H. rewrite py_slice_take_drop by done.
  rewrite length_take, length_drop. lia.
Qed.

Lemma int_from_bytes_little_slice_bound (lo hi : Z) (data : bytes) :
  0 <= lo <= hi ->
  0 <= int_from_bytes_little (py_slice lo hi data) < 256 ^ (hi - lo).
Proof.
  intros H. pose proof (int_from_bytes_little_range (py_slice lo hi data)) as Hr.
  pose proof (py_slice_length_le lo hi data H) as Hlen.
  assert (256 ^ Z.of_nat (length (py_slice lo hi data)) <= 256 ^ (hi - lo))
    by (apply Z.pow_le_mono_r; lia).
  lia.
Qed.

Lemma int_from_bytes_little_u32 (lo : Z) (data : bytes) :
  0 <= lo -> u32 (int_from_bytes_little (py_slice lo (lo + 4) data)).
Proof.
  intros H. pose proof (int_from_bytes_little_slice_bound lo (lo + 4) data ltac:(lia)).
  replace (lo + 4 - lo) with 4 in * by lia. unfold u32. lia.
Qed.

Lemma HeaderItem_init_record (data : bytes) (h : HeaderItem.t) :
  HeaderItem.init data = Ok h ->
  HeaderItem.checksum h = adler32 (py_slice_from 12 data) /\
  HeaderItem.signature h = SHA1.digest (py_slice_from 32 data) /\
  HeaderItem.endianness_of (int_from_bytes_little (py_slice 40 44 data))
  = Ok (HeaderItem.endianness h) /\
  HeaderItem.link_size h = int_from_bytes_little (py_slice 44 48 data) /\
  HeaderItem.link_off h = int_from_bytes_little (py_slice 48 52 data) /\
  HeaderItem.data_size h = int_from_bytes_little (py_slice 104 108 data) /\
  HeaderItem.data_off h = int_from_bytes_little (py_slice 108 112 data).
Proof.
  unfold HeaderItem.init. intros H. do 9 inv_bind H. injection H as <-. simpl.
  repeat split. done.
Qed.

(** X3.  A validated header records the buffer it came from: the buffer
    holds at least 44 bytes (the checks never ask for the full 112),
    [file_size] is its length, [checksum] and [signature] are both the
    computed and the stored values, the endianness is ["big"] for the
    tag [0x12345678] and ["little"] for [0x78563412], and every size and
    offset is an unsigned 32-bit value. *)
Theorem HeaderItem_validated_header (data : bytes) (h : HeaderItem.t) :
  HeaderItem.init data = Ok h ->
  (44 <= length data)%nat /\
  HeaderItem.file_size h = Z.of_nat (length data) /\
  HeaderItem.checksum h = adler32 (py_slice_from 12 data) /\
  HeaderItem.checksum h = int_from_bytes_little (py_slice 8 12 data) /\
  HeaderItem.signature h = SHA1.digest (py_slice_from 32 data) /\
  HeaderItem.signature h = py_slice 12 32 data /\
  utf8_decode (py_slice 4 7 data) = Ok (HeaderItem.version h) /\
  ((HeaderItem.endianness h = "big"%string /\
    int_from_bytes_little (py_slice 40 44 data) = ENDIAN_CONSTANT) \/
   (HeaderItem.endianness h = "little"%string /\
    int_from_bytes_little (py_slice 40 44 data) = REVERSE_ENDIAN_CONSTANT)) /\
  Forall u32
    [HeaderItem.link_size h; HeaderItem.link_off h; HeaderItem.map_off h;
     HeaderItem.string_ids_size h; HeaderItem.string_ids_off h;
     HeaderItem.type_ids_size h; HeaderItem.type_ids_off h;
     HeaderItem.proto_ids_size h; HeaderItem.proto_ids_off h;
     HeaderItem.field_ids_size h; HeaderItem.field_ids_off h;
     HeaderItem.method_ids_size h; HeaderItem.method_ids_off h;
     HeaderItem.class_defs_size h; HeaderItem.class_defs_off h;
     HeaderItem.data_size h; HeaderItem.data_off h].
Proof.
  intros Hh.
  destruct (HeaderItem_init_Ok_inv _ _ Hh) as (_ & _ & Hc & Hs & _ & _ & Htag).
  destruct (HeaderItem_init_record _ _ Hh) as (Ec & Es & Ee & F1 & F2 & F3 & F4).
  destruct (HeaderItem_init_fields _ _ Hh)
    as (Efs & G1 & G2 & G3 & G4 & G5 & G6 & G7 & G8 & G9 & G10 & G11 & G12 & G13).
  split; [|split; [done|split; [done|split; [congruence|split; [done|split;
    [congruence|split; [by apply HeaderItem_init_version|split]]]]]]].
  - destruct (decide (44 <= length data)%nat) as [|Hshort]; [done|]. exfalso.
    pose proof (int_from_bytes_little_range (py_slice 40 44 data)) as Hr.
    pose proof (py_slice_length 40 44 data ltac:(lia)) as Hl.
    assert (256 ^ Z.of_nat (length (py_slice 40 44 data)) <= 256 ^ 3)
      by (apply Z.pow_le_mono_r; lia).
    unfold ENDIAN_CONSTANT, REVERSE_ENDIAN_CONSTANT in Htag.
    change (256 ^ 3) with 16777216 in *. lia.
  - unfold HeaderItem.endianness_of in Ee.
    destruct (Z.eqb_spec (int_from_bytes_little (py_slice 40 44 data))
                ENDIAN_CONSTANT) as [E|_].
    + left. injection Ee as <-. done.
    + destruct (Z.eqb_spec (int_from_bytes_little (py_slice 40 44 data))
                  REVERSE_ENDIAN_CONSTANT) as [E|_]; [|discriminate].
      right. injection Ee as <-. done.
  - rewrite F1, F2, F3, F4, G1, G2, G3, G4, G5, G6, G7, G8, G9, G10, G11, G12, G13.
    repeat first [apply Forall_nil_2 | apply Forall_cons_2];
      match goal with
      | |- u32 (int_from_bytes_little (py_slice ?lo ?hi data)) =>
          exact (int_from_bytes_little_u32 lo data ltac:(lia))
      end.
Qed.

(** X4.  The outcome of the header constructor, case by case.  A wrong
    magic raises [BadDexFileError].  With the right magic, a version
    field that is not UTF-8 raises [UnicodeDecodeError]; otherwise a
    buffer shorter than eight bytes raises [IndexError]; otherwise the
    constructor returns a header when the six checks hold and raises
    [BadDexFileError] when one fails.  No other exception is raised. *)
Theorem HeaderItem_init_outcomes (data : bytes) :
  (py_slice 0 4 data <> MAGIC -> HeaderItem.init data = Raise BadDexFileError) /\
  (py_slice 0 4 data = MAGIC ->
   utf8_decode (py_slice 4 7 data) = Raise UnicodeDecodeError ->
   HeaderItem.init data = Raise UnicodeDecodeError) /\
  (py_slice 0 4 data = MAGIC ->
   (exists v, utf8_decode (py_slice 4 7 data) = Ok v) ->
   ((length data < 8)%nat -> HeaderItem.init data = Raise IndexError) /\
   ((8 <= length data)%nat -> header_valid data ->
      exists h, HeaderItem.init data = Ok h) /\
   ((8 <= length data)%nat -> ~ header_valid data ->
      HeaderItem.init data = Raise BadDexFileError)) /\
  (forall e, HeaderItem.init data = Raise e ->
     e = BadDexFileError \/ e = UnicodeDecodeError \/ e = IndexError) /\
  (forall h, HeaderItem.init data = Ok h -> header_valid data).
Proof.
  split; [|split; [|split; [|split]]].
  - intros Hm. unfold HeaderItem.init. by rewrite (bool_decide_eq_false_2 _ Hm).
  - intros Hm Hv. unfold HeaderItem.init.
    by rewrite (bool_decide_eq_true_2 _ Hm), Hv.
  - intros Hm [v Hv]. split; [|split].
    + intros Hlen. unfold HeaderItem.init.
      rewrite (bool_decide_eq_true_2 _ Hm), Hv. simpl.
      by rewrite py_index_out_of_range by lia.
    + intros Hlen Hvalid.
      destruct (HeaderItem_init_cases data v Hlen Hv) as [(h & Hh & _)|[_ Hn]];
        [eauto | done].
    + intros Hlen Hn.
      by destruct (HeaderItem_init_cases data v Hlen Hv) as [(h & _ & Hvalid)|[Hr _]].
  - intros e He.
    destruct (decide (py_slice 0 4 data = MAGIC)) as [Hm|Hm]; cycle 1.
    { unfold HeaderItem.init in He. rewrite (bool_decide_eq_false_2 _ Hm) in He.
      left. by injection He. }
    destruct (utf8_decode (py_slice 4 7 data)) as [v|e'] eqn:Hv; cycle 1.
    { pose proof (utf8_decode_Raise_inv _ _ Hv) as ->.
      unfold HeaderItem.init in He.
      rewrite (bool_decide_eq_true_2 _ Hm), Hv in He.
      right. left. by injection He. }
    destruct (decide (8 <= length data)%nat) as [Hlen|Hlen].
    + destruct (HeaderItem_init_cases data v Hlen Hv) as [(h & Hh & _)|[Hr _]];
        [congruence|]. left. congruence.
    + unfold HeaderItem.init in He.
      rewrite (bool_decide_eq_true_2 _ Hm), Hv in He. simpl in He.
      rewrite py_index_out_of_range in He by lia. right. right. by injection He.
  - apply HeaderItem_init_Ok_inv.
Qed.

(** ** Structures reached through an offset *)

(** A slice of the tail of a buffer is a slice of the buffer. *)
Lemma py_slice_of_slice_from {A} (off lo hi : Z) (s : list A) :
  0 <= off -> 0 <= lo <= hi ->
  py_slice lo hi (py_slice_from off s) = py_slice (off + lo) (off + hi) s.
Proof.
  intros Hoff H. rewrite py_slice_from_drop by done.
  rewrite !py_slice_take_drop by lia. rewrite drop_drop.
  f_equal; [lia|]. f_equal. lia.
Qed.

Lemma py_slice_from_beyond {A} (off : Z) (s : list A) :
  Z.of_nat (length s) <= off -> py_slice_from off s = [].
Proof.
  intros H. rewrite py_slice_from_drop by lia. apply drop_ge. lia.
Qed.

Lemma enum_of_int_Ok_inv {E} (values : list (Z * E)) (v : Z) (x : E) :
  enum_of_int values v = Ok x -> (v, x) ∈ values.
Proof.
  unfold enum_of_int. destruct (find _ values) as [[v' x']|] eqn:Hf; [|discriminate].
  intros [= <-]. apply find_some in Hf as [Hin Heq]. simpl in Heq.
  apply Z.eqb_eq in Heq as ->. by apply list_elem_of_In.
Qed.

Lemma enum_of_int_Raise_none {E} (values : list (Z * E)) (v : Z) (e : exn) :
  enum_of_int values v = Raise e -> forall x, (v, x) ∉ values.
Proof.
  unfold enum_of_int. destruct (find _ values) as [p|] eqn:Hf; [discriminate|].
  intros _ x Hin%list_elem_of_In.
  pose proof (find_none _ _ Hf _ Hin) as Hne. simpl in Hne. lia.
Qed.

Lemma MapItem_init_Raise_inv (raw : bytes) (e : exn) :
  MapItem.init raw = Raise e ->
  e = ValueError /\
  forall ty, (int_from_bytes_little (py_slice 0 2 raw), ty) ∉ TypeCode.values.
Proof.
  unfold MapItem.init.
  destruct (enum_of_int _ _) as [ty|e'] eqn:He; simpl; [discriminate|].
  intros [= <-]. split; [by apply enum_of_int_Raise_inv in He|].
  by apply enum_of_int_Raise_none with e'.
Qed.

(** X5.  A map list is built from a 32-bit count and that many 12-byte
    items.  When it is built it holds exactly [size] items, the item at
    position [k] decoded from the 12 bytes at [4 + 12 * k], each with a
    type code of the enumeration.  It fails only with [ValueError], and
    only because some declared item carries a type code outside the
    enumeration. *)
Theorem MapList_init_outcomes (data : bytes) :
  let size := int_from_bytes_little (py_slice 0 4 data) in
  (forall ml, MapList.init data = Ok ml ->
     MapList.size ml = size /\
     length (MapList.list_ ml) = Z.to_nat size /\
     forall (k : nat) (item : MapItem.t), MapList.list_ ml !! k = Some item ->
       let raw := py_slice (4 + 12 * Z.of_nat k) (4 + 12 * Z.of_nat k + 12) data in
       MapItem.init raw = Ok item /\
       (int_from_bytes_little (py_slice 0 2 raw), MapItem.type item) ∈ TypeCode.values /\
       MapItem.size item = int_from_bytes_little (py_slice 4 8 raw) /\
       MapItem.offset item = int_from_bytes_little (py_slice 8 12 raw)) /\
  (forall e, MapList.init data = Raise e ->
     e = ValueError /\
     exists k : nat, Z.of_nat k < size /\
       forall ty,
         (int_from_bytes_little
            (py_slice 0 2 (py_slice (4 + 12 * Z.of_nat k)
                                    (4 + 12 * Z.of_nat k + 12) data)), ty)
         ∉ TypeCode.values).
Proof.
  intros size. pose proof (int_from_bytes_little_nonneg (py_slice 0 4 data)) as Hnn.
  fold size in Hnn. split.
  - intros ml H. unfold MapList.init in H. fold size in H. inv_bind H.
    injection H as <-. simpl.
    destruct (comprehension_Ok_lookup _ _ _ Hx) as [Hlen Hlk].
    split; [done|]. split; [by rewrite Hlen, py_range_length by lia|].
    intros k item Hk. destruct (Hlk _ _ Hk) as (off & Hoff & Hitem).
    assert (Z.of_nat k < size) as Hks.
    { apply lookup_lt_Some in Hoff. rewrite py_range_length in Hoff by lia. lia. }
    rewrite py_range_lookup in Hoff by lia. injection Hoff as <-.
    split; [done|].
    unfold MapItem.init in Hitem. inv_bind Hitem. injection Hitem as <-. simpl.
    split; [by apply enum_of_int_Ok_inv|done].
  - intros e H. unfold MapList.init in H. fold size in H.
    destruct (comprehension _ _) as [l|e'] eqn:Hc; simpl in H; [discriminate|].
    injection H as <-.
    apply comprehension_Raise_inv in Hc as (off & Hin & Hoff).
    apply list_elem_of_lookup in Hin as [k Hk].
    assert (Z.of_nat k < size) as Hks.
    { apply lookup_lt_Some in Hk. rewrite py_range_length in Hk by lia. lia. }
    rewrite py_range_lookup in Hk by lia. injection Hk as <-.
    apply MapItem_init_Raise_inv in Hoff as [-> Hnone]. eauto.
Qed.

(** X6.  A map list, a string, a type list or a class-data item located
    at or past the end of the buffer is not an error: the constructors
    read no bytes, every count is 0, and the result is the empty
    structure.  A map item there decodes as a header item whose fields
    are 0. *)
Theorem offset_past_end_reads_empty (data : bytes) (off : Z) :
  Z.of_nat (length data) <= off ->
  MapList.init (py_slice_from off data)
  = Ok {| MapList.size := 0; MapList.list_ := [] |} /\
  StringIdItem.get_string_data_item {| StringIdItem.string_data_off := off |} data
  = Ok {| StringDataItem.utf16size := 0; StringDataItem.data := [] |} /\
  TypeList.init (py_slice_from off data)
  = {| TypeList.size := 0; TypeList.list_ := [] |} /\
  (0 <= off ->
   MapItem.init (py_slice off (off + 12) data)
   = Ok {| MapItem.type := TypeCode.TYPE_HEADER_ITEM; MapItem.unused := 0;
           MapItem.size := 0; MapItem.offset := 0 |}) /\
  exists cd, ClassDataItem.init (py_slice_from off data) = Ok cd /\
    Uleb128.int (ClassDataItem.static_fields_size cd) = 0 /\
    Uleb128.int (ClassDataItem.instance_fields_size cd) = 0 /\
    Uleb128.int (ClassDataItem.direct_mehtods_size cd) = 0 /\
    Uleb128.int (ClassDataItem.virtual_methods_size cd) = 0 /\
    ClassDataItem.static_fields cd = [] /\ ClassDataItem.instance_fields cd = [] /\
    ClassDataItem.direct_mehtods cd = [] /\ ClassDataItem.virtual_methods cd = [].
Proof.
  intros H. unfold StringIdItem.get_string_data_item. simpl.
  rewrite (py_slice_from_beyond off data H).
  split; [done|]. split; [done|]. split; [done|].
  split; [intros Hoff; by rewrite py_slice_beyond|].
  eexists. split; [vm_compute; reflexivity|]. by vm_compute.
Qed.

Lemma TypeList_init_at (off : Z) (data : bytes) :
  0 <= off ->
  let tl := TypeList.init (py_slice_from off data) in
  TypeList.size tl = int_from_bytes_little (py_slice off (off + 4) data) /\
  length (TypeList.list_ tl) = Z.to_nat (TypeList.size tl) /\
  forall k : nat, Z.of_nat k < TypeList.size tl ->
    TypeList.list_ tl !! k
    = Some {| TypeItem.type_idx :=
                int_from_bytes_little
                  (py_slice (off + 4 + 2 * Z.of_nat k)
                            (off + 4 + 2 * Z.of_nat k + 2) data) |}.
Proof.
  intros Hoff. unfold TypeList.init. cbn [TypeList.size TypeList.list_]. cbv zeta.
  rewrite py_slice_of_slice_from by lia. rewrite Z.add_0_r.
  set (size := int_from_bytes_little (py_slice off (off + 4) data)).
  pose proof (int_from_bytes_little_nonneg (py_slice off (off + 4) data)) as Hnn.
  fold size in Hnn. split; [done|]. split.
  - by rewrite length_fmap, py_range_length by lia.
  - intros k Hk. rewrite list_lookup_fmap, py_range_lookup by lia.
    cbn [fmap option_fmap option_map]. unfold TypeItem.init. rewrite py_slice_of_slice_from by lia.
    repeat (f_equal; try lia).
Qed.

(** X7.  The parameter list of a prototype.  A parameter offset of 0
    gives the empty list whatever the buffer holds.  Any other offset
    gives the list declared there: its size is the 32-bit count at the
    offset, it has that many entries, and the entry at position [k] is
    the 16-bit value at [offset + 4 + 2 * k], read as 0 past the end of
    the buffer. *)
Theorem ProtoIdItem_get_parameters_spec (raw data : bytes) :
  let p := ProtoIdItem.init raw in
  let off := ProtoIdItem.parameters_off p in
  let tl := ProtoIdItem.get_parameters p data in
  (off = 0 -> tl = {| TypeList.size := 0; TypeList.list_ := [] |}) /\
  (off <> 0 ->
     TypeList.size tl = int_from_bytes_little (py_slice off (off + 4) data) /\
     length (TypeList.list_ tl) = Z.to_nat (TypeList.size tl) /\
     forall k : nat, Z.of_nat k < TypeList.size tl ->
       exists ty, TypeList.list_ tl !! k = Some ty /\
         TypeItem.type_idx ty
         = int_from_bytes_little
             (py_slice (off + 4 + 2 * Z.of_nat k) (off + 4 + 2 * Z.of_nat k + 2) data) /\
         0 <= TypeItem.type_idx ty < 65536 /\
         (Z.of_nat (length data) <= off + 4 + 2 * Z.of_nat k ->
          TypeItem.type_idx ty = 0)).
Proof.
  intros p off tl. unfold tl, ProtoIdItem.get_parameters. fold off. split.
  - intros ->. done.
  - intros Hne. apply Z.eqb_neq in Hne. rewrite Hne.
    assert (0 <= off) as Hoff by apply int_from_bytes_little_nonneg.
    destruct (TypeList_init_at off data Hoff) as (Hs & Hl & Hk).
    split; [done|]. split; [done|]. intros k Hlt.
    eexists. split; [by apply Hk|]. simpl. split; [done|]. split.
    + pose proof (int_from_bytes_little_slice_bound
                    (off + 4 + 2 * Z.of_nat k) (off + 4 + 2 * Z.of_nat k + 2) data
                    ltac:(lia)) as Hb.
      replace (off + 4 + 2 * Z.of_nat k + 2 - (off + 4 + 2 * Z.of_nat k)) with 2
        in Hb by lia.
      change (256 ^ 2) with 65536 in Hb. exact Hb.
    + intros Hbeyond. by rewrite py_slice_beyond by lia.
Qed.

(** X8.  A string record whose payload is ASCII decodes to that payload:
    when the first byte is the length [n] of a run of bytes below 0x80
    that follows it, the text is exactly those [n] characters, whatever
    comes after them. *)
Theorem StringDataItem_init_ascii (n : byte) (text rest : bytes) :
  Forall (fun x => byte_val x < 0x80) text ->
  byte_val n = Z.of_nat (length text) ->
  StringDataItem.init (n :: text ++ rest)
  = Ok {| StringDataItem.utf16size := Z.of_nat (length text);
          StringDataItem.data := byte_val <$> text |}.
Proof.
  intros Hascii Hn. unfold StringDataItem.init.
  assert (py_slice 0 1 (n :: text ++ rest) = [n]) as ->
    by (by rewrite py_slice_take_drop by lia).
  simpl int_from_bytes_little. rewrite Z.mul_0_r, Z.add_0_r, Hn.
  assert (py_slice 1 (1 + Z.of_nat (length text)) (n :: text ++ rest) = text) as ->.
  { rewrite py_slice_take_drop by lia. simpl drop.
    replace (Z.to_nat (1 + Z.of_nat (length text) - 1)) with (length text) by lia.
    apply take_app_length. }
  by rewrite utf8_decode_ascii.
Qed.

(** X9.  The declared length of a string record is its first byte alone,
    so it is at most 255; the decoded text never has more characters
    than the declared length; and the constructor fails only with
    [UnicodeDecodeError]. *)
Theorem StringDataItem_init_bounds (data : bytes) :
  (forall s, StringDataItem.init data = Ok s ->
     StringDataItem.utf16size s = int_from_bytes_little (py_slice 0 1 data) /\
     0 <= StringDataItem.utf16size s <= 255 /\
     Z.of_nat (length (StringDataItem.data s)) <= StringDataItem.utf16size s /\
     utf8_decode (py_slice 1 (1 + StringDataItem.utf16size s) data)
     = Ok (StringDataItem.data s)) /\
  (forall e, StringDataItem.init data = Raise e -> e = UnicodeDecodeError).
Proof.
  pose proof (int_from_bytes_little_slice_bound 0 1 data ltac:(lia)) as Hb.
  change (256 ^ (1 - 0)) with 256 in Hb.
  unfold StringDataItem.init. split.
  - intros s H. inv_bind H. injection H as <-. simpl.
    split; [done|]. split; [lia|]. split; [|done].
    apply utf8_decode_length in Hx.
    pose proof (py_slice_length_le 1 (1 + int_from_bytes_little (py_slice 0 1 data))
                  data ltac:(lia)).
    lia.
  - intros e H. destruct (utf8_decode _) as [l|e'] eqn:Hd; simpl in H;
      [discriminate|].
    injection H as <-. by apply utf8_decode_Raise_inv in Hd.
Qed.

(** ** Encoded values and access flags *)

Lemma ValueFormat_lookup (v : Z) (vt : ValueFormat.t) :
  (v, vt) ∈ ValueFormat.values -> enum_of_int ValueFormat.values v = Ok vt.
Proof.
  unfold ValueFormat.values. intros H.
  repeat (apply elem_of_cons in H as [[= -> ->]|H]; [reflexivity|]).
  by apply elem_of_nil in H.
Qed.

Lemma land_1f_7 (x : Z) : Z.land x 0x1f = 0 -> Z.land x 0x7 = 0.
Proof.
  intros H. change 7 with (Z.land 0x1f 0x7). by rewrite Z.land_assoc, H.
Qed.

Lemma signed_byte_range (l : bytes) :
  (length l <= 1)%nat -> -128 <= int_from_bytes_little_signed l <= 127.
Proof.
  destruct l as [|x [|y l]]; simpl; intros Hl; [done| |lia].
  unfold int_from_bytes_little_signed. simpl.
  pose proof (byte_val_range x). rewrite Z.mul_0_r, Z.add_0_r.
  change (2 ^ (8 * Z.of_nat 1 - 1)) with 128. change (2 ^ (8 * Z.of_nat 1)) with 256.
  destruct (Z.leb_spec 128 (byte_val x)); lia.
Qed.

(** X10.  The outcome of the encoded-value constructor.  On no bytes it
    raises [IndexError].  Otherwise the low five bits of the first byte
    select the format: a value outside the enumeration raises
    [ValueError]; a value inside it always gives a record whose
    [value_arg] is the low three bits of that byte.  Only the byte format
    is given a [value], the signed byte that follows (0 when nothing
    follows), and its argument is then always 0; every other format
    leaves [value] unset.  The constructor never raises
    [BadDexFileError]: its argument test for the byte format cannot
    fail. *)
Theorem EncodedValue_init_outcomes (b0 : byte) (rest : bytes) :
  EncodedValue.init [] = Raise IndexError /\
  (forall vt, (Z.land (byte_val b0) 0x1f, vt) ∈ ValueFormat.values ->
     exists v, EncodedValue.init (b0 :: rest) = Ok v /\
       EncodedValue.value_type v = vt /\
       EncodedValue.value_arg v = Z.land (byte_val b0) 0x7 /\
       (vt = ValueFormat.VALUE_BYTE ->
          EncodedValue.value_arg v = 0 /\
          EncodedValue.value v
          = Some (int_from_bytes_little_signed (py_slice 0 1 rest)) /\
          -128 <= int_from_bytes_little_signed (py_slice 0 1 rest) <= 127) /\
       (vt <> ValueFormat.VALUE_BYTE -> EncodedValue.value v = None)) /\
  ((forall vt, (Z.land (byte_val b0) 0x1f, vt) ∉ ValueFormat.values) ->
     EncodedValue.init (b0 :: rest) = Raise ValueError) /\
  (forall data, EncodedValue.init data <> Raise BadDexFileError).
Proof.
  assert (py_slice 1 2 (b0 :: rest) = py_slice 0 1 rest) as Hsl.
  { rewrite !py_slice_take_drop by lia. done. }
  assert (forall l : bytes, -128 <= int_from_bytes_little_signed (py_slice 0 1 l) <= 127)
    as Hrange.
  { intros l. apply signed_byte_range.
    pose proof (py_slice_length_le 0 1 l ltac:(lia)). lia. }
  split; [done|]. split; [|split].
  - intros vt Hvt. unfold EncodedValue.init.
    rewrite py_index_nonneg by lia. change (Z.to_nat 0) with 0%nat. simpl lookup.
    cbn [mbind result_bind]. rewrite (ValueFormat_lookup _ _ Hvt).
    cbn [mbind result_bind]. change (Z.shiftr 224 5) with 7.
    destruct vt;
      [|eexists; (split; [reflexivity|]); simpl;
        (split; [done|]); (split; [done|]); by split..].
    assert (Z.land (byte_val b0) 31 = 0) as Hz.
    { clear -Hvt. unfold ValueFormat.values in Hvt.
      repeat (apply elem_of_cons in Hvt as [Hvt|Hvt]; [by simplify_eq|]).
      by apply elem_of_nil in Hvt. }
    rewrite (land_1f_7 _ Hz). simpl. rewrite Hsl.
    eexists. split; [done|]. simpl. repeat split; try done; apply Hrange.
  - intros Hnone. unfold EncodedValue.init.
    rewrite py_index_nonneg by lia. change (Z.to_nat 0) with 0%nat. simpl lookup.
    cbn [mbind result_bind].
    destruct (enum_of_int _ _) as [vt|e] eqn:He.
    + apply enum_of_int_Ok_inv in He. by destruct (Hnone vt).
    + by rewrite (enum_of_int_Raise_inv _ _ _ He).
  - intros [|b l] H; [discriminate|]. unfold EncodedValue.init in H.
    rewrite py_index_nonneg in H by lia. change (Z.to_nat 0) with 0%nat in H.
    simpl lookup in H. cbn [mbind result_bind] in H.
    destruct (enum_of_int _ _) as [vt|e] eqn:He; cbn [mbind result_bind] in H.
    + change (Z.shiftr 224 5) with 7 in H.
      destruct vt; try discriminate.
      apply enum_of_int_Ok_inv in He. unfold ValueFormat.values in He.
      assert (Z.land (byte_val b) 31 = 0) as Hz.
      { repeat (apply elem_of_cons in He as [He|He]; [by simplify_eq|]).
        by apply elem_of_nil in He. }
      rewrite (land_1f_7 _ Hz) in H. discriminate.
    + apply enum_of_int_Raise_inv in He. congruence.
Qed.

Lemma land_mask_u32 (v : Z) : 0 <= v -> u32 (Z.land v 0x37fff).
Proof.
  intros Hv. unfold u32.
  assert (0 <= Z.land v 0x37fff) by (apply Z.land_nonneg; by left).
  split; [done|].
  destruct (Z.eq_dec (Z.land v 0x37fff) 0) as [->|Hne]; [done|].
  assert (Z.land v 0x37fff < 2 ^ 18); [|lia].
  apply Z.log2_lt_pow2; [lia|].
  pose proof (Z.log2_land v 0x37fff Hv ltac:(lia)) as Hl.
  change (Z.log2 0x37fff) with 17 in Hl. lia.
Qed.

(** X11.  Whether a class definition is rejected depends on the
    interpreter, and then on one word only.  When every bit of the
    32-bit access-flags word names a flag (the word lies within
    [0x37fff]) the constructor returns the eight little-endian words of
    the record under either boundary.  When a bit names no flag, the
    strict boundary raises [ValueError] and the conforming boundary
    returns the record with the unnamed bits dropped from its flags.
    Every word of a returned record is an unsigned 32-bit value, read as
    0 where the record is cut short, and its flags are always the named
    bits of the word. *)
Theorem ClassDefItem_init_outcomes (fb : AccessFlag.boundary) (raw : bytes) :
  let flags := int_from_bytes_little (py_slice 4 8 raw) in
  AccessFlag.flag_mask = 0x37fff /\
  (Z.land flags 0x37fff = flags ->
     ClassDefItem.init fb raw = Ok (class_def_words raw flags)) /\
  (Z.land flags 0x37fff <> flags ->
     ClassDefItem.init AccessFlag.STRICT raw = Raise ValueError /\
     ClassDefItem.init AccessFlag.CONFORM raw
     = Ok (class_def_words raw (Z.land flags 0x37fff))) /\
  (forall c, ClassDefItem.init fb raw = Ok c ->
     c = class_def_words raw (Z.land flags 0x37fff) /\
     Forall u32
       [ClassDefItem.class_idx c; ClassDefItem.access_flags c;
        ClassDefItem.superclass_idx c; ClassDefItem.interfaces_off c;
        ClassDefItem.source_file_idx c; ClassDefItem.annotations_off c;
        ClassDefItem.class_data_off c; ClassDefItem.static_values_off c]) /\
  (Z.of_nat (length raw) <= 4 -> exists c, ClassDefItem.init fb raw = Ok c).
Proof.
  intros flags. split; [done|].
  unfold ClassDefItem.init, AccessFlag.of_int. fold flags.
  change AccessFlag.flag_mask with 0x37fff.
  split; [|split; [|split]].
  - intros H. apply Z.eqb_eq in H. by rewrite H.
  - intros H. apply Z.eqb_neq in H. by rewrite H.
  - intros c H. inv_bind H. injection H as <-.
    assert (x = Z.land flags 0x37fff) as ->.
    { destruct (Z.eqb_spec (Z.land flags 229375) flags) as [Heq|Hne].
      - injection Hx as <-. done.
      - destruct fb; [discriminate|]. by injection Hx as <-. }
    split; [done|]. simpl.
    repeat first [apply Forall_nil_2 | apply Forall_cons_2];
      match goal with
      | |- u32 (Z.land _ _) => apply land_mask_u32, int_from_bytes_little_nonneg
      | |- u32 ?z => first [ exact (int_from_bytes_little_u32 0 raw ltac:(lia))
                           | exact (int_from_bytes_little_u32 8 raw ltac:(lia))
                           | exact (int_from_bytes_little_u32 12 raw ltac:(lia))
                           | exact (int_from_bytes_little_u32 16 raw ltac:(lia))
                           | exact (int_from_bytes_little_u32 20 raw ltac:(lia))
                           | exact (int_from_bytes_little_u32 24 raw ltac:(lia))
                           | exact (int_from_bytes_little_u32 28 raw ltac:(lia)) ]
      end.
  - intros Hshort. assert (flags = 0) as ->.
    { unfold flags. by rewrite py_slice_beyond by lia. }
    simpl. eauto.
Qed.

(** ** The parser as a whole *)

Lemma MapList_init_Raise_inv (data : bytes) (e : exn) :
  MapList.init data = Raise e -> e = ValueError.
Proof.
  unfold MapList.init.
  destruct (comprehension _ _) as [l|e'] eqn:Hc; simpl; [discriminate|].
  intros [= <-]. apply comprehension_Raise_inv in Hc as (off & _ & Hoff).
  by apply MapItem_init_Raise_inv in Hoff as [-> _].
Qed.

Lemma ClassDefItem_init_Raise_inv (fb : AccessFlag.boundary) (raw : bytes) (e : exn) :
  ClassDefItem.init fb raw = Raise e ->
  e = ValueError /\ fb = AccessFlag.STRICT /\
  ~ flags_named (int_from_bytes_little (py_slice 4 8 raw)).
Proof.
  unfold ClassDefItem.init, AccessFlag.of_int, flags_named.
  change AccessFlag.flag_mask with 0x37fff.
  destruct (Z.eqb_spec (Z.land (int_from_bytes_little (py_slice 4 8 raw)) 0x37fff)
              (int_from_bytes_little (py_slice 4 8 raw))) as [Heq|Hne];
    [discriminate|].
  destruct fb; simpl; [|discriminate]. intros [= <-]. done.
Qed.

(** X12.  Once the header validates, a decode that fails raises
    [ValueError] and nothing else, so no failure after the header is
    reported as [BadDexFileError].  The error comes from a type code of
    the map list that is not in the enumeration or, only when the
    interpreter gives the access flags the strict boundary, from the
    access-flags word of a declared class definition that has a bit no
    flag names.  Under the conforming boundary the class definitions
    cannot make the decode fail. *)
Theorem DexParser_init_fails_after_header (fb : AccessFlag.boundary) (data : bytes)
  (h : HeaderItem.t) (e : exn) :
  HeaderItem.init data = Ok h ->
  DexParser.init fb data = Raise e ->
  e = ValueError /\
  (MapList.init (py_slice_from (HeaderItem.map_off h) data) = Raise ValueError \/
   fb = AccessFlag.STRICT /\
   exists k : nat, Z.of_nat k < HeaderItem.class_defs_size h /\
                   ~ flags_named (class_flags_word data h k)).
Proof.
  intros Hh He.
  destruct (HeaderItem_init_fields _ _ Hh)
    as (_ & _ & _ & _ & _ & _ & _ & _ & _ & _ & _ & _ & E13 & E14).
  pose proof int_from_bytes_little_nonneg as Hnn.
  destruct (DexParser_init_Raise_inv _ _ _ _ Hh He) as [Hm|Hc].
  - pose proof (MapList_init_Raise_inv _ _ Hm) as ->. auto.
  - apply comprehension_Raise_inv in Hc as (off & Hin & Hoff).
    apply py_range_elem in Hin as (k & Hk & ->); [|lia|rewrite E13; apply Hnn].
    apply ClassDefItem_init_Raise_inv in Hoff as (-> & -> & Hflags).
    split; [done|]. right. split; [done|]. exists k. split; [done|].
    unfold class_flags_word. cbv zeta.
    rewrite py_slice_sub in Hflags by (rewrite ?E14; try apply Z.add_nonneg_nonneg;
                                        try apply Hnn; lia).
    done.
Qed.

(** X13.  A successful decode keeps the buffer it was given, the
    [file_size] of its header is the length of that buffer, its map list
    is the one found at the map offset, and its class definitions are the
    32-byte records at the declared positions, in order; the flags of
    each are the named bits of its access-flags word, under either
    boundary. *)
Theorem DexParser_init_keeps_declared_order (fb : AccessFlag.boundary) (data : bytes)
  (dex : DexParser.t) :
  DexParser.init fb data = Ok dex ->
  let h := DexParser.header dex in
  DexParser.full_data dex = data /\
  HeaderItem.file_size h = Z.of_nat (length data) /\
  MapList.init (py_slice_from (HeaderItem.map_off h) data)
  = Ok (DexParser.map_list dex) /\
  length (DexParser.class_defs dex) = Z.to_nat (HeaderItem.class_defs_size h) /\
  forall k : nat, Z.of_nat k < HeaderItem.class_defs_size h ->
    exists c, DexParser.class_defs dex !! k = Some c /\
      ClassDefItem.init fb
        (py_slice (HeaderItem.class_defs_off h + 32 * Z.of_nat k)
                  (HeaderItem.class_defs_off h + 32 * Z.of_nat k + 32) data)
      = Ok c /\
      c = class_def_words
            (py_slice (HeaderItem.class_defs_off h + 32 * Z.of_nat k)
                      (HeaderItem.class_defs_off h + 32 * Z.of_nat k + 32) data)
            (Z.land (class_flags_word data h k) 0x37fff).
Proof.
  intros Hdex h.
  assert (DexParser.full_data dex = data) as Hfull.
  { unfold DexParser.init in Hdex. do 3 inv_bind Hdex. by injection Hdex as <-. }
  destruct (DexParser_init_Ok_inv _ _ _ Hdex) as (Hh & Hmap & _ & _ & _ & _ & _ & Hc).
  fold h in Hh, Hmap, Hc.
  destruct (HeaderItem_init_fields _ _ Hh) as (Hfs & Hfields).
  pose proof int_from_bytes_little_nonneg as Hnn'.
  assert (0 <= HeaderItem.class_defs_size h) as Hnn.
  { destruct Hfields as (_ & _ & _ & _ & _ & _ & _ & _ & _ & _ & _ & -> & _).
    apply int_from_bytes_little_nonneg. }
  assert (0 <= HeaderItem.class_defs_off h) as Hoffnn.
  { destruct Hfields as (_ & _ & _ & _ & _ & _ & _ & _ & _ & _ & _ & _ & ->).
    apply int_from_bytes_little_nonneg. }
  destruct (comprehension_Ok_lookup _ _ _ Hc) as [Hlen Hlk].
  rewrite py_range_length in Hlen by lia.
  repeat split; try done.
  intros k Hk.
  destruct (lookup_lt_is_Some_2 (DexParser.class_defs dex) k) as [c Hck]; [lia|].
  exists c. split; [done|].
  destruct (Hlk _ _ Hck) as (off & Hoff & Hinit).
  rewrite py_range_lookup in Hoff by lia. injection Hoff as <-.
  split; [done|].
  unfold ClassDefItem.init in Hinit. inv_bind Hinit. injection Hinit as <-.
  apply of_int_Ok_inv in Hx as ->.
  unfold class_flags_word. cbv zeta.
  rewrite <- (py_slice_sub _ 32 4 8) by lia. reflexivity.
Qed.

(** X14.  A container that declares nothing decodes to empty tables:
    when the header validates, the six counts are 0 and the map list
    decodes, the decode succeeds and every table is empty. *)
Theorem DexParser_init_empty_tables (fb : AccessFlag.boundary) (data : bytes)
  (h : HeaderItem.t) (ml : MapList.t) :
  HeaderItem.init data = Ok h ->
  MapList.init (py_slice_from (HeaderItem.map_off h) data) = Ok ml ->
  HeaderItem.string_ids_size h = 0 ->
  HeaderItem.type_ids_size h = 0 ->
  HeaderItem.proto_ids_size h = 0 ->
  HeaderItem.field_ids_size h = 0 ->
  HeaderItem.method_ids_size h = 0 ->
  HeaderItem.class_defs_size h = 0 ->
  DexParser.init fb data
  = Ok {| DexParser.full_data := data; DexParser.header := h;
          DexParser.map_list := ml;
          DexParser.string_ids := []; DexParser.type_ids := [];
          DexParser.proto_ids := []; DexParser.field_ids := [];
          DexParser.method_ids := []; DexParser.class_defs := [] |}.
Proof.
  intros Hh Hml H1 H2 H3 H4 H5 H6. unfold DexParser.init.
  rewrite Hh. cbn [mbind result_bind]. rewrite Hml. cbn [mbind result_bind].
  unfold DexParser.table. rewrite H1, H2, H3, H4, H5, H6.
  rewrite !py_range_empty by lia. done.
Qed.

(** ** The first eight bytes *)

Lemma py_slice_insert_before {A} (lo hi : Z) (i : nat) (y : A) (s : list A) :
  0 <= lo <= hi -> Z.of_nat i < lo ->
  py_slice lo hi (<[i := y]> s) = py_slice lo hi s.
Proof.
  intros H Hi. rewrite !py_slice_take_drop by done.
  by rewrite drop_insert_lt by lia.
Qed.

Lemma py_slice_insert_after {A} (lo hi : Z) (i : nat) (y : A) (s : list A) :
  0 <= lo <= hi -> hi <= Z.of_nat i ->
  py_slice lo hi (<[i := y]> s) = py_slice lo hi s.
Proof.
  intros H Hi. rewrite !py_slice_take_drop by done.
  rewrite drop_insert_ge by lia. apply take_insert_ge. lia.
Qed.

Lemma py_slice_from_insert_before {A} (lo : Z) (i : nat) (y : A) (s : list A) :
  0 <= lo -> Z.of_nat i < lo ->
  py_slice_from lo (<[i := y]> s) = py_slice_from lo s.
Proof.
  intros H Hi. rewrite !py_slice_from_drop by done.
  by rewrite drop_insert_lt by lia.
Qed.

(** X15.  Of the first eight bytes of a buffer that validates, the four
    magic bytes and byte 7 are checked exactly: replacing any one of
    them by a different byte makes the header constructor raise
    [BadDexFileError]. *)
Theorem magic_byte_is_checked (data : bytes) (h : HeaderItem.t) (i : nat) (y : byte) :
  HeaderItem.init data = Ok h ->
  (i < 4)%nat \/ i = 7%nat ->
  data !! i <> Some y ->
  HeaderItem.init (<[i := y]> data) = Raise BadDexFileError.
Proof.
  intros Hh Hi Hy.
  pose proof (HeaderItem_init_version _ _ Hh) as Hv.
  destruct (HeaderItem_init_Ok_inv _ _ Hh) as (Hm & (b7 & Hb7 & Hz) & _).
  assert (8 <= length data)%nat as Hlen by (apply lookup_lt_Some in Hb7; lia).
  unfold HeaderItem.init. destruct Hi as [Hi| ->].
  - assert (py_slice 0 4 (<[i:=y]> data) <> MAGIC) as Hm'.
    { intros Hm'.
      assert (py_slice 0 4 (<[i:=y]> data) !! i = data !! i) as Hsame.
      { rewrite Hm', <- Hm. rewrite py_slice_lookup by lia. done. }
      rewrite py_slice_lookup in Hsame by lia. simpl in Hsame.
      rewrite list_lookup_insert_eq in Hsame by lia. congruence. }
    by rewrite (bool_decide_eq_false_2 _ Hm').
  - rewrite (py_slice_insert_after 0 4), (bool_decide_eq_true_2 _ Hm) by lia.
    rewrite (py_slice_insert_after 4 7), Hv by lia.
    cbn [mbind result_bind raise_if negb].
    rewrite py_index_nonneg by lia. change (Z.to_nat 7) with 7%nat.
    rewrite list_lookup_insert_eq by lia. cbn [mbind result_bind].
    assert (byte_val y <> 0) as Hne.
    { intros Hy0. apply Hy. rewrite Hb7. f_equal. apply byte_val_inj. congruence. }
    apply Z.eqb_neq in Hne. by rewrite Hne.
Qed.

(** X16.  The three version bytes are not covered by any check: in a
    buffer that validates, replacing one of them leaves the header valid
    with the same fields and the new version whenever the three bytes
    are still UTF-8, and raises [UnicodeDecodeError] when they are
    not. *)
Theorem version_bytes_are_unchecked (data : bytes) (h : HeaderItem.t)
  (i : nat) (y : byte) :
  HeaderItem.init data = Ok h ->
  (4 <= i < 7)%nat ->
  (forall v, utf8_decode (py_slice 4 7 (<[i := y]> data)) = Ok v ->
     HeaderItem.init (<[i := y]> data) = Ok (with_version v h)) /\
  (forall e, utf8_decode (py_slice 4 7 (<[i := y]> data)) = Raise e ->
     HeaderItem.init (<[i := y]> data) = Raise UnicodeDecodeError).
Proof.
  intros Hh Hi.
  destruct (HeaderItem_init_Ok_inv _ _ Hh) as (Hm & _).
  split.
  - intros v Hv. unfold HeaderItem.init.
    rewrite length_insert, Hv.
    rewrite (py_slice_insert_after 0 4), (bool_decide_eq_true_2 _ Hm) by lia.
    rewrite py_index_nonneg by lia. change (Z.to_nat 7) with 7%nat.
    rewrite list_lookup_insert_ne by lia.
    rewrite !py_slice_from_insert_before by lia.
    rewrite !(py_slice_insert_before _ _ i y data) by lia.
    cbn [mbind result_bind raise_if negb].
    unfold HeaderItem.init in Hh. do 9 inv_bind Hh. injection Hh as <-.
    rewrite py_index_nonneg in Hx1 by lia. change (Z.to_nat 7) with 7%nat in Hx1.
    rewrite Hx1. cbn [mbind result_bind]. rewrite Hx2. cbn [mbind result_bind].
    rewrite Hx3. cbn [mbind result_bind]. rewrite Hx4. cbn [mbind result_bind].
    rewrite Hx5. cbn [mbind result_bind]. rewrite Hx6. cbn [mbind result_bind].
    rewrite Hx7. cbn [mbind result_bind]. done.
  - intros e He. pose proof (utf8_decode_Raise_inv _ _ He) as ->.
    unfold HeaderItem.init.
    rewrite (py_slice_insert_after 0 4), (bool_decide_eq_true_2 _ Hm) by lia.
    by rewrite He.
Qed.

(** ** Class data and the annotation directory *)

Lemma delta_sum_app {A} (delta : A -> Z) (xs ys : list A) :
  delta_sum delta (xs ++ ys) = delta_sum delta xs + delta_sum delta ys.
Proof. induction xs as [|x xs IH]; simpl; [done|]. rewrite IH. lia. Qed.

Lemma delta_sum_take_mono {A} (delta : A -> Z) (xs : list A) (i j : nat) :
  (forall x, 0 <= delta x) -> (i <= j)%nat ->
  0 <= delta_sum delta (take i xs) <= delta_sum delta (take j xs).
Proof.
  intros Hd Hij. split; [by apply delta_sum_nonneg|].
  rewrite <- (take_drop i (take j xs)), delta_sum_app.
  rewrite take_take, Nat.min_l by done.
  pose proof (delta_sum_nonneg delta (drop i (take j xs)) Hd). lia.
Qed.

Lemma py_index_Ok_mono {A} (table : list A) (a b : Z) (y : A) :
  0 <= a <= b -> py_index table b = Ok y -> exists x, py_index table a = Ok x.
Proof.
  intros Hab Hb. destruct (Z.lt_ge_cases a (Z.of_nat (length table))) as [Hlt|Hge].
  - destruct (py_index_in_range table a ltac:(lia)) as (x & _ & Hx). eauto.
  - rewrite py_index_out_of_range in Hb by lia. discriminate.
Qed.

(** X17.  Within a sequence of class members the resolved indices never
    decrease: the index resolved at a position is at least the index
    resolved at any earlier position, and both are non-negative.  So
    when a member resolves in the table, every member before it in the
    sequence resolves too. *)
Theorem class_data_indices_ascend (fs : list EncodedField.t) (ms : list EncodedMethod.t)
  (field_ids : list FieldIdItem.t) (method_ids : list MethodIdItem.t) (i j : nat) :
  (i <= j)%nat ->
  ((j < length fs)%nat ->
     exists a b,
       ClassDataItem.dump_fields 0 fs field_ids !! i = Some (py_index field_ids a) /\
       ClassDataItem.dump_fields 0 fs field_ids !! j = Some (py_index field_ids b) /\
       0 <= a <= b /\
       (forall y, py_index field_ids b = Ok y -> exists x, py_index field_ids a = Ok x)) /\
  ((j < length ms)%nat ->
     exists a b,
       ClassDataItem.dump_methods 0 ms method_ids !! i = Some (py_index method_ids a) /\
       ClassDataItem.dump_methods 0 ms method_ids !! j = Some (py_index method_ids b) /\
       0 <= a <= b /\
       (forall y, py_index method_ids b = Ok y -> exists x, py_index method_ids a = Ok x)).
Proof.
  intros Hij. split; intros Hj.
  - destruct (lookup_lt_is_Some_2 fs i) as [fi Hfi]; [lia|].
    destruct (lookup_lt_is_Some_2 fs j) as [fj Hfj]; [lia|].
    pose proof (delta_sum_take_mono ClassDataItem.field_delta fs (S i) (S j)
                  field_delta_nonneg ltac:(lia)) as Hmono.
    eexists _, _. split; [by apply dump_fields_lookup with fi|].
    split; [by apply dump_fields_lookup with fj|]. split; [done|].
    intros y. by apply py_index_Ok_mono.
  - destruct (lookup_lt_is_Some_2 ms i) as [mi Hmi]; [lia|].
    destruct (lookup_lt_is_Some_2 ms j) as [mj Hmj]; [lia|].
    pose proof (delta_sum_take_mono ClassDataItem.method_delta ms (S i) (S j)
                  method_delta_nonneg ltac:(lia)) as Hmono.
    eexists _, _. split; [by apply dump_methods_lookup with mi|].
    split; [by apply dump_methods_lookup with mj|]. split; [done|].
    intros y. by apply py_index_Ok_mono.
Qed.

Lemma Uleb128_size_range (data : bytes) (u : Uleb128.t) :
  Uleb128.init data = Ok u -> 0 <= Uleb128._size u <= 5.
Proof.
  unfold Uleb128.init. intros H. inv_bind H. injection H as <-. simpl.
  destruct (Uleb128_scan_Ok_inv _ 0 _ ltac:(lia) Hx)
    as [(-> & _) | (pre & b & rest & _ & _ & _ & -> & Hlen)]; lia.
Qed.

Lemma EncodedField_init_size (data : bytes) (f : EncodedField.t) :
  EncodedField.init data = Ok f ->
  EncodedField._size f
  = Uleb128._size (EncodedField.field_idx_diff f)
    + Uleb128._size (EncodedField.access_flags f) /\
  0 <= EncodedField._size f <= 10.
Proof.
  unfold EncodedField.init. intros H. do 2 inv_bind H. injection H as <-. simpl.
  apply Uleb128_size_range in Hx, Hx0. lia.
Qed.

Lemma EncodedMethod_init_size (data : bytes) (m : EncodedMethod.t) :
  EncodedMethod.init data = Ok m ->
  EncodedMethod._size m
  = Uleb128._size (EncodedMethod.method_idx_diff m)
    + Uleb128._size (EncodedMethod.access_flags m)
    + Uleb128._size (EncodedMethod.code_off m) /\
  0 <= EncodedMethod._size m <= 15.
Proof.
  unfold EncodedMethod.init. intros H. do 3 inv_bind H. injection H as <-. simpl.
  apply Uleb128_size_range in Hx, Hx0, Hx1. lia.
Qed.

Lemma bind_Raise_inv {A B} (m : result A) (f : A -> result B) (e : exn) :
  m ≫= f = Raise e -> m = Raise e \/ exists a, m = Ok a /\ f a = Raise e.
Proof. destruct m as [a|e']; simpl; [eauto | intros [= ->]; by left]. Qed.

Ltac inv_raise H :=
  let a := fresh "a" in
  let Ha := fresh "Ha" in
  apply bind_Raise_inv in H as [H|(a & Ha & H)];
  [try (by apply Uleb128_init_Raise_inv in H)|].

Lemma EncodedField_init_Raise_inv (data : bytes) (e : exn) :
  EncodedField.init data = Raise e -> e = BadDexFileError.
Proof.
  unfold EncodedField.init. intros H. do 2 inv_raise H. discriminate.
Qed.

Lemma EncodedMethod_init_Raise_inv (data : bytes) (e : exn) :
  EncodedMethod.init data = Raise e -> e = BadDexFileError.
Proof.
  unfold EncodedMethod.init. intros H. do 3 inv_raise H. discriminate.
Qed.

Lemma records_loop_Raise_inv {A} (item : bytes -> result A) (size : A -> Z)
  (n : nat) (data : bytes) (off : Z) (e : exn) :
  (forall raw e', item raw = Raise e' -> e' = BadDexFileError) ->
  ClassDataItem.records_loop item size n data off = Raise e -> e = BadDexFileError.
Proof.
  intros Hitem. revert off. induction n as [|n IH]; intros off H;
    cbn [ClassDataItem.records_loop] in H; [discriminate|].
  apply bind_Raise_inv in H as [H|(x & _ & H)]; [by eapply Hitem|].
  apply bind_Raise_inv in H as [H|(r & _ & H)]; [by eapply IH | discriminate].
Qed.

Lemma records_at_Forall {A} (item : bytes -> result A) (size : A -> Z)
  (data : bytes) (off off' : Z) (xs : list A) :
  records_at item size data off xs off' ->
  Forall (fun x => exists raw, item raw = Ok x) xs.
Proof. induction 1; constructor; eauto. Qed.

(** X18.  Decoding a class-data item can fail only with
    [BadDexFileError], raised by a varint of five bytes with the high
    bit set.  When it succeeds every field record took its two varints
    and at most 10 bytes, and every method record its three varints and
    at most 15 bytes. *)
Theorem ClassDataItem_init_records (data : bytes) :
  (forall e, ClassDataItem.init data = Raise e -> e = BadDexFileError) /\
  (forall cd, ClassDataItem.init data = Ok cd ->
     Forall (fun f =>
               EncodedField._size f
               = Uleb128._size (EncodedField.field_idx_diff f)
                 + Uleb128._size (EncodedField.access_flags f) /\
               0 <= EncodedField._size f <= 10)
            (ClassDataItem.static_fields cd ++ ClassDataItem.instance_fields cd) /\
     Forall (fun m =>
               EncodedMethod._size m
               = Uleb128._size (EncodedMethod.method_idx_diff m)
                 + Uleb128._size (EncodedMethod.access_flags m)
                 + Uleb128._size (EncodedMethod.code_off m) /\
               0 <= EncodedMethod._size m <= 15)
            (ClassDataItem.direct_mehtods cd ++ ClassDataItem.virtual_methods cd)).
Proof.
  split.
  - intros e H. unfold ClassDataItem.init in H. do 4 inv_raise H.
    unfold ClassDataItem.fields_loop, ClassDataItem.methods_loop in H.
    apply bind_Raise_inv in H as [H|(sf & _ & H)];
      [by eapply records_loop_Raise_inv, H; apply EncodedField_init_Raise_inv|].
    apply bind_Raise_inv in H as [H|(inf & _ & H)];
      [by eapply records_loop_Raise_inv, H; apply EncodedField_init_Raise_inv|].
    apply bind_Raise_inv in H as [H|(dm & _ & H)];
      [by eapply records_loop_Raise_inv, H; apply EncodedMethod_init_Raise_inv|].
    apply bind_Raise_inv in H as [H|(vm & _ & H)];
      [by eapply records_loop_Raise_inv, H; apply EncodedMethod_init_Raise_inv|].
    discriminate.
  - intros cd Hcd. apply ClassDataItem_init_steps in Hcd
      as (_ & _ & _ & _ & _ & _ & _ & _ & o5 & o6 & o7 & o8 & R1 & R2 & R3 & R4).
    apply records_at_Forall in R1. apply records_at_Forall in R2.
    apply records_at_Forall in R3. apply records_at_Forall in R4.
    split; apply Forall_app; split.
    + eapply List.Forall_impl; [|exact R1]. intros f [raw Hf].
      by apply EncodedField_init_size with raw.
    + eapply List.Forall_impl; [|exact R2]. intros f [raw Hf].
      by apply EncodedField_init_size with raw.
    + eapply List.Forall_impl; [|exact R3]. intros m [raw Hm].
      by apply EncodedMethod_init_size with raw.
    + eapply List.Forall_impl; [|exact R4]. intros m [raw Hm].
      by apply EncodedMethod_init_size with raw.
Qed.

Lemma comprehension_pure {A B} (g : A -> B) (xs : list A) :
  comprehension (fun x => Ok (g x)) xs = Ok (g <$> xs).
Proof. induction xs as [|x xs IH]; simpl; [done|]. by rewrite IH. Qed.

Lemma entries_field (data : bytes) (start size : Z) :
  AnnotationDirectoryItem.entries "FieldAnnotation" data start (start + size * 8)
  = Ok ((fun off => FieldAnnotation.init (py_slice off (off + 8) data))
          <$> py_range start (start + size * 8) 8).
Proof. unfold AnnotationDirectoryItem.entries. simpl. apply comprehension_pure. Qed.

Lemma entries_undefined (class : string) (data : bytes) (start size : Z) :
  lookup_name AnnotationDirectoryItem.entry_classes class = None ->
  AnnotationDirectoryItem.entries class data start (start + size * 8)
  = if size <=? 0 then Ok [] else Raise NameError.
Proof.
  intros Hc. unfold AnnotationDirectoryItem.entries, py_global. rewrite Hc.
  destruct (Z.leb_spec size 0) as [Hle|Hgt].
  - assert (py_range start (start + size * 8) 8 = []) as ->; [|done].
    unfold py_range.
    replace ((start + size * 8 - start + 8 - 1) `div` 8) with (size + 7 `div` 8).
    + change (7 `div` 8) with 0. rewrite Z.add_0_r.
      assert (seqZ 0 size = []) as ->; [|done].
      apply length_zero_iff_nil. rewrite length_seqZ. lia.
    + replace (start + size * 8 - start + 8 - 1) with (7 + size * 8) by lia.
      rewrite Z.div_add by lia. lia.
  - pose proof (py_range_length start size 8 ltac:(lia) ltac:(lia)) as Hlen.
    destruct (py_range start (start + size * 8) 8); [simpl in Hlen; lia | done].
Qed.

(** X19.  An annotation directory can be built only when it declares no
    method and no parameter annotations.  The constructor names two
    classes, [MethodAnnotation] and [ParameterAnnotation], that the
    module does not define: as soon as one of the two counts is positive
    it raises [NameError].  With both counts 0 it returns the directory
    with its [fields_size] field annotations, the one at position [k]
    read from the eight bytes at [16 + 8 * k]. *)
Theorem AnnotationDirectoryItem_init_outcomes (data : bytes) :
  let fields := int_from_bytes_little (py_slice 4 8 data) in
  let methods := int_from_bytes_little (py_slice 8 12 data) in
  let parameters := int_from_bytes_little (py_slice 12 16 data) in
  (methods = 0 -> parameters = 0 ->
     exists d, AnnotationDirectoryItem.init data = Ok d /\
       AnnotationDirectoryItem.class_annotations_off d
       = int_from_bytes_little (py_slice 0 4 data) /\
       AnnotationDirectoryItem.fields_size d = fields /\
       length (AnnotationDirectoryItem.field_annotations d) = Z.to_nat fields /\
       (forall k : nat, Z.of_nat k < fields ->
          AnnotationDirectoryItem.field_annotations d !! k
          = Some (FieldAnnotation.init
                    (py_slice (16 + 8 * Z.of_nat k) (16 + 8 * Z.of_nat k + 8) data))) /\
       AnnotationDirectoryItem.method_annotations d = [] /\
       AnnotationDirectoryItem.parameter_annotations d = []) /\
  (methods <> 0 \/ parameters <> 0 ->
     AnnotationDirectoryItem.init data = Raise NameError).
Proof.
  intros fields methods parameters.
  pose proof (int_from_bytes_little_nonneg (py_slice 4 8 data)) as Hf.
  pose proof (int_from_bytes_little_nonneg (py_slice 8 12 data)) as Hm.
  pose proof (int_from_bytes_little_nonneg (py_slice 12 16 data)) as Hp.
  fold fields in Hf. fold methods in Hm. fold parameters in Hp.
  unfold AnnotationDirectoryItem.init. fold fields methods parameters.
  cbv zeta. rewrite entries_field. cbn [mbind result_bind].
  rewrite !entries_undefined by done.
  split.
  - intros -> ->. simpl. eexists. split; [done|]. simpl.
    split; [done|]. split; [done|]. split; [|split; [|done]].
    + by rewrite length_fmap, py_range_length by lia.
    + intros k Hk. by rewrite list_lookup_fmap, py_range_lookup by lia.
  - intros Hpos. destruct (Z.leb_spec methods 0) as [Hle|Hgt]; [|done].
    cbn [mbind result_bind].
    destruct (Z.leb_spec parameters 0) as [Hle'|Hgt']; [lia | done].
Qed.

(** The annotations resolver raises [NameError] on every directory that
    declares a method or a parameter annotation. *)
Lemma ClassDefItem_annotations_NameError (c : ClassDefItem.t) (data : bytes) :
  let directory := py_slice_from (ClassDefItem.annotations_off c) data in
  ClassDefItem.annotations_off c <> 0 ->
  int_from_bytes_little (py_slice 8 12 directory) <> 0 \/
  int_from_bytes_little (py_slice 12 16 directory) <> 0 ->
  ClassDefItem.get_annotations_annotation_directory_item c data = Raise NameError.
Proof.
  intros directory Hne%Z.eqb_neq Hpos.
  unfold ClassDefItem.get_annotations_annotation_directory_item.
  rewrite Hne. fold directory.
  pose proof (int_from_bytes_little_nonneg (py_slice 8 12 directory)) as Hm.
  pose proof (int_from_bytes_little_nonneg (py_slice 12 16 directory)) as Hp.
  unfold AnnotationDirectoryItem.init. cbv zeta.
  rewrite entries_field. cbn [mbind result_bind].
  rewrite !entries_undefined by done.
  destruct (Z.leb_spec (int_from_bytes_little (py_slice 8 12 directory)) 0)
    as [Hle|Hgt]; [|done].
  cbn [mbind result_bind].
  destruct (Z.leb_spec (int_from_bytes_little (py_slice 12 16 directory)) 0)
    as [Hle'|Hgt']; [lia | done].
Qed.

(** The resolvers of the interfaces and of the class data do return the
    structure found at the offset. *)
Lemma ClassDefItem_interfaces_resolved (c : ClassDefItem.t) (data : bytes) :
  let off := ClassDefItem.interfaces_off c in
  0 < off ->
  exists tl, ClassDefItem.get_interfaces_type_list c data = Some tl /\
    TypeList.size tl = int_from_bytes_little (py_slice off (off + 4) data) /\
    length (TypeList.list_ tl) = Z.to_nat (TypeList.size tl) /\
    forall k : nat, Z.of_nat k < TypeList.size tl ->
      TypeList.list_ tl !! k
      = Some {| TypeItem.type_idx :=
                  int_from_bytes_little
                    (py_slice (off + 4 + 2 * Z.of_nat k)
                              (off + 4 + 2 * Z.of_nat k + 2) data) |}.
Proof.
  intros off Hoff. unfold ClassDefItem.get_interfaces_type_list. fold off.
  assert ((off =? 0) = false) as -> by lia.
  eexists. split; [done|]. apply TypeList_init_at. lia.
Qed.

Lemma ClassDefItem_class_data_resolved (c : ClassDefItem.t) (front c1 c2 c3 c4 : bytes)
  (sfs ifs : list (bytes * bytes)) (dms vms : list (bytes * bytes * bytes))
  (rest : bytes) :
  ClassDefItem.class_data_off c = Z.of_nat (length front) -> front <> [] ->
  varint_bytes c1 -> varint_bytes c2 -> varint_bytes c3 -> varint_bytes c4 ->
  Forall field_wf sfs -> Forall field_wf ifs ->
  Forall method_wf dms -> Forall method_wf vms ->
  varint_sum 0 c1 = Z.of_nat (length sfs) ->
  varint_sum 0 c2 = Z.of_nat (length ifs) ->
  varint_sum 0 c3 = Z.of_nat (length dms) ->
  varint_sum 0 c4 = Z.of_nat (length vms) ->
  ClassDefItem.get_class_data_class_data_item c
    (front ++ c1 ++ c2 ++ c3 ++ c4
     ++ concat (field_bytes <$> sfs) ++ concat (field_bytes <$> ifs)
     ++ concat (method_bytes <$> dms) ++ concat (method_bytes <$> vms) ++ rest)
  = Ok (Some {| ClassDataItem.static_fields_size := uleb_of c1;
                ClassDataItem.instance_fields_size := uleb_of c2;
                ClassDataItem.direct_mehtods_size := uleb_of c3;
                ClassDataItem.virtual_methods_size := uleb_of c4;
                ClassDataItem.static_fields := field_of <$> sfs;
                ClassDataItem.instance_fields := field_of <$> ifs;
                ClassDataItem.direct_mehtods := method_of <$> dms;
                ClassDataItem.virtual_methods := method_of <$> vms |}).
Proof.
  intros Hoff Hfront W1 W2 W3 W4 Wsf Wif Wdm Wvm N1 N2 N3 N4.
  unfold ClassDefItem.get_class_data_class_data_item. rewrite Hoff.
  assert ((Z.of_nat (length front) =? 0) = false) as ->.
  { destruct front; [done | simpl; lia]. }
  rewrite py_slice_from_app.
  by rewrite ClassDataItem_init_encoded.
Qed.

(** ** Well-formed class data *)

(** X20.  Well-formed class data decodes to what it encodes.  When the
    buffer starts with four well-formed varints whose values are the
    numbers of records that follow, and then holds the static fields,
    instance fields, direct methods and virtual methods written as
    well-formed varints one after the other, the constructor returns
    exactly those counts and records, each with the bytes of its
    varints, whatever follows in the buffer. *)
Theorem ClassDataItem_init_wellformed (c1 c2 c3 c4 : bytes)
  (sfs ifs : list (bytes * bytes)) (dms vms : list (bytes * bytes * bytes))
  (rest : bytes) :
  varint_bytes c1 -> varint_bytes c2 -> varint_bytes c3 -> varint_bytes c4 ->
  Forall field_wf sfs -> Forall field_wf ifs ->
  Forall method_wf dms -> Forall method_wf vms ->
  varint_sum 0 c1 = Z.of_nat (length sfs) ->
  varint_sum 0 c2 = Z.of_nat (length ifs) ->
  varint_sum 0 c3 = Z.of_nat (length dms) ->
  varint_sum 0 c4 = Z.of_nat (length vms) ->
  ClassDataItem.init
    (c1 ++ c2 ++ c3 ++ c4
     ++ concat (field_bytes <$> sfs) ++ concat (field_bytes <$> ifs)
     ++ concat (method_bytes <$> dms) ++ concat (method_bytes <$> vms) ++ rest)
  = Ok {| ClassDataItem.static_fields_size := uleb_of c1;
          ClassDataItem.instance_fields_size := uleb_of c2;
          ClassDataItem.direct_mehtods_size := uleb_of c3;
          ClassDataItem.virtual_methods_size := uleb_of c4;
          ClassDataItem.static_fields := field_of <$> sfs;
          ClassDataItem.instance_fields := field_of <$> ifs;
          ClassDataItem.direct_mehtods := method_of <$> dms;
          ClassDataItem.virtual_methods := method_of <$> vms |}.
Proof. apply ClassDataItem_init_encoded. Qed.

(** ** The further properties at the sample inputs *)

Lemma Uleb128_init_invariant_witness :
  exists u, Uleb128.init [xe5; x8e; x26; x00] = Ok u /\
    Uleb128._size u = Z.of_nat (length (Uleb128.data u)) /\
    Uleb128.int u = varint_sum 0 (Uleb128.data u) /\
    0 <= Uleb128.int u < 2 ^ (7 * Uleb128._size u).
Proof.
  destruct (Uleb128.init [xe5; x8e; x26; x00]) as [u|e] eqn:H;
    [|vm_compute in H; discriminate].
  exists u. split; [reflexivity|].
  destruct (Uleb128_init_invariant _ u H) as (_ & Hs & _ & _ & Hi & Hb).
  auto.
Defined.

Lemma HeaderItem_validated_header_witness :
  exists h, HeaderItem.init sample_header_44 = Ok h /\
    (44 <= length sample_header_44)%nat /\
    HeaderItem.file_size h = 44 /\
    HeaderItem.checksum h = int_from_bytes_little (py_slice 8 12 sample_header_44).
Proof.
  destruct (HeaderItem.init sample_header_44) as [h|e] eqn:H;
    [|vm_compute in H; discriminate].
  exists h. split; [reflexivity|].
  destruct (HeaderItem_validated_header sample_header_44 h H)
    as (Hlen & Hfs & _ & Hc & _).
  split; [exact Hlen|]. split; [exact Hfs | exact Hc].
Defined.

Lemma offset_past_end_reads_empty_witness :
  MapList.init (py_slice_from 121 sample_dex)
  = Ok {| MapList.size := 0; MapList.list_ := [] |} /\
  StringIdItem.get_string_data_item {| StringIdItem.string_data_off := 121 |} sample_dex
  = Ok {| StringDataItem.utf16size := 0; StringDataItem.data := [] |}.
Proof.
  destruct (offset_past_end_reads_empty sample_dex 121) as (Hm & Hs & _).
  - simpl. lia.
  - split; [exact Hm | exact Hs].
Defined.

Lemma StringDataItem_init_ascii_witness :
  StringDataItem.init (x03 :: [x61; x62; x63] ++ [x00])
  = Ok {| StringDataItem.utf16size := Z.of_nat (length [x61; x62; x63]);
          StringDataItem.data := byte_val <$> [x61; x62; x63] |}.
Proof.
  apply StringDataItem_init_ascii.
  - repeat constructor.
  - reflexivity.
Defined.

Lemma DexParser_init_fails_after_header_witness :
  exists h, HeaderItem.init sample_flag_dex = Ok h /\
    DexParser.init AccessFlag.STRICT sample_flag_dex = Raise ValueError /\
    class_flags_word sample_flag_dex h 0 = 0x8001.
Proof.
  destruct (HeaderItem.init sample_flag_dex) as [h|e] eqn:Hh;
    [|vm_compute in Hh; discriminate].
  exists h. split; [reflexivity|].
  destruct (DexParser.init AccessFlag.STRICT sample_flag_dex) as [dex|e] eqn:He;
    [vm_compute in He; discriminate|].
  destruct (DexParser_init_fails_after_header AccessFlag.STRICT sample_flag_dex h e Hh He)
    as [-> _].
  split; [reflexivity|].
  vm_compute in Hh. injection Hh as <-. vm_compute. reflexivity.
Defined.

Lemma DexParser_init_keeps_declared_order_witness :
  exists dex c, DexParser.init AccessFlag.CONFORM sample_flag_dex = Ok dex /\
    DexParser.full_data dex = sample_flag_dex /\
    HeaderItem.file_size (DexParser.header dex) = Z.of_nat (length sample_flag_dex) /\
    DexParser.class_defs dex !! 0%nat = Some c /\
    ClassDefItem.access_flags c = 1.
Proof.
  destruct (DexParser.init AccessFlag.CONFORM sample_flag_dex) as [dex|e] eqn:H;
    [|vm_compute in H; discriminate].
  destruct (DexParser_init_keeps_declared_order AccessFlag.CONFORM sample_flag_dex dex H)
    as (Hfull & Hfs & _ & _ & Hrec).
  vm_compute in H. injection H as H.
  destruct (Hrec 0%nat) as (c & Hc & _ & Heq).
  - rewrite <- H. simpl. lia.
  - exists dex, c. split; [reflexivity|]. split; [exact Hfull|].
    split; [exact Hfs|]. split; [exact Hc|].
    rewrite Heq, <- H. vm_compute. reflexivity.
Defined.

Lemma DexParser_init_empty_tables_witness :
  exists h, HeaderItem.init sample_empty_dex = Ok h /\
    DexParser.init AccessFlag.STRICT sample_empty_dex
    = Ok {| DexParser.full_data := sample_empty_dex; DexParser.header := h;
            DexParser.map_list := {| MapList.size := 0; MapList.list_ := [] |};
            DexParser.string_ids := []; DexParser.type_ids := [];
            DexParser.proto_ids := []; DexParser.field_ids := [];
            DexParser.method_ids := []; DexParser.class_defs := [] |}.
Proof.
  destruct (HeaderItem.init sample_empty_dex) as [h|e] eqn:Hh;
    [|vm_compute in Hh; discriminate].
  exists h. split; [reflexivity|].
  pose proof Hh as Hv. vm_compute in Hv. injection Hv as Hv.
  apply DexParser_init_empty_tables; [exact Hh | | | | | | |];
    rewrite <- Hv; vm_compute; reflexivity.
Defined.

Lemma magic_byte_is_checked_witness :
  HeaderItem.init (<[0%nat := x00]> sample_dex) = Raise BadDexFileError.
Proof.
  destruct (HeaderItem.init sample_dex) as [h|e] eqn:Hh;
    [|vm_compute in Hh; discriminate].
  apply (magic_byte_is_checked sample_dex h 0 x00 Hh).
  - left. lia.
  - vm_compute. discriminate.
Defined.

Lemma version_bytes_are_unchecked_witness :
  exists h, HeaderItem.init sample_dex = Ok h /\
    HeaderItem.init (<[6%nat := x39]> sample_dex) = Ok (with_version [48; 51; 57] h).
Proof.
  destruct (HeaderItem.init sample_dex) as [h|e] eqn:Hh;
    [|vm_compute in Hh; discriminate].
  exists h. split; [reflexivity|].
  destruct (version_bytes_are_unchecked sample_dex h 6 x39 Hh) as [Hok _].
  - lia.
  - apply Hok. vm_compute. reflexivity.
Defined.

Lemma class_data_indices_ascend_witness :
  exists a b,
    ClassDataItem.dump_fields 0 sample_static_fields sample_field_ids !! 0%nat
    = Some (py_index sample_field_ids a) /\
    ClassDataItem.dump_fields 0 sample_static_fields sample_field_ids !! 1%nat
    = Some (py_index sample_field_ids b) /\
    0 <= a <= b.
Proof.
  destruct (class_data_indices_ascend sample_static_fields [] sample_field_ids [] 0 1)
    as [Hf _].
  - lia.
  - destruct Hf as (a & b & Ha & Hb & Hab & _).
    + simpl. lia.
    + exists a, b. auto.
Defined.

Lemma ClassDataItem_init_wellformed_witness :
  ClassDataItem.init sample_class_data
  = Ok {| ClassDataItem.static_fields_size := uleb_of [x02];
          ClassDataItem.instance_fields_size := uleb_of [x01];
          ClassDataItem.direct_mehtods_size := uleb_of [x01];
          ClassDataItem.virtual_methods_size := uleb_of [x00];
          ClassDataItem.static_fields :=
            field_of <$> [([x03], [x01]); ([x02], [x02])];
          ClassDataItem.instance_fields := field_of <$> [([x05], [x0a])];
          ClassDataItem.direct_mehtods := method_of <$> [([x01], [x01], [x80; x02])];
          ClassDataItem.virtual_methods := method_of <$> [] |}.
Proof.
  change sample_class_data
    with ([x02] ++ [x01] ++ [x01] ++ [x00]
          ++ concat (field_bytes <$> [([x03], [x01]); ([x02], [x02])])
          ++ concat (field_bytes <$> [([x05], [x0a])])
          ++ concat (method_bytes <$> [([x01], [x01], [x80; x02])])
          ++ concat (method_bytes <$> []) ++ []).
  apply ClassDataItem_init_wellformed.
  - varint_witness (@nil byte) x02.
  - varint_witness (@nil byte) x01.
  - varint_witness (@nil byte) x01.
  - varint_witness (@nil byte) x00.
  - repeat constructor; simpl;
      [varint_witness (@nil byte) x03 | varint_witness (@nil byte) x01
      | varint_witness (@nil byte) x02 | varint_witness (@nil byte) x02].
  - repeat constructor; simpl;
      [varint_witness (@nil byte) x05 | varint_witness (@nil byte) x0a].
  - repeat constructor; simpl;
      [varint_witness (@nil byte) x01 | varint_witness (@nil byte) x01
      | varint_witness [x80] x02].
  - constructor.
  - reflexivity.
  - reflexivity.
  - reflexivity.
  - reflexivity.
Defined.
